(** * Structural analyzer and reasoning-backed stages: a shallow embedding

    The development follows [utils/analyze_file_structure.py],
    [nodes/analysis.py], [nodes/relationships.py] and [nodes/output.py].

    Conventions of the embedding.
    - A Python [str] is a [string] of characters with code points below
      256: an [ascii] is the code point of a character.  Case mapping, the
      character classes and the line boundaries are those of Python on these
      code points.
    - A Python [dict] keeps insertion order: it is an association list with
      pairwise distinct keys, updated in place ([od_set], [od_upd]).  Where
      only lookups are made ([module_to_file]) a [gmap] is used.
    - A Python [set] is a [gset]; the order in which the interpreter iterates
      over a set is a field of the runtime ([iter_set]), known only to be a
      permutation of the elements.
    - [raise] is the left injection of a sum ([Raise]), a normal return the
      right one ([Return]). *)

From Stdlib Require Import ZArith QArith String Ascii List Lia.
From stdpp Require Import base gmap sets list strings sorting pretty.

Local Set Warnings "-clear-no-such-hyp".

Local Open Scope string_scope.
Local Open Scope list_scope.
Local Open Scope stdpp_scope.

(** ** Exceptions and results *)

Inductive py_exception : Type :=
  | SyntaxError
  | ValueError (msg : string)
  | TypeError
  | AttributeError
  | KeyError (key : string)
  | IndexError
  | RecursionError
  | MemoryError.

Definition result (A : Type) : Type := (py_exception + A)%type.
Definition Raise {A} (e : py_exception) : result A := inl e.
Definition Return {A} (a : A) : result A := inr a.

Definition bind {A B} (r : result A) (k : A → result B) : result B :=
  match r with
  | inl e => inl e
  | inr a => k a
  end.

Notation "'let*' x := r 'in' k" := (bind r (λ x, k))
  (at level 10, x name, r at level 100, k at level 200).

(** ** Strings, as the Python methods used by the analyzer *)

Module PyStr.

(** [c.lower()]: the letters [A] to [Z], and the capital letters from
    U+00C0 to U+00DE (U+00D7 is the multiplication sign), are 32 below their
    small letters. *)
Definition lower_char (c : ascii) : ascii :=
  let n := nat_of_ascii c in
  if ((65 <=? n)%nat && (n <=? 90)%nat)
     || ((192 <=? n)%nat && (n <=? 222)%nat && negb (n =? 215)%nat)
  then ascii_of_nat (n + 32) else c.

(** [s.lower()] *)
Fixpoint lower (s : string) : string :=
  match s with
  | EmptyString => EmptyString
  | String c s' => String (lower_char c) (lower s')
  end.

(** [sub in s] *)
Fixpoint contains (sub s : string) : bool :=
  String.prefix sub s ||
  match s with
  | EmptyString => false
  | String _ s' => contains sub s'
  end.

(** [s.replace(old, new)] for a non-empty [old]: occurrences are found from
    the left and do not overlap.  [skip] counts the characters of a matched
    occurrence that are still to be dropped. *)
Fixpoint replace_go (old new : string) (skip : nat) (s : string) : string :=
  match s with
  | EmptyString => EmptyString
  | String c s' =>
      match skip with
      | S k => replace_go old new k s'
      | O =>
          if String.prefix old s
          then new +:+ replace_go old new (String.length old - 1) s'
          else String c (replace_go old new 0 s')
      end
  end.

Definition replace (old new s : string) : string := replace_go old new 0 s.

(** [s.split(sep)] for a one-character separator *)
Fixpoint split (sep : ascii) (s : string) : list string :=
  match s with
  | EmptyString => [EmptyString]
  | String c s' =>
      let r := split sep s' in
      if decide (c = sep) then EmptyString :: r
      else match r with
           | h :: t => String c h :: t
           | [] => [String c EmptyString]
           end
  end.

(** [s.rstrip(c)] *)
Fixpoint rstrip (c : ascii) (s : string) : string :=
  match s with
  | EmptyString => EmptyString
  | String a s' =>
      match rstrip c s' with
      | EmptyString => if decide (a = c) then EmptyString else String a EmptyString
      | r => String a r
      end
  end.

Fixpoint all_char (c : ascii) (s : string) : bool :=
  match s with
  | EmptyString => true
  | String a s' => bool_decide (a = c) && all_char c s'
  end.

End PyStr.

(** ** [os.path] (the POSIX flavour) *)

Module PosixPath.

Definition sep : ascii := "/"%char.
Definition extsep : ascii := "."%char.

(** [p[:p.rfind('/') + 1]] and [p[p.rfind('/') + 1:]] *)
Fixpoint cut_last_sep (p : string) : string * string :=
  match p with
  | EmptyString => (EmptyString, EmptyString)
  | String c p' =>
      let '(h, t) := cut_last_sep p' in
      if PyStr.contains "/" p then (String c h, t)
      else (EmptyString, p)
  end.

Definition basename (p : string) : string := snd (cut_last_sep p).

Definition dirname (p : string) : string :=
  let head := fst (cut_last_sep p) in
  if negb (bool_decide (head = EmptyString)) && negb (PyStr.all_char sep head)
  then PyStr.rstrip sep head
  else head.

(** [name[:name.rfind('.')]] and [name[name.rfind('.'):]], when [name] has
    a dot *)
Fixpoint cut_last_dot (name : string) : option (string * string) :=
  match name with
  | EmptyString => None
  | String c name' =>
      match cut_last_dot name' with
      | Some (r, e) => Some (String c r, e)
      | None => if decide (c = extsep) then Some (EmptyString, name) else None
      end
  end.

(** [os.path.splitext]: the extension starts at the last dot of the last
    component, unless only dots come before it in that component. *)
Definition splitext (p : string) : string * string :=
  let '(head, name) := cut_last_sep p in
  match cut_last_dot name with
  | Some (r, e) =>
      if PyStr.all_char extsep r then (p, EmptyString)
      else (head +:+ r, e)
  | None => (p, EmptyString)
  end.

End PosixPath.

(** ** Insertion-ordered dictionaries *)

Section ordered_dict.
Context {K V : Type} `{EqDecision K}.

Fixpoint od_get (k : K) (d : list (K * V)) : option V :=
  match d with
  | [] => None
  | (k', v) :: d' => if decide (k = k') then Some v else od_get k d'
  end.

(** [d[k] = v] *)
Fixpoint od_set (k : K) (v : V) (d : list (K * V)) : list (K * V) :=
  match d with
  | [] => [(k, v)]
  | (k', v') :: d' =>
      if decide (k = k') then (k', v) :: d' else (k', v') :: od_set k v d'
  end.

(** [d[k] = f(d[k])] on a [defaultdict] whose factory gives [dflt] *)
Fixpoint od_upd (dflt : V) (f : V → V) (k : K) (d : list (K * V)) : list (K * V) :=
  match d with
  | [] => [(k, f dflt)]
  | (k', v') :: d' =>
      if decide (k = k') then (k', f v') :: d' else (k', v') :: od_upd dflt f k d'
  end.

Definition od_keys (d : list (K * V)) : list K := d.*1.

End ordered_dict.

(** ** The interpreter's services

    The parser, the regular-expression engine and the iteration order of sets
    belong to the Python runtime.  [ast_walk_parse content] stands for
    [ast.walk(ast.parse(content))]: the exception raised by the parser, or the
    nodes of the tree in the order [ast.walk] yields them. *)

Inductive ast_node : Type :=
  | Import (names : list string)
  | ImportFrom (module : option string)
  | FunctionDef (name : string)
  | ClassDef (name : string)
  | OtherNode.

Record Runtime : Type := {
  ast_walk_parse : string → result (list ast_node);
  (** [re.findall(pattern, content, flags)]; the flag is [re.MULTILINE] *)
  re_findall : string → bool → string → list string;
  (** [re.search(pattern, content)] found a match *)
  re_search : string → string → bool;
  (** [len(content.splitlines())] *)
  count_lines : string → nat;
  (** [str(d.keys())] of a dictionary with these keys *)
  str_of_keys : list string → string;
  (** iteration over a set *)
  iter_set : gset string → list string;
  iter_set_perm : ∀ s, iter_set s ≡ₚ elements s;
}.

(** ** [build_dependency_graph] *)

Section dependency_graph.
Context (rt : Runtime).

(** [file_path.replace('/', '.').replace('\\', '.').replace('.py', '')] *)
Definition module_name (file_path : string) : string :=
  PyStr.replace ".py" EmptyString
    (PyStr.replace "\" "." (PyStr.replace "/" "." file_path)).

(** [os.path.splitext(os.path.basename(file_path))[0]] *)
Definition file_stem (file_path : string) : string :=
  fst (PosixPath.splitext (PosixPath.basename file_path)).

Definition register_file (module_to_file : gmap string string)
    (file_path : string) : gmap string string :=
  <[file_stem file_path := file_path]>
    (<[module_name file_path := file_path]> module_to_file).

Definition module_to_file (all_files : list string) : gmap string string :=
  foldl register_file ∅ all_files.

Definition add_import (m2f : gmap string string) (file_path : string)
    (dependencies : list (string * gset string)) (imported_module : string)
    : list (string * gset string) :=
  match m2f !! imported_module with
  | Some target_file =>
      if decide (target_file ≠ file_path)
      then od_upd ∅ (λ s, s ∪ {[target_file]}) file_path dependencies
      else dependencies
  | None => dependencies
  end.

Definition add_file_imports (m2f : gmap string string)
    (dependencies : list (string * gset string))
    (entry : string * gset string) : list (string * gset string) :=
  foldl (add_import m2f entry.1) dependencies (iter_set rt entry.2).

Definition build_dependency_graph (imports : list (string * gset string))
    (all_files : list string) : list (string * gset string) :=
  foldl (add_file_imports (module_to_file all_files)) [] imports.

End dependency_graph.

(** An edge [A → B] of a dependency graph. *)
Definition has_edge (dependencies : list (string * gset string))
    (A B : string) : Prop :=
  ∃ s, od_get A dependencies = Some s ∧ B ∈ s.

Definition has_edgeb (dependencies : list (string * gset string))
    (A B : string) : bool :=
  match od_get A dependencies with
  | Some s => bool_decide (B ∈ s)
  | None => false
  end.


(** ** Per-file extraction *)

Record file_info : Type := {
  fi_size : nat;
  fi_lines : nat;
  fi_imports : gset string;
  fi_exports : gset string;
  fi_functions : list string;
  fi_classes : list string;
  fi_has_main : bool;
  fi_is_config : bool;
  fi_language : string;
}.

Definition with_imports (names : list string) (fi : file_info) : file_info :=
  {| fi_size := fi_size fi; fi_lines := fi_lines fi;
     fi_imports := fi_imports fi ∪ list_to_set names;
     fi_exports := fi_exports fi; fi_functions := fi_functions fi;
     fi_classes := fi_classes fi; fi_has_main := fi_has_main fi;
     fi_is_config := fi_is_config fi; fi_language := fi_language fi |}.

Definition with_exports (names : list string) (fi : file_info) : file_info :=
  {| fi_size := fi_size fi; fi_lines := fi_lines fi;
     fi_imports := fi_imports fi;
     fi_exports := fi_exports fi ∪ list_to_set names;
     fi_functions := fi_functions fi;
     fi_classes := fi_classes fi; fi_has_main := fi_has_main fi;
     fi_is_config := fi_is_config fi; fi_language := fi_language fi |}.

Definition with_functions (names : list string) (fi : file_info) : file_info :=
  {| fi_size := fi_size fi; fi_lines := fi_lines fi;
     fi_imports := fi_imports fi; fi_exports := fi_exports fi;
     fi_functions := fi_functions fi ++ names;
     fi_classes := fi_classes fi; fi_has_main := fi_has_main fi;
     fi_is_config := fi_is_config fi; fi_language := fi_language fi |}.

Definition with_classes (names : list string) (fi : file_info) : file_info :=
  {| fi_size := fi_size fi; fi_lines := fi_lines fi;
     fi_imports := fi_imports fi; fi_exports := fi_exports fi;
     fi_functions := fi_functions fi;
     fi_classes := fi_classes fi ++ names; fi_has_main := fi_has_main fi;
     fi_is_config := fi_is_config fi; fi_language := fi_language fi |}.

Definition with_has_main (b : bool) (fi : file_info) : file_info :=
  {| fi_size := fi_size fi; fi_lines := fi_lines fi;
     fi_imports := fi_imports fi; fi_exports := fi_exports fi;
     fi_functions := fi_functions fi;
     fi_classes := fi_classes fi; fi_has_main := b;
     fi_is_config := fi_is_config fi; fi_language := fi_language fi |}.

Definition with_is_config (b : bool) (fi : file_info) : file_info :=
  {| fi_size := fi_size fi; fi_lines := fi_lines fi;
     fi_imports := fi_imports fi; fi_exports := fi_exports fi;
     fi_functions := fi_functions fi;
     fi_classes := fi_classes fi; fi_has_main := fi_has_main fi;
     fi_is_config := b; fi_language := fi_language fi |}.

(** The double quote, which the patterns below contain. *)
Definition dq : string := String (ascii_of_nat 34) EmptyString.

Definition lang_map : list (string * string) :=
  [ (".py", "python"); (".pyi", "python"); (".pyx", "python");
    (".js", "javascript"); (".jsx", "javascript");
    (".ts", "typescript"); (".tsx", "typescript");
    (".go", "go");
    (".java", "java");
    (".c", "c"); (".h", "c");
    (".cpp", "cpp"); (".cc", "cpp"); (".cxx", "cpp");
    (".rs", "rust");
    (".rb", "ruby");
    (".php", "php");
    (".swift", "swift");
    (".kt", "kotlin") ].

Definition detect_language (file_path : string) : string :=
  let ext := PyStr.lower (PosixPath.splitext file_path).2 in
  default "unknown" (od_get ext lang_map).

Definition config_indicators : list string :=
  [ "config"; "settings"; "setup"; "Makefile"; "Dockerfile";
    ".json"; ".yaml"; ".yml"; ".toml"; ".ini"; ".cfg";
    ".env"; ".properties" ].

Definition is_config_file (file_path content : string) : bool :=
  let file_lower := PyStr.lower file_path in
  existsb (λ indicator, PyStr.contains indicator file_lower) config_indicators.

Section extraction.
Context (rt : Runtime).

Definition py_identifier : string := "[a-zA-Z_][a-zA-Z0-9_]*".
Definition py_dotted : string :=
  "([a-zA-Z_][a-zA-Z0-9_]*(?:\.[a-zA-Z_][a-zA-Z0-9_]*)*)".

Definition analyze_python_regex (content : string) (fi : file_info) : file_info :=
  let import_patterns :=
    [ "^\s*import\s+" +:+ py_dotted;
      "^\s*from\s+" +:+ py_dotted +:+ "\s+import" ] in
  let fi := foldl (λ fi pattern,
              with_imports (re_findall rt pattern true content) fi)
              fi import_patterns in
  let func_matches :=
    re_findall rt ("^\s*def\s+(" +:+ py_identifier +:+ ")") true content in
  let class_matches :=
    re_findall rt ("^\s*class\s+(" +:+ py_identifier +:+ ")") true content in
  let fi := with_classes class_matches (with_functions func_matches fi) in
  if PyStr.contains "def main(" content
     || PyStr.contains ("if __name__ == " +:+ dq +:+ "__main__" +:+ dq) content
  then with_has_main true fi
  else fi.

(** One step of the loop over [ast.walk(tree)]. *)
Definition visit_node (fi : file_info) (node : ast_node) : file_info :=
  match node with
  | Import names => with_imports names fi
  | ImportFrom module =>
      match module with
      | Some m => if decide (m = EmptyString) then fi else with_imports [m] fi
      | None => fi
      end
  | FunctionDef name =>
      let fi := with_functions [name] fi in
      if decide (name = "main") then with_has_main true fi else fi
  | ClassDef name => with_classes [name] fi
  | OtherNode => fi
  end.

(** [try: ... except SyntaxError: analyze_python_regex(...)]: only a
    [SyntaxError] is handled, any other exception leaves the function. *)
Definition analyze_python_file (content : string) (fi : file_info)
    : result file_info :=
  match ast_walk_parse rt content with
  | inr nodes => Return (foldl visit_node fi nodes)
  | inl SyntaxError => Return (analyze_python_regex content fi)
  | inl e => Raise e
  end.

Definition js_quote : string := "[\'" +:+ dq +:+ "`]".
Definition js_quoted : string := "([^\'" +:+ dq +:+ "`]+)".

Definition analyze_js_ts_file (content : string) (fi : file_info) : file_info :=
  let import_patterns :=
    [ "import\s+.*?\s+from\s+" +:+ js_quote +:+ js_quoted +:+ js_quote;
      "import\s+" +:+ js_quote +:+ js_quoted +:+ js_quote;
      "require\(" +:+ js_quote +:+ js_quoted +:+ js_quote +:+ "\)" ] in
  let fi := foldl (λ fi pattern,
              with_imports (re_findall rt pattern false content) fi)
              fi import_patterns in
  if re_search rt "export\s+(default\s+)?" content
  then with_exports
         [if PyStr.contains "export default" content then "default" else "named"] fi
  else fi.

Definition analyze_go_file (content : string) (fi : file_info) : file_info :=
  let import_matches :=
    re_findall rt ("import\s+[" +:+ dq +:+ "`]([^" +:+ dq +:+ "`]+)["
                   +:+ dq +:+ "`]") false content in
  let fi := with_imports import_matches fi in
  let func_matches :=
    re_findall rt ("func\s+(" +:+ py_identifier +:+ ")") false content in
  let fi := with_functions func_matches fi in
  if PyStr.contains "func main(" content then with_has_main true fi else fi.

Definition analyze_java_file (content : string) (fi : file_info) : file_info :=
  let import_matches :=
    re_findall rt "import\s+([a-zA-Z_][a-zA-Z0-9_.]*);" false content in
  let fi := with_imports import_matches fi in
  let class_matches :=
    re_findall rt ("class\s+(" +:+ py_identifier +:+ ")") false content in
  with_classes class_matches fi.

Definition analyze_c_cpp_file (content : string) (fi : file_info) : file_info :=
  let include_matches :=
    re_findall rt ("#include\s+[<" +:+ dq +:+ "]([^>" +:+ dq +:+ "]+)[>"
                   +:+ dq +:+ "]") false content in
  let fi := with_imports include_matches fi in
  let func_matches :=
    re_findall rt
      ("^\s*(?:static\s+)?(?:inline\s+)?[a-zA-Z_][a-zA-Z0-9_*\s]+\s+("
       +:+ py_identifier +:+ ")\s*\(") true content in
  let fi := with_functions func_matches fi in
  if PyStr.contains "int main(" content then with_has_main true fi else fi.

Definition analyze_single_file (file_path content : string) : result file_info :=
  let fi :=
    {| fi_size := String.length content;
       fi_lines := count_lines rt content;
       fi_imports := ∅; fi_exports := ∅;
       fi_functions := []; fi_classes := [];
       fi_has_main := false; fi_is_config := false;
       fi_language := detect_language file_path |} in
  let* fi :=
    (if decide (fi_language fi = "python") then analyze_python_file content fi
     else if bool_decide (fi_language fi ∈ ["javascript"; "typescript"])
          then Return (analyze_js_ts_file content fi)
     else if bool_decide (fi_language fi ∈ ["go"])
          then Return (analyze_go_file content fi)
     else if bool_decide (fi_language fi ∈ ["java"])
          then Return (analyze_java_file content fi)
     else if bool_decide (fi_language fi ∈ ["c"; "cpp"])
          then Return (analyze_c_cpp_file content fi)
     else Return fi) in
  Return (with_is_config (is_config_file file_path content) fi).

End extraction.

(** ** Entry points *)

Definition entry_names : list string :=
  ["main.py"; "app.py"; "server.py"; "index.js"; "main.go"; "main.java"].

Definition setup_names : list string := ["setup.py"; "__init__.py"].

(** The body of the loop of [identify_entry_points]: each of the first two
    tests ends in [continue], the third is the last statement. *)
Definition entry_step (entry_points : list string)
    (item : string * file_info) : list string :=
  let '(file_path, fi) := item in
  if fi_has_main fi then entry_points ++ [file_path]
  else
    let basename := PyStr.lower (PosixPath.basename file_path) in
    if bool_decide (basename ∈ entry_names) then entry_points ++ [file_path]
    else if bool_decide (basename ∈ setup_names) && (100 <? fi_size fi)%nat
         then entry_points ++ [file_path]
         else entry_points.

Definition identify_entry_points (infos : list (string * file_info)) : list string :=
  foldl entry_step [] infos.

(** ** Core modules *)

(** [sorted(items, key=lambda x: x[1], reverse=True)].  The sort of the
    interpreter is stable, also with [reverse=True]; a stable sort has one
    possible result, computed here by insertion. *)
Fixpoint insert_desc (x : string * nat) (l : list (string * nat))
    : list (string * nat) :=
  match l with
  | [] => [x]
  | y :: l' => if (x.2 <? y.2)%nat then y :: insert_desc x l' else x :: y :: l'
  end.

Definition sorted_desc (l : list (string * nat)) : list (string * nat) :=
  foldr insert_desc [] l.

Section core_modules.
Context (rt : Runtime).

(** [dependents[dep] += 1] *)
Definition bump (dependents : list (string * nat)) (dep : string)
    : list (string * nat) :=
  od_upd 0%nat S dep dependents.

(** ... for every [dep] of an entry *)
Definition count_entry (dependents : list (string * nat))
    (entry : string * gset string) : list (string * nat) :=
  foldl bump dependents (iter_set rt entry.2).

Definition count_dependents (dependencies : list (string * gset string))
    : list (string * nat) :=
  foldl count_entry [] dependencies.

Definition identify_core_modules (dependencies : list (string * gset string))
    : list (string * nat) :=
  take 10 (sorted_desc (count_dependents dependencies)).

End core_modules.

(** ** Directory shape and patterns *)

Record directory_structure : Type := {
  ds_directories : list (string * list string);
  ds_depth : nat;
  ds_common_dirs : list string;
}.

Definition group_by_directory (file_paths : list string)
    : list (string * list string) :=
  foldl (λ directories file_path,
    let dir_path := PosixPath.dirname file_path in
    if decide (dir_path = EmptyString) then directories
    else od_upd [] (λ names, names ++ [PosixPath.basename file_path])
           dir_path directories) [] file_paths.

(** [max(iterable)]: an empty iterable raises [ValueError]; the message is
    the one of CPython up to 3.11. *)
Definition py_max (l : list nat) : result nat :=
  match l with
  | [] => Raise (ValueError "max() arg is an empty sequence")
  | x :: l' => Return (foldl Nat.max x l')
  end.

Definition analyze_directory_structure (file_paths : list string)
    : result directory_structure :=
  let directories := group_by_directory file_paths in
  let* depth := py_max ((λ path, length (PyStr.split "/" path)) <$> file_paths) in
  Return {| ds_directories := directories;
            ds_depth := depth;
            ds_common_dirs :=
              (filter (λ entry, (3 < length entry.2)%nat) directories).*1 |}.

Record patterns : Type := {
  pt_mvc : bool;
  pt_layered : bool;
  pt_has_tests : bool;
  pt_modular : bool;
}.

Section patterns.
Context (rt : Runtime).

Definition detect_patterns (ds : directory_structure) : patterns :=
  let directories := ds_directories ds in
  let keys_text := PyStr.lower (str_of_keys rt directories.*1) in
  {| pt_mvc :=
       existsb (λ d, PyStr.contains d keys_text)
         ["models"; "views"; "controllers"];
     pt_layered :=
       existsb (λ d, PyStr.contains d keys_text)
         ["service"; "repository"; "controller"; "entity"];
     pt_has_tests :=
       existsb (λ d, PyStr.contains "test" (PyStr.lower d)) directories.*1;
     pt_modular := (3 <? length directories)%nat |}.

End patterns.

(** ** [analyze_file_structure] *)

Record structure : Type := {
  st_file_info : list (string * file_info);
  st_imports : list (string * gset string);
  st_exports : list (string * gset string);
  st_dependencies : list (string * gset string);
  st_entry_points : list string;
  st_core_modules : list (string * nat);
  st_file_types : list (string * nat);
  st_directory_structure : directory_structure;
  st_patterns : patterns;
}.

(** What the first loop of [analyze_file_structure] accumulates. *)
Record scan : Type := {
  sc_file_info : list (string * file_info);
  sc_imports : list (string * gset string);
  sc_exports : list (string * gset string);
  sc_file_types : list (string * nat);
}.

Definition empty_scan : scan :=
  {| sc_file_info := []; sc_imports := []; sc_exports := []; sc_file_types := [] |}.

Section analyzer.
Context (rt : Runtime).

(** A non-empty set is truthy. *)
Definition truthy_set (s : gset string) : bool :=
  negb (bool_decide (s = ∅)).

Definition scan_file (acc : scan) (file_path content : string) : result scan :=
  let* fi := analyze_single_file rt file_path content in
  let ext := (PosixPath.splitext file_path).2 in
  Return
    {| sc_file_info := od_set file_path fi (sc_file_info acc);
       sc_file_types := od_upd 0%nat S ext (sc_file_types acc);
       sc_imports :=
         if truthy_set (fi_imports fi)
         then od_set file_path (fi_imports fi) (sc_imports acc)
         else sc_imports acc;
       sc_exports :=
         if truthy_set (fi_exports fi)
         then od_set file_path (fi_exports fi) (sc_exports acc)
         else sc_exports acc |}.

Fixpoint scan_files (acc : scan) (files : list (string * string)) : result scan :=
  match files with
  | [] => Return acc
  | (file_path, content) :: files' =>
      let* acc := scan_file acc file_path content in
      scan_files acc files'
  end.

Definition analyze_file_structure (files : list (string * string))
    : result structure :=
  let* sc := scan_files empty_scan files in
  let dependencies := build_dependency_graph rt (sc_imports sc) files.*1 in
  let entry_points := identify_entry_points (sc_file_info sc) in
  let core_modules := identify_core_modules rt dependencies in
  let* ds := analyze_directory_structure files.*1 in
  let pats := detect_patterns rt ds in
  Return
    {| st_file_info := sc_file_info sc;
       st_imports := sc_imports sc;
       st_exports := sc_exports sc;
       st_dependencies := dependencies;
       st_entry_points := entry_points;
       st_core_modules := core_modules;
       st_file_types := sc_file_types sc;
       st_directory_structure := ds;
       st_patterns := pats |}.

End analyzer.

(** ** Parsed responses of the reasoning service

    What [yaml.safe_load] returns for the JSON-like core of YAML.  A finite
    float is given by its exact value. *)

Local Set Warnings "-register-all".

Inductive pyfloat : Type :=
  | FNan
  | FInf (negative : bool)
  | FFinite (q : Q).

Inductive yaml : Type :=
  | YNull
  | YBool (b : bool)
  | YInt (z : Z)
  | YFloat (f : pyfloat)
  | YStr (s : string)
  | YList (items : list yaml)
  | YDict (entries : list (string * yaml)).

(** [isinstance(v, int)]: [bool] is a subclass of [int], with [True == 1]. *)
Definition as_int (v : yaml) : option Z :=
  match v with
  | YInt z => Some z
  | YBool b => Some (Z.b2z b)
  | _ => None
  end.

(** [0 <= idx < n]: numbers are compared by value, anything else is not
    comparable with an [int]. *)
Definition in_range (n : nat) (idx : yaml) : result bool :=
  match idx with
  | YInt z => Return (bool_decide (0 ≤ z < Z.of_nat n)%Z)
  | YBool b => Return (bool_decide (0 ≤ Z.b2z b < Z.of_nat n)%Z)
  | YFloat FNan => Return false
  | YFloat (FInf _) => Return false
  | YFloat (FFinite q) =>
      Return (Qle_bool 0 q && negb (Qle_bool (inject_Z (Z.of_nat n)) q))
  | _ => Raise TypeError
  end.

(** [for item in v] *)
Definition py_iter (v : yaml) : result (list yaml) :=
  match v with
  | YList items => Return items
  | YDict entries => Return (YStr <$> entries.*1)
  | YStr s => Return ((λ c, YStr (String c EmptyString)) <$> list_ascii_of_string s)
  | _ => Raise TypeError
  end.

(** *** [IdentifyCore.exec], from the parsed response on *)

Definition core_step (n_files : nat) (acc : result (list yaml)) (item : yaml)
    : result (list yaml) :=
  let* core_indices := acc in
  match item with
  | YDict entries =>
      match od_get "index" entries with
      | Some idx =>
          let* ok := in_range n_files idx in
          Return (if ok then core_indices ++ [idx] else core_indices)
      | None => Return core_indices
      end
  | _ => Return core_indices
  end.

Definition IdentifyCore_select (n_files : nat) (core_selection : yaml)
    : result (list yaml) :=
  match core_selection with
  | YDict entries =>
      match od_get "core_files" entries with
      | Some core_files =>
          let* items := py_iter core_files in
          foldl (core_step n_files) (Return []) items
      | None => Raise (ValueError "LLM response missing core_files")
      end
  | _ => Raise (ValueError "LLM response missing core_files")
  end.

(** *** [OrderChapters.exec], from the parsed response on *)

(** [isinstance(idx, int) and 0 <= idx < len(abstractions)] *)
Definition valid_index (n : nat) (idx : yaml) : option Z :=
  match as_int idx with
  | Some z => if bool_decide (0 ≤ z < Z.of_nat n)%Z then Some z else None
  | None => None
  end.

(** [list(range(n))] *)
Definition py_range (n : nat) : list Z := Z.of_nat <$> seq 0 n.

Definition OrderChapters_order (n_abstractions : nat) (parsed : yaml)
    : result (list Z) :=
  match parsed with
  | YDict entries =>
      match od_get "chapter_order" entries with
      | Some (YList chapter_order) =>
          let valid_order := omap (valid_index n_abstractions) chapter_order in
          Return (match valid_order with
                  | [] => py_range n_abstractions
                  | _ => valid_order
                  end)
      | Some _ => Raise (ValueError "chapter_order must be a list")
      | None => Raise (ValueError "Invalid response format - missing chapter_order")
      end
  | _ => Raise (ValueError "Invalid response format - missing chapter_order")
  end.

(** *** [IdentifyAbstractions.exec] and [AnalyzeRelationships.exec], from the
    parsed response on *)

Definition IdentifyAbstractions_check (parsed : yaml) : result (list yaml) :=
  match parsed with
  | YDict entries =>
      match od_get "abstractions" entries with
      | Some (YList (a :: abstractions)) => Return (a :: abstractions)
      | Some _ => Raise (ValueError "No abstractions identified")
      | None => Raise (ValueError "Invalid response format - missing abstractions")
      end
  | _ => Raise (ValueError "Invalid response format - missing abstractions")
  end.

(** [key in v] for a string [key] *)
Definition py_contains (key : string) (v : yaml) : result bool :=
  match v with
  | YDict entries => Return (bool_decide (is_Some (od_get key entries)))
  | YList items =>
      Return (existsb (λ i, match i with
                            | YStr s => bool_decide (s = key)
                            | _ => false
                            end) items)
  | YStr s => Return (PyStr.contains key s)
  | _ => Raise TypeError
  end.

Definition AnalyzeRelationships_check (parsed : yaml) : result yaml :=
  foldl (λ acc key,
    let* _ := acc in
    let* present := py_contains key parsed in
    if present then Return parsed
    else Raise (ValueError ("Missing required key: " +:+ key)))
    (Return parsed)
    ["summary"; "architecture_overview"; "component_relationships"].

(** ** The reasoning adapter *)

Record llm_call : Type := {
  lc_prompt : string;
  lc_use_cache : bool;
}.

(** [utils/call_llm.py] is not among the sources: the adapter, the default
    of its [use_cache] parameter and the extraction of the fenced block
    followed by [yaml.safe_load] are taken as given. *)
Record Adapter : Type := {
  call_llm : llm_call → string;
  default_use_cache : bool;
  load_yaml_block : string → result yaml;
}.

(** One attempt of a unit of work: the adapter calls it made, and how it
    ended. *)
Definition attempt (A : Type) : Type := (list llm_call * result A)%type.

Section stages.
Context (rt : Runtime) (ad : Adapter).

(** [response = call_llm(prompt, use_cache=flag)], then the rest of [exec].
    The prompt is an f-string over [prep_res]; building it can raise. *)
Definition ask {A} (prompt : result string) (flag : bool)
    (rest : string → result A) : attempt A :=
  match prompt with
  | inl e => ([], Raise e)
  | inr p =>
      let c := {| lc_prompt := p; lc_use_cache := flag |} in
      ([c], rest (call_llm ad c))
  end.

(** [call_llm(prompt, use_cache=(use_cache and self.cur_retry == 0))] *)
Definition AnalyzeStructure_exec (files_dict : list (string * string))
    (prompt : structure → result string) (use_cache : bool)
    (cur_retry : nat) : attempt (structure * yaml) :=
  match analyze_file_structure rt files_dict with
  | inl e => ([], Raise e)
  | inr st =>
      ask (prompt st) (use_cache && (cur_retry =? 0)%nat)
        (λ response,
           let* llm_analysis := load_yaml_block ad response in
           Return (st, llm_analysis))
  end.

(** [call_llm(prompt, use_cache=(use_cache and self.cur_retry == 0))] *)
Definition IdentifyCore_exec (n_files : nat) (prompt : result string)
    (use_cache : bool) (cur_retry : nat) : attempt (list yaml) :=
  ask prompt (use_cache && (cur_retry =? 0)%nat)
    (λ response,
       let* core_selection := load_yaml_block ad response in
       IdentifyCore_select n_files core_selection).

(** [call_llm(prompt)] *)
Definition IdentifyAbstractions_exec (prompt : result string)
    (cur_retry : nat) : attempt (list yaml) :=
  ask prompt (default_use_cache ad)
    (λ response,
       let* parsed := load_yaml_block ad response in
       IdentifyAbstractions_check parsed).

(** [call_llm(prompt)] *)
Definition AnalyzeRelationships_exec (prompt : result string)
    (cur_retry : nat) : attempt yaml :=
  ask prompt (default_use_cache ad)
    (λ response,
       let* parsed := load_yaml_block ad response in
       AnalyzeRelationships_check parsed).

(** [call_llm(prompt)] *)
Definition OrderChapters_exec (n_abstractions : nat) (prompt : result string)
    (cur_retry : nat) : attempt (list Z) :=
  ask prompt (default_use_cache ad)
    (λ response,
       let* parsed := load_yaml_block ad response in
       OrderChapters_order n_abstractions parsed).

(** [call_llm(prompt)] *)
Definition WriteProjectOverview_exec (prompt : result string)
    (cur_retry : nat) : attempt string :=
  ask prompt (default_use_cache ad) (λ response, Return response).

(** [call_llm(prompt)], for one chapter *)
Definition WriteChapters_exec (prompt : result string)
    (cur_retry : nat) : attempt string :=
  ask prompt (default_use_cache ad) (λ response, Return response).

End stages.

(** ** The engine *)

(** Modelled from the spec: the orchestration engine (the [pocketflow]
    package: [Node], [Flow]) is not among the sources.  "A stage's unit of
    work is attempted up to its budget; on failure the engine waits a fixed
    delay and retries; after the budget is exhausted the failure propagates
    and the entire run terminates."  The budget is [S extra] attempts;
    [cur_retry] counts the attempts already made. *)
Fixpoint attempts {A} (exec : nat → attempt A) (cur_retry extra : nat)
    : attempt A :=
  let '(calls, r) := exec cur_retry in
  match r with
  | inr a => (calls, Return a)
  | inl e =>
      match extra with
      | O => (calls, Raise e)
      | S extra' =>
          let '(calls', r') := attempts exec (S cur_retry) extra' in
          (calls ++ calls', r')
      end
  end.

(** ** The shared context and the fetch stage *)

Inductive value : Type :=
  | VNone
  | VBool (b : bool)
  | VInt (z : Z)
  | VStr (s : string)
  | VStrs (l : list string)
  | VFiles (files : list (string * string)).

(** [bool(v)] *)
Definition truthy (v : value) : bool :=
  match v with
  | VNone => false
  | VBool b => b
  | VInt z => negb (z =? 0)%Z
  | VStr s => negb (bool_decide (s = EmptyString))
  | VStrs l => negb (bool_decide (l = []))
  | VFiles l => negb (bool_decide (l = []))
  end.

(** [shared.get(key)] and [shared[key]] *)
Definition shared_get (shared : gmap string value) (key : string) : value :=
  default VNone (shared !! key).

Definition shared_item (shared : gmap string value) (key : string) : result value :=
  match shared !! key with
  | Some v => Return v
  | None => Raise (KeyError key)
  end.

Record fetch_request : Type := {
  fr_repo_url : value;
  fr_local_dir : value;
  fr_token : value;
  fr_include_patterns : value;
  fr_exclude_patterns : value;
  fr_max_file_size : value;
  fr_use_relative_paths : bool;
}.

(** The Source Provider: [crawl_github_files] and [crawl_local_files] return
    a dictionary whose [files] entry, when present, maps paths to contents;
    [abspath] is [os.path.abspath]. *)
Record Provider : Type := {
  crawl_github_files : fetch_request → result (option (list (string * string)));
  crawl_local_files : fetch_request → result (option (list (string * string)));
  abspath : string → string;
}.

Section fetch.
Context (pv : Provider).

(** [repo_url.split('/')[-1].replace('.git', '')] *)
Definition name_of_url (repo_url : string) : string :=
  PyStr.replace ".git" EmptyString (List.last (PyStr.split "/" repo_url) EmptyString).

Definition derive_project_name (repo_url local_dir : value) : result string :=
  if truthy repo_url then
    match repo_url with
    | VStr url => Return (name_of_url url)
    | _ => Raise AttributeError
    end
  else
    match local_dir with
    | VStr dir => Return (PosixPath.basename (abspath pv dir))
    | _ => Raise TypeError
    end.

(** [prep] writes the derived project name into the shared context before
    it reads the patterns. *)
Definition FetchRepo_prep (shared : gmap string value)
    : gmap string value * result fetch_request :=
  let repo_url := shared_get shared "repo_url" in
  let local_dir := shared_get shared "local_dir" in
  let project_name := shared_get shared "project_name" in
  let named : gmap string value * result unit :=
    if truthy project_name then (shared, Return tt)
    else match derive_project_name repo_url local_dir with
         | inl e => (shared, Raise e)
         | inr name => (<["project_name" := VStr name]> shared, Return tt)
         end in
  let '(shared, r) := named in
  (shared,
   let* _ := r in
   let* include_patterns := shared_item shared "include_patterns" in
   let* exclude_patterns := shared_item shared "exclude_patterns" in
   let* max_file_size := shared_item shared "max_file_size" in
   Return {| fr_repo_url := repo_url;
             fr_local_dir := local_dir;
             fr_token := shared_get shared "github_token";
             fr_include_patterns := include_patterns;
             fr_exclude_patterns := exclude_patterns;
             fr_max_file_size := max_file_size;
             fr_use_relative_paths := true |}).

Definition FetchRepo_exec (prep_res : fetch_request)
    : result (list (string * string)) :=
  let* crawled :=
    (if truthy (fr_repo_url prep_res) then crawl_github_files pv prep_res
     else crawl_local_files pv prep_res) in
  let files_list := default [] crawled in
  if decide (length files_list = 0%nat)
  then Raise (ValueError "Failed to fetch files")
  else Return files_list.

Definition FetchRepo_post (shared : gmap string value)
    (exec_res : list (string * string)) : gmap string value :=
  <["files" := VFiles exec_res]> shared.

(** Modelled from the spec: how the engine runs one stage, which is not
    among the sources.  The stage reads the context ([prep]), its unit of
    work is attempted within the budget ([exec]), and on success its outputs
    are written ([post]); a failure leaves the stage with the shared context
    as it is at that point. *)
Definition FetchRepo_run (extra : nat) (shared : gmap string value)
    : gmap string value * result unit :=
  let '(shared, p) := FetchRepo_prep shared in
  match p with
  | inl e => (shared, Raise e)
  | inr prep_res =>
      match (attempts (λ _, ([], FetchRepo_exec prep_res)) 0 extra).2 with
      | inl e => (shared, Raise e)
      | inr exec_res => (FetchRepo_post shared exec_res, Return tt)
      end
  end.

End fetch.

(** A stage of the flow, and the outcome of a run. *)
Record stage : Type := {
  stage_name : string;
  stage_run : gmap string value → gmap string value * result unit;
}.

Record run_report : Type := {
  rr_shared : gmap string value;
  rr_invoked : list string;
  rr_failure : option (string * py_exception);
}.

(** Modelled from the spec: the flow of the engine, which is not among the
    sources.  "Strictly sequential across stages (stage N+1 never starts
    before stage N completes)"; a failure that leaves a stage terminates
    the run. *)
Fixpoint run_flow (stages : list stage) (shared : gmap string value) : run_report :=
  match stages with
  | [] => {| rr_shared := shared; rr_invoked := []; rr_failure := None |}
  | s :: stages' =>
      match stage_run s shared with
      | (shared', inl e) =>
          {| rr_shared := shared'; rr_invoked := [stage_name s];
             rr_failure := Some (stage_name s, e) |}
      | (shared', inr _) =>
          let r := run_flow stages' shared' in
          {| rr_shared := rr_shared r;
             rr_invoked := stage_name s :: rr_invoked r;
             rr_failure := rr_failure r |}
      end
  end.

Definition FetchRepo_stage (pv : Provider) (extra : nat) : stage :=
  {| stage_name := "FetchRepo"; stage_run := FetchRepo_run pv extra |}.

(** ** Notions used to state the properties *)

(** The imports the scan records for a file, as the extraction found them. *)
Definition recorded_import (item : string * file_info)
    : option (string * gset string) :=
  if truthy_set (fi_imports item.2) then Some (item.1, fi_imports item.2)
  else None.

Definition extracted (rt : Runtime) (file : string * string)
    (item : string * file_info) : Prop :=
  item.1 = file.1 ∧ analyze_single_file rt file.1 file.2 = inr item.2.

(** The files that qualify as entry points. *)
Definition is_entry (item : string * file_info) : bool :=
  fi_has_main item.2
  || bool_decide (PyStr.lower (PosixPath.basename item.1) ∈ entry_names)
  || (bool_decide (PyStr.lower (PosixPath.basename item.1) ∈ setup_names)
      && (100 <? fi_size item.2)%nat).

(** In-degree: how many files hold an edge into [f]. *)
Definition in_degree (dependencies : list (string * gset string)) (f : string) : nat :=
  length (filter (λ entry, f ∈ entry.2) dependencies).

(** The files that hold an edge into [f]. *)
Definition dependent_files (dependencies : list (string * gset string))
    (f : string) : list string :=
  filter (λ A, has_edgeb dependencies A f = true) dependencies.*1.

(** The targets of the edges, in the order the loop of
    [identify_core_modules] meets them, and the order of first sight. *)
Definition seen (rt : Runtime) (dependencies : list (string * gset string))
    : list string :=
  concat ((λ entry, iter_set rt entry.2) <$> dependencies).

Definition note_first (order : list string) (x : string) : list string :=
  if bool_decide (x ∈ order) then order else order ++ [x].

Definition first_seen (l : list string) : list string := foldl note_first [] l.

(** The order of the ranking: the count does not increase. *)
Definition count_ge (x y : string * nat) : Prop := (y.2 ≤ x.2)%nat.

Definition has_count (c : nat) (entry : string * nat) : Prop := entry.2 = c.

Global Instance has_count_dec c entry : Decision (has_count c entry).
Proof. unfold has_count. apply _. Defined.

(** The index an item of [core_files] carries, if it is a mapping with an
    [index] entry, and the numbers among the parsed values. *)
Definition item_index (item : yaml) : option yaml :=
  match item with
  | YDict entries => od_get "index" entries
  | _ => None
  end.

Definition numeric (v : yaml) : Prop :=
  match v with
  | YInt _ | YBool _ | YFloat _ => True
  | _ => False
  end.

Definition in_rangeb (n : nat) (idx : yaml) : bool :=
  match in_range n idx with
  | inr b => b
  | inl _ => false
  end.

(** The value of a parsed number that is finite, and what it is for a
    parsed value to be a number of [0, ..., n-1] or between two of them. *)
Definition index_value (idx : yaml) : option Q :=
  match idx with
  | YInt z => Some (inject_Z z)
  | YBool b => Some (inject_Z (Z.b2z b))
  | YFloat (FFinite q) => Some q
  | _ => None
  end.

Definition lies_in_range (n : nat) (idx : yaml) : Prop :=
  match index_value idx with
  | Some q => (0 <= q)%Q ∧ (q < inject_Z (Z.of_nat n))%Q
  | None => False
  end.

Global Instance lies_in_range_dec n idx : Decision (lies_in_range n idx).
Proof.
  unfold lies_in_range. destruct (index_value idx) as [q|]; [|right; tauto].
  destruct (Qlt_le_dec q 0) as [Hneg | Hnonneg].
  { right. intros [Hq _]. exact (Qlt_not_le _ _ Hneg Hq). }
  destruct (Qlt_le_dec q (inject_Z (Z.of_nat n))) as [Hlt | Hge].
  - left. by split.
  - right. intros [_ Hq]. exact (Qlt_not_le _ _ Hq Hge).
Defined.


(** ** A concrete runtime, for the examples

    It answers for the two files of the example at the end of the analyzer
    module, and for a source that holds a NUL character, on which the parser
    of CPython up to 3.11 raises [ValueError]. *)

Module Example.

Definition nl : string := String (ascii_of_nat 10) EmptyString.
Definition nul : string := String (ascii_of_nat 0) EmptyString.

Definition main_py : string :=
  "import os" +:+ nl +:+ "import sys" +:+ nl +:+
  "from utils.helper import process_data" +:+ nl +:+ nl +:+
  "def main():" +:+ nl +:+ "    process_data(sys.argv)" +:+ nl.

Definition helper_py : string :=
  "def process_data(data):" +:+ nl +:+ "    return data.upper()" +:+ nl +:+ nl +:+
  "class DataProcessor:" +:+ nl +:+ "    def __init__(self):" +:+ nl +:+
  "        pass" +:+ nl.

Definition parse (content : string) : result (list ast_node) :=
  if decide (content = main_py) then
    Return [OtherNode; Import ["os"]; Import ["sys"];
            ImportFrom (Some "utils.helper"); FunctionDef "main";
            OtherNode; OtherNode; OtherNode]
  else if decide (content = helper_py) then
    Return [OtherNode; FunctionDef "process_data"; ClassDef "DataProcessor";
            OtherNode; OtherNode; FunctionDef "__init__"; OtherNode; OtherNode]
  else if PyStr.contains nul content then
    Raise (ValueError "source code string cannot contain null bytes")
  else Raise SyntaxError.

(** A line boundary of [str.splitlines]: line feed, vertical tab, form
    feed, carriage return, the three separators U+001C to U+001E and the
    next-line character U+0085. *)
Definition is_linebreak (c : ascii) : bool :=
  let n := nat_of_ascii c in
  ((10 <=? n)%nat && (n <=? 13)%nat) || ((28 <=? n)%nat && (n <=? 30)%nat)
  || (n =? 133)%nat.

(** [len(lines)] for [lines = s.splitlines()]: every boundary ends a line, a
    carriage return followed by a line feed is one boundary, and what comes
    after the last boundary is a line if it is not empty.  [open] tells
    whether the current line has a character. *)
Fixpoint splitlines_from (open : bool) (s : string) : nat :=
  match s with
  | EmptyString => if open then 1 else 0
  | String c s' =>
      if is_linebreak c then
        match s' with
        | String d s'' =>
            if bool_decide (c = ascii_of_nat 13) && bool_decide (d = ascii_of_nat 10)
            then S (splitlines_from false s'')
            else S (splitlines_from false s')
        | EmptyString => 1
        end
      else splitlines_from true s'
  end.

Definition splitlines_len (s : string) : nat := splitlines_from false s.

Fixpoint join (sep : string) (l : list string) : string :=
  match l with
  | [] => EmptyString
  | [x] => x
  | x :: l' => x +:+ sep +:+ join sep l'
  end.

Definition runtime : Runtime :=
  {| ast_walk_parse := parse;
     re_findall := λ _ _ _, [];
     re_search := λ _ _, false;
     count_lines := splitlines_len;
     str_of_keys := λ keys,
       "dict_keys([" +:+ join ", " ((λ k, "'" +:+ k +:+ "'") <$> keys) +:+ "])";
     iter_set := elements;
     iter_set_perm := λ s, reflexivity (elements s) |}.

Definition files : list (string * string) :=
  [("main.py", main_py); ("utils/helper.py", helper_py)].

(** An adapter whose [use_cache] parameter defaults to [True]; the reply
    does not matter here. *)
Definition adapter : Adapter :=
  {| call_llm := λ _, EmptyString;
     default_use_cache := true;
     load_yaml_block := λ _,
       Return (YDict [("chapter_order", YList [YInt 1; YInt 0; YInt 2])]) |}.

(** An adapter whose reply never holds a fenced block, so that every
    attempt fails. *)
Definition mute_adapter : Adapter :=
  {| call_llm := λ _, EmptyString;
     default_use_cache := true;
     load_yaml_block := λ _, Raise IndexError |}.

(** A source provider that finds no file. *)
Definition empty_provider : Provider :=
  {| crawl_github_files := λ _, Return (Some []);
     crawl_local_files := λ _, Return (Some []);
     abspath := λ dir, dir |}.

Definition shared : gmap string value :=
  <["repo_url" := VStr "https://github.com/owner/project.git"]>
    (<["include_patterns" := VStrs ["*.py"]]>
       (<["exclude_patterns" := VStrs []]>
          (<["max_file_size" := VInt 100000]> ∅))).

End Example.

(** ** Further parts of the stages *)

Definition newline : string := String (ascii_of_nat 10) EmptyString.

(** [sep.join(parts)] *)
Fixpoint py_join (sep : string) (parts : list string) : string :=
  match parts with
  | [] => EmptyString
  | [x] => x
  | x :: rest => x +:+ sep +:+ py_join sep rest
  end.

(** [idx < n] for the length [n] of a list: numbers are compared by value,
    anything else is not comparable with an [int]. *)
Definition lt_len (n : nat) (idx : yaml) : result bool :=
  match idx with
  | YInt z => Return (bool_decide (z < Z.of_nat n)%Z)
  | YBool b => Return (bool_decide (Z.b2z b < Z.of_nat n)%Z)
  | YFloat FNan => Return false
  | YFloat (FInf negative) => Return negative
  | YFloat (FFinite q) => Return (negb (Qle_bool (inject_Z (Z.of_nat n)) q))
  | _ => Raise TypeError
  end.

(** [l[z]] for an integer [z]: a negative index counts from the end, an
    index outside [-len(l), len(l))] raises [IndexError]. *)
Definition list_item {A} (l : list A) (z : Z) : result A :=
  let n := Z.of_nat (length l) in
  let pos := if (z <? 0)%Z then (z + n)%Z else z in
  if bool_decide (0 ≤ pos < n)%Z then
    match l !! Z.to_nat pos with
    | Some a => Return a
    | None => Raise IndexError
    end
  else Raise IndexError.

(** [l[idx]]: only an [int] (or a [bool]) is an index. *)
Definition py_list_item {A} (l : list A) (idx : yaml) : result A :=
  match as_int idx with
  | Some z => list_item l z
  | None => Raise TypeError
  end.

(** [v[key]] for a string [key] *)
Definition dict_item (v : yaml) (key : string) : result yaml :=
  match v with
  | YDict entries =>
      match od_get key entries with
      | Some x => Return x
      | None => Raise (KeyError key)
      end
  | _ => Raise TypeError
  end.

(** *** [IdentifyAbstractions.prep]: the context built from the core files *)

(** [f"File: {file_path}\n{file_content}"] *)
Definition core_block (file : string * string) : string :=
  "File: " +:+ file.1 +:+ newline +:+ file.2.

Definition core_content_step (files : list (string * string))
    (acc : result (list string)) (idx : yaml) : result (list string) :=
  let* core_content := acc in
  let* keep := lt_len (length files) idx in
  if keep then
    let* file := py_list_item files idx in
    Return (core_content ++ [core_block file])
  else Return core_content.

Definition IdentifyAbstractions_context (files : list (string * string))
    (core_files : list yaml) : result string :=
  let* core_content := foldl (core_content_step files) (Return []) core_files in
  Return (py_join (newline +:+ newline +:+ "---" +:+ newline +:+ newline)
            core_content).

(** *** [WriteChapters.prep] *)

Record chapter_context : Type := {
  cc_abstraction : yaml;
  cc_related_abstractions : list yaml;
  cc_relationships : yaml;
  cc_file_contents : list string;
  cc_abstraction_index : Z;
}.

(** The block of one related file: a heading with the path, then the content
    between two fences of three backquotes. *)
Definition file_block (file : string * string) : string :=
  "### " +:+ file.1 +:+ newline +:+ "```" +:+ newline +:+ file.2
  +:+ newline +:+ "```".

(** [abstraction.get("files", [])] *)
Definition abstraction_files (abstraction : yaml) : result yaml :=
  match abstraction with
  | YDict entries => Return (default (YList []) (od_get "files" entries))
  | _ => Raise AttributeError
  end.

Definition file_contents_step (files : list (string * string))
    (acc : result (list string)) (file_idx : yaml) : result (list string) :=
  let* file_contents := acc in
  let* keep := lt_len (length files) file_idx in
  if keep then
    let* file := py_list_item files file_idx in
    Return (file_contents ++ [file_block file])
  else Return file_contents.

Definition chapter_context_of (abstractions : list yaml) (relationships : yaml)
    (files : list (string * string)) (order_idx : Z) : result chapter_context :=
  let* abstraction := list_item abstractions order_idx in
  let* listed := abstraction_files abstraction in
  let* items := py_iter listed in
  let* file_contents := foldl (file_contents_step files) (Return []) items in
  Return {| cc_abstraction := abstraction;
            cc_related_abstractions := abstractions;
            cc_relationships := relationships;
            cc_file_contents := file_contents;
            cc_abstraction_index := order_idx |}.

Definition WriteChapters_prep (abstractions : list yaml) (relationships : yaml)
    (files : list (string * string)) (chapter_order : list Z)
    : result (list chapter_context) :=
  foldl (λ acc order_idx,
    let* chapters_to_write := acc in
    let* context := chapter_context_of abstractions relationships files order_idx in
    Return (chapters_to_write ++ [context]))
    (Return []) chapter_order.

(** *** [CombineTutorial.exec]: the names of the chapter files *)

(** [c.isalnum()]: below U+0080 the digits and the letters; from there to
    U+00FF the letters (all of U+00C0 to U+00FF but the multiplication and
    division signs, the two ordinal indicators and the micro sign), the
    superscript digits and the three vulgar fractions. *)
Definition is_alnum (c : ascii) : bool :=
  let n := nat_of_ascii c in
  ((48 <=? n)%nat && (n <=? 57)%nat) || ((65 <=? n)%nat && (n <=? 90)%nat)
  || ((97 <=? n)%nat && (n <=? 122)%nat)
  || (n =? 170)%nat || (n =? 178)%nat || (n =? 179)%nat || (n =? 181)%nat
  || (n =? 185)%nat || (n =? 186)%nat
  || ((188 <=? n)%nat && (n <=? 190)%nat)
  || ((192 <=? n)%nat && negb (n =? 215)%nat && negb (n =? 247)%nat).

(** [c if c.isalnum() or c in ('-', '_') else '_'] *)
Definition safe_char (c : ascii) : ascii :=
  if is_alnum c || bool_decide (c = "-"%char) || bool_decide (c = "_"%char)
  then c else "_"%char.

Fixpoint sanitize (s : string) : string :=
  match s with
  | EmptyString => EmptyString
  | String c s' => String (safe_char c) (sanitize s')
  end.

(** [f"{n:02d}"]: the decimal digits of [n], with a leading zero below 10 *)
Definition format_02d (n : nat) : string :=
  if (n <? 10)%nat then "0" +:+ pretty n else pretty n.

(** [f"{i+1:02d}_{safe_name}.md"] *)
Definition chapter_filename (i : nat) (name : string) : string :=
  format_02d (i + 1) +:+ "_" +:+ sanitize (PyStr.lower name) +:+ ".md".

(** One turn of the loop over [enumerate(chapter_order)]: the pair added to
    [chapter_files], or the exception of the turn.  The line added to the
    index reads the name and the responsibility of the abstraction. *)
Definition chapter_file (abstractions : list yaml) (chapters : list string)
    (i : nat) (order_idx : Z) : result (string * string) :=
  let* abstraction := list_item abstractions order_idx in
  let* name := dict_item abstraction "name" in
  match name with
  | YStr name =>
      let* chapter := list_item chapters (Z.of_nat i) in
      let* _ := dict_item abstraction "primary_responsibility" in
      Return (chapter_filename i name, chapter)
  | _ => Raise AttributeError
  end.

Fixpoint chapter_files_from (abstractions : list yaml) (chapters : list string)
    (i : nat) (chapter_order : list Z) : result (list (string * string)) :=
  match chapter_order with
  | [] => Return []
  | order_idx :: rest =>
      let* file := chapter_file abstractions chapters i order_idx in
      let* others := chapter_files_from abstractions chapters (S i) rest in
      Return (file :: others)
  end.

Definition chapter_files (abstractions : list yaml) (chapters : list string)
    (chapter_order : list Z) : result (list (string * string)) :=
  chapter_files_from abstractions chapters 0 chapter_order.

(** ** Further notions used to state the properties *)

Fixpoint has_char (c : ascii) (s : string) : bool :=
  match s with
  | EmptyString => false
  | String a s' => bool_decide (a = c) || has_char c s'
  end.

(** The languages for which [analyze_single_file] has an analysis. *)
Definition analysed_languages : list string :=
  ["python"; "javascript"; "typescript"; "go"; "java"; "c"; "cpp"].

(** The names and modules the parser path records as imports, and the names
    of the functions and classes it meets. *)
Definition node_imports (node : ast_node) : list string :=
  match node with
  | Import names => names
  | ImportFrom (Some m) => if decide (m = EmptyString) then [] else [m]
  | _ => []
  end.

Definition node_function (node : ast_node) : list string :=
  match node with
  | FunctionDef name => [name]
  | _ => []
  end.

Definition node_class (node : ast_node) : list string :=
  match node with
  | ClassDef name => [name]
  | _ => []
  end.

(** The files that have [name] as a candidate name. *)
Definition is_candidate (name file_path : string) : Prop :=
  name = module_name file_path ∨ name = file_stem file_path.

Global Instance is_candidate_dec name file_path :
  Decision (is_candidate name file_path).
Proof. unfold is_candidate. apply _. Defined.

(** [min(20, len(files_data) // 2)], the number of core files
    [IdentifyCore.prep] puts into the prompt *)
Definition max_core_files (n_files : nat) : nat := Nat.min 20 (n_files / 2).

(** The file an integer index of [0, ..., len(files) - 1] stands for. *)
Definition file_at (files : list (string * string)) (idx : yaml)
    : option (string * string) :=
  match as_int idx with
  | Some z => if bool_decide (0 ≤ z)%Z then files !! Z.to_nat z else None
  | None => None
  end.

(** An abstraction that is a mapping and whose [files] entry, if it has
    one, is a list of integers that are not below [-n_files]. *)
Definition lists_files_of (n_files : nat) (abstraction : yaml) : Prop :=
  ∃ entries, abstraction = YDict entries ∧
    match od_get "files" entries with
    | None => True
    | Some (YList l) =>
        Forall (λ v, ∃ z, v = YInt z ∧ (- Z.of_nat n_files ≤ z)%Z) l
    | Some _ => False
    end.

Definition is_digit (c : ascii) : Prop :=
  (48 ≤ nat_of_ascii c ≤ 57)%nat.

Definition allowed_char (c : ascii) : Prop :=
  is_alnum c = true ∨ c = "-"%char ∨ c = "_"%char.

(** A letter, a digit, a dash or an underscore of the characters below
    U+0080. *)
Definition plain_name_char (c : ascii) : Prop :=
  (48 ≤ nat_of_ascii c ≤ 57 ∨ 65 ≤ nat_of_ascii c ≤ 90 ∨
   97 ≤ nat_of_ascii c ≤ 122 ∨ nat_of_ascii c = 45 ∨ nat_of_ascii c = 95)%nat.

Fixpoint all_chars (P : ascii → Prop) (s : string) : Prop :=
  match s with
  | EmptyString => True
  | String c s' => P c ∧ all_chars P s'
  end.

(** ** A second sample, with files of several languages *)

Module Sample.

Definition lib_rs : string := "use std::io;" +:+ newline.

Definition app_js : string :=
  "import helper from './helper'" +:+ newline +:+
  "export default function app() {}" +:+ newline.

Definition main_java : string :=
  "import java.util.List;" +:+ newline +:+ "class Main {}" +:+ newline.

(** An engine that answers for the patterns of the analyzer on the sources
    above: the quoted module of the import of [app_js], the import and the
    class of [main_java], and the export test. *)
Definition findall (pattern : string) (multiline : bool) (content : string)
    : list string :=
  if decide (content = app_js) then
    (if PyStr.contains "from" pattern then ["./helper"] else [])
  else if decide (content = main_java) then
    (if PyStr.contains "import" pattern then ["java.util.List"]
     else if PyStr.contains "class" pattern then ["Main"] else [])
  else [].

Definition runtime : Runtime :=
  {| ast_walk_parse := Example.parse;
     re_findall := findall;
     re_search := λ pattern content, PyStr.contains "export " content;
     count_lines := Example.splitlines_len;
     str_of_keys := str_of_keys Example.runtime;
     iter_set := elements;
     iter_set_perm := λ s, reflexivity (elements s) |}.

Definition files : list (string * string) :=
  [("main.py", Example.main_py); ("utils/helper.py", Example.helper_py);
   ("src/lib.rs", lib_rs); ("web/app.js", app_js);
   ("src/main.java", main_java)].

End Sample.

(** ** Three web sources: a default export, a named export and no export *)

Module Web.

Definition lib_ts : string :=
  "export const version = 1" +:+ newline.

Definition plain_js : string := "let x = 1" +:+ newline.

Definition files : list (string * string) :=
  [("web/app.js", Sample.app_js); ("web/lib.ts", lib_ts);
   ("web/plain.js", plain_js)].

End Web.

(** ** A third sample, with more than ten files that are depended upon

    Twelve files [a01.py] to [a12.py] import one module each: [a01.py] to
    [a11.py] the modules [t01] to [t11], and [a12.py] the module [t11] once
    more.  So [t11.py], seen last, has two dependents and the ten others
    one. *)

Module Ranked.

(** The walk of the parse of a source that is empty or a single import
    statement: the module node, the import node and its alias node. *)
Definition parse (content : string) : result (list ast_node) :=
  if decide (content = EmptyString) then Return [OtherNode]
  else if String.prefix "import " content then
    Return [OtherNode;
            Import [String.substring 7 (String.length content) content];
            OtherNode]
  else Raise SyntaxError.

Definition runtime : Runtime :=
  {| ast_walk_parse := parse;
     re_findall := λ _ _ _, [];
     re_search := λ _ _, false;
     count_lines := Example.splitlines_len;
     str_of_keys := str_of_keys Example.runtime;
     iter_set := elements;
     iter_set_perm := λ s, reflexivity (elements s) |}.

Definition numbers : list string :=
  ["01"; "02"; "03"; "04"; "05"; "06"; "07"; "08"; "09"; "10"; "11"].

Definition files : list (string * string) :=
  ((λ n, ("a" +:+ n +:+ ".py", "import t" +:+ n)) <$> numbers)
  ++ [("a12.py", "import t11")]
  ++ ((λ n, ("t" +:+ n +:+ ".py", EmptyString)) <$> numbers).

End Ranked.

(** * Properties *)

(** ** The path and string functions on small inputs *)

Example splitext_last_dot :
  PosixPath.splitext "a/b.c/d.tar.gz" = ("a/b.c/d.tar", ".gz").
Proof. reflexivity. Qed.

Example splitext_leading_dot : PosixPath.splitext "a/.bashrc" = ("a/.bashrc", EmptyString).
Proof. reflexivity. Qed.

Example splitext_dot_in_directory : PosixPath.splitext "a.b/c" = ("a.b/c", EmptyString).
Proof. reflexivity. Qed.

Example dirname_nested : PosixPath.dirname "a/b/c.py" = "a/b".
Proof. reflexivity. Qed.

Example dirname_root : PosixPath.dirname "/c.py" = "/".
Proof. reflexivity. Qed.

Example dirname_bare : PosixPath.dirname "c.py" = EmptyString.
Proof. reflexivity. Qed.

Example basename_nested : PosixPath.basename "a/b/c.py" = "c.py".
Proof. reflexivity. Qed.

Example split_keeps_empty_parts : PyStr.split "/" "a//b" = ["a"; EmptyString; "b"].
Proof. reflexivity. Qed.

Example replace_every_occurrence :
  PyStr.replace ".py" EmptyString "x.pyx.py.p" = "xx.p".
Proof. reflexivity. Qed.

Example module_name_of_path : module_name "utils/helper.py" = "utils.helper".
Proof. reflexivity. Qed.

Example file_stem_of_path : file_stem "utils/helper.py" = "helper".
Proof. reflexivity. Qed.

Example detect_language_upper : detect_language "src/Tool.PY" = "python".
Proof. reflexivity. Qed.

Example sorted_desc_ties :
  sorted_desc [("a", 1); ("b", 2); ("c", 1); ("d", 2)]%nat =
    [("b", 2); ("d", 2); ("a", 1); ("c", 1)]%nat.
Proof. reflexivity. Qed.

(** ** Ordered dictionaries *)

Section ordered_dict_facts.
Context {K V : Type} `{EqDecision K}.
Implicit Types (d : list (K * V)) (k : K) (v : V).

Lemma od_get_upd dflt (f : V → V) k k' d :
  od_get k' (od_upd dflt f k d) =
  if decide (k' = k) then Some (f (default dflt (od_get k d))) else od_get k' d.
Proof.
  induction d as [|[k0 v0] d IH]; simpl.
  - repeat case_decide; congruence.
  - destruct (decide (k = k0)) as [->|Hne]; simpl.
    + repeat case_decide; congruence.
    + rewrite IH. repeat case_decide; congruence.
Qed.

Lemma od_get_set k k' v d :
  od_get k' (od_set k v d) = if decide (k' = k) then Some v else od_get k' d.
Proof.
  induction d as [|[k0 v0] d IH]; simpl.
  - repeat case_decide; congruence.
  - destruct (decide (k = k0)) as [->|Hne]; simpl.
    + repeat case_decide; congruence.
    + rewrite IH. repeat case_decide; congruence.
Qed.

Lemma od_keys_upd dflt (f : V → V) k d :
  (od_upd dflt f k d).*1 = if bool_decide (k ∈ d.*1) then d.*1 else d.*1 ++ [k].
Proof.
  induction d as [|[k0 v0] d IH]; csimpl; first done.
  destruct (decide (k = k0)) as [->|Hne]; csimpl.
  - rewrite bool_decide_true; [done | left].
  - rewrite IH. destruct (bool_decide (k ∈ d.*1)) eqn:E.
    + apply bool_decide_eq_true in E.
      rewrite bool_decide_true; [done | by right].
    + apply bool_decide_eq_false in E.
      rewrite bool_decide_false; [done |].
      intros [?|?]%elem_of_cons; done.
Qed.

Lemma od_keys_set k v d :
  (od_set k v d).*1 = if bool_decide (k ∈ d.*1) then d.*1 else d.*1 ++ [k].
Proof.
  induction d as [|[k0 v0] d IH]; csimpl; first done.
  destruct (decide (k = k0)) as [->|Hne]; csimpl.
  - rewrite bool_decide_true; [done | left].
  - rewrite IH. destruct (bool_decide (k ∈ d.*1)) eqn:E.
    + apply bool_decide_eq_true in E.
      rewrite bool_decide_true; [done | by right].
    + apply bool_decide_eq_false in E.
      rewrite bool_decide_false; [done |].
      intros [?|?]%elem_of_cons; done.
Qed.

Lemma NoDup_snoc_fresh (l : list K) k : NoDup l → k ∉ l → NoDup (l ++ [k]).
Proof.
  intros Hl Hk. apply NoDup_app. split; [done|]. split.
  - intros x Hx ->%list_elem_of_singleton. done.
  - apply NoDup_singleton.
Qed.

Lemma od_upd_NoDup dflt (f : V → V) k d :
  NoDup d.*1 → NoDup (od_upd dflt f k d).*1.
Proof.
  intros Hd. rewrite od_keys_upd. case_bool_decide; [done|].
  by apply NoDup_snoc_fresh.
Qed.

Lemma od_set_NoDup k v d : NoDup d.*1 → NoDup (od_set k v d).*1.
Proof.
  intros Hd. rewrite od_keys_set. case_bool_decide; [done|].
  by apply NoDup_snoc_fresh.
Qed.

Lemma od_get_Some_elem k v d : od_get k d = Some v → (k, v) ∈ d.
Proof.
  induction d as [|[k0 v0] d IH]; simpl; [done|].
  case_decide; intros ?; simplify_eq; [left | right; auto].
Qed.

Lemma od_get_elem_NoDup k v d : NoDup d.*1 → (k, v) ∈ d → od_get k d = Some v.
Proof.
  induction d as [|[k0 v0] d IH]; simpl.
  - intros _ ?%elem_of_nil. done.
  - intros [Hk0 Hd]%NoDup_cons [Heq|Hin]%elem_of_cons.
    + simplify_eq. by rewrite decide_True.
    + rewrite decide_False; [auto|].
      intros ->. apply Hk0. apply list_elem_of_fmap. by exists (k0, v).
Qed.

Lemma od_get_None k d : od_get k d = None ↔ k ∉ d.*1.
Proof.
  induction d as [|[k0 v0] d IH]; simpl.
  - split; [intros _ ?%elem_of_nil; done | done].
  - case_decide; subst.
    + split; [done | intros []; left].
    + rewrite IH, not_elem_of_cons. intuition congruence.
Qed.

End ordered_dict_facts.

(** ** The dependency graph *)

Section dependency_graph_facts.
Context (rt : Runtime).

Lemma elem_of_iter_set (s : gset string) (x : string) :
  x ∈ iter_set rt s ↔ x ∈ s.
Proof. rewrite (iter_set_perm rt s). apply elem_of_elements. Qed.

Lemma iter_set_NoDup (s : gset string) : NoDup (iter_set rt s).
Proof. rewrite (iter_set_perm rt s). apply NoDup_elements. Qed.

Lemma register_file_lookup m file_path name target :
  register_file m file_path !! name = Some target →
  target = file_path ∨ m !! name = Some target.
Proof.
  unfold register_file. intros H.
  destruct (decide (file_stem file_path = name)) as [<-|?].
  - rewrite lookup_insert_eq in H. left. congruence.
  - rewrite lookup_insert_ne in H by done.
    destruct (decide (module_name file_path = name)) as [<-|?].
    + rewrite lookup_insert_eq in H. left. congruence.
    + rewrite lookup_insert_ne in H by done. by right.
Qed.

Lemma foldl_register_file_lookup all_files m name target :
  foldl register_file m all_files !! name = Some target →
  target ∈ all_files ∨ m !! name = Some target.
Proof.
  revert m. induction all_files as [|f fs IH]; intros m; simpl; [by right|].
  intros [Hin|Hm]%IH; [left; by right|].
  apply register_file_lookup in Hm as [->|?]; [left; left | by right].
Qed.

(** Every value of the candidate-name mapping is one of the files. *)
Lemma module_to_file_target all_files name target :
  module_to_file all_files !! name = Some target → target ∈ all_files.
Proof.
  intros [?|H]%foldl_register_file_lookup; [done|].
  by rewrite lookup_empty in H.
Qed.

Lemma has_edge_add_import m2f file_path dependencies imported A B :
  has_edge (add_import m2f file_path dependencies imported) A B ↔
  has_edge dependencies A B ∨
  (A = file_path ∧ m2f !! imported = Some B ∧ B ≠ file_path).
Proof.
  unfold add_import, has_edge.
  destruct (m2f !! imported) as [target|] eqn:Hm; [|naive_solver].
  case_decide as Hne; [|naive_solver].
  setoid_rewrite od_get_upd. split.
  - intros (s & Hs & HB). case_decide as HA.
    + subst A. injection Hs as <-. apply elem_of_union in HB as [HB|HB].
      * destruct (od_get file_path dependencies) as [s0|] eqn:E; simpl in HB.
        -- left. eauto.
        -- set_solver.
      * apply elem_of_singleton in HB as ->. right. done.
    + left. eauto.
  - intros [(s & Hs & HB)|(-> & Heq & _)].
    + case_decide as HA.
      * subst A. rewrite Hs. simpl. eexists. split; [done|]. set_solver.
      * eauto.
    + injection Heq as <-. rewrite decide_True by done.
      eexists. split; [done|]. set_solver.
Qed.

Lemma has_edge_add_imports m2f file_path l dependencies A B :
  has_edge (foldl (add_import m2f file_path) dependencies l) A B ↔
  has_edge dependencies A B ∨
  (A = file_path ∧ ∃ imported,
      imported ∈ l ∧ m2f !! imported = Some B ∧ B ≠ file_path).
Proof.
  revert dependencies. induction l as [|x l IH]; intros dependencies; simpl.
  - split; [by left|]. intros [?|(_ & x & []%elem_of_nil & _)]. done.
  - rewrite IH, has_edge_add_import. split.
    + intros [[?|(-> & ? & ?)]|(-> & y & ? & ? & ?)].
      * by left.
      * right. split; [done|]. exists x. split; [left|done].
      * right. split; [done|]. exists y. split; [by right|done].
    + intros [?|(-> & y & [->|?]%elem_of_cons & ? & ?)].
      * left. by left.
      * left. right. done.
      * right. split; [done|]. by exists y.
Qed.

(** The edges of the graph, exactly: [A → B] is an edge when some import
    recorded for [A] is mapped to [B] and [B] is not [A] itself. *)
Lemma has_edge_build_dependency_graph imports all_files A B :
  has_edge (build_dependency_graph rt imports all_files) A B ↔
  ∃ s imported,
    (A, s) ∈ imports ∧ imported ∈ s ∧
    module_to_file all_files !! imported = Some B ∧ B ≠ A.
Proof.
  unfold build_dependency_graph.
  set (m2f := module_to_file all_files).
  assert (∀ dependencies,
    has_edge (foldl (add_file_imports rt m2f) dependencies imports) A B ↔
    has_edge dependencies A B ∨
    ∃ s imported, (A, s) ∈ imports ∧ imported ∈ s ∧
                  m2f !! imported = Some B ∧ B ≠ A) as Hgen.
  { induction imports as [|[fp s] imports IH]; intros dependencies; simpl.
    - split; [by left|]. intros [?|(s & x & []%elem_of_nil & _)]. done.
    - rewrite IH. unfold add_file_imports. simpl.
      rewrite has_edge_add_imports. setoid_rewrite elem_of_iter_set.
      split.
      + intros [[?|(-> & x & ? & ? & ?)]|(s' & x & ? & ? & ? & ?)].
        * by left.
        * right. exists s, x. split; [left|done].
        * right. exists s', x. split; [by right|done].
      + intros [?|(s' & x & [Heq|?]%elem_of_cons & ? & ? & ?)].
        * left. by left.
        * injection Heq as -> ->. left. right. split; [done|]. by exists x.
        * right. by exists s', x. }
  rewrite Hgen. split; [|by right].
  intros [(s & Hs & _)|?]; [|done]. simpl in Hs. done.
Qed.

Lemma has_edgeb_spec dependencies A B :
  has_edgeb dependencies A B = true ↔ has_edge dependencies A B.
Proof.
  unfold has_edgeb, has_edge. destruct (od_get A dependencies) as [s|].
  - rewrite bool_decide_eq_true. naive_solver.
  - naive_solver.
Qed.

End dependency_graph_facts.

(** ** The first loop of the analyzer *)

Section scan_facts.
Context (rt : Runtime).

Lemma od_set_fresh {V} (k : string) (v : V) (d : list (string * V)) :
  k ∉ d.*1 → od_set k v d = d ++ [(k, v)].
Proof.
  induction d as [|[k0 v0] d IH]; csimpl; [done|].
  intros [? ?]%not_elem_of_cons. rewrite decide_False by done.
  by rewrite IH.
Qed.

Lemma scan_file_inv acc file_path content acc' :
  scan_file rt acc file_path content = inr acc' →
  ∃ fi, analyze_single_file rt file_path content = inr fi ∧
    sc_file_info acc' = od_set file_path fi (sc_file_info acc) ∧
    sc_imports acc' =
      (if truthy_set (fi_imports fi)
       then od_set file_path (fi_imports fi) (sc_imports acc)
       else sc_imports acc).
Proof.
  unfold scan_file.
  destruct (analyze_single_file rt file_path content) as [e|fi]; simpl; [done|].
  intros [= <-]. by exists fi.
Qed.

Lemma scan_files_file_info_NoDup files acc sc :
  scan_files rt acc files = inr sc →
  NoDup (sc_file_info acc).*1 → NoDup (sc_file_info sc).*1.
Proof.
  revert acc. induction files as [|[fp c] files IH]; intros acc; simpl.
  - by intros [= <-].
  - destruct (scan_file rt acc fp c) as [e|acc'] eqn:E; simpl; [done|].
    intros Hsc Hnd. apply (IH acc' Hsc).
    apply scan_file_inv in E as (fi & _ & -> & _). by apply od_set_NoDup.
Qed.

Lemma scan_files_app files acc sc :
  scan_files rt acc files = inr sc →
  NoDup files.*1 →
  (∀ k, k ∈ files.*1 →
     (k ∉ (sc_file_info acc).*1) ∧ (k ∉ (sc_imports acc).*1)) →
  ∃ infos, Forall2 (extracted rt) files infos ∧
    sc_file_info sc = sc_file_info acc ++ infos ∧
    sc_imports sc = sc_imports acc ++ omap recorded_import infos.
Proof.
  revert acc. induction files as [|[fp c] files IH]; intros acc; csimpl.
  - intros [= <-] _ _. exists []. by rewrite !app_nil_r.
  - destruct (scan_file rt acc fp c) as [e|acc'] eqn:E; simpl; [done|].
    intros Hsc [Hfp Hnd]%NoDup_cons Hfresh.
    apply scan_file_inv in E as (fi & Hfi & Hinfo & Himp).
    destruct (Hfresh fp) as [Hf1 Hf2]; [left|].
    rewrite (od_set_fresh _ _ _ Hf1) in Hinfo.
    assert (sc_imports acc' = sc_imports acc ++ omap recorded_import [(fp, fi)])
      as Himp'.
    { rewrite Himp. unfold recorded_import. csimpl.
      destruct (truthy_set (fi_imports fi)); csimpl.
      - by apply od_set_fresh.
      - by rewrite app_nil_r. }
    destruct (IH acc' Hsc Hnd) as (infos & HF & H1 & H2).
    { intros k Hk. destruct (Hfresh k) as [Hk1 Hk2]; [by right|].
      assert (k ≠ fp) as Hne by (intros ->; done).
      rewrite Hinfo, Himp', !fmap_app, !not_elem_of_app.
      split; (split; [done|]).
      - csimpl. by intros ?%list_elem_of_singleton.
      - unfold recorded_import. csimpl.
        destruct (truthy_set (fi_imports fi)); csimpl.
        + by intros ?%list_elem_of_singleton.
        + apply not_elem_of_nil. }
    exists ((fp, fi) :: infos). split; [|split].
    + constructor; [done | done].
    + by rewrite H1, Hinfo, <- app_assoc.
    + rewrite H2, Himp', <- app_assoc. f_equal. csimpl.
      by destruct (recorded_import (fp, fi)).
Qed.

Lemma analyze_file_structure_inv files st :
  analyze_file_structure rt files = inr st →
  ∃ sc ds, scan_files rt empty_scan files = inr sc ∧
    analyze_directory_structure files.*1 = inr ds ∧
    st_file_info st = sc_file_info sc ∧
    st_imports st = sc_imports sc ∧
    st_dependencies st = build_dependency_graph rt (sc_imports sc) files.*1 ∧
    st_entry_points st = identify_entry_points (sc_file_info sc) ∧
    st_core_modules st =
      identify_core_modules rt (build_dependency_graph rt (sc_imports sc) files.*1).
Proof.
  unfold analyze_file_structure.
  destruct (scan_files rt empty_scan files) as [e|sc]; simpl; [done|].
  destruct (analyze_directory_structure files.*1) as [e|ds]; simpl; [done|].
  intros [= <-]. exists sc, ds. done.
Qed.

End scan_facts.

(** ** Claims about the dependency graph *)

Section graph_claims.
Context (rt : Runtime).

Lemma build_dependency_graph_NoDup imports all_files :
  NoDup (build_dependency_graph rt imports all_files).*1.
Proof.
  unfold build_dependency_graph. generalize (module_to_file all_files) as m2f.
  intros m2f.
  assert (∀ dependencies : list (string * gset string),
    NoDup dependencies.*1 →
    NoDup (foldl (add_file_imports rt m2f) dependencies imports).*1) as Hgen.
  { induction imports as [|[fp s] imports IH]; intros dependencies Hd; simpl;
      [done|].
    apply IH. unfold add_file_imports. simpl.
    generalize (iter_set rt s) as l. intros l. revert dependencies Hd.
    induction l as [|x l IHl]; intros dependencies Hd; simpl; [done|].
    apply IHl. unfold add_import. destruct (m2f !! x); [|done].
    case_decide; [|done]. by apply od_upd_NoDup. }
  apply Hgen. constructor.
Qed.

(** With distinct paths, the recorded imports of a file are the non-empty
    import sets of the per-file records. *)
Lemma recorded_imports_spec files st X s :
  NoDup files.*1 →
  analyze_file_structure rt files = Return st →
  (X, s) ∈ st_imports st ↔
  ∃ fi, od_get X (st_file_info st) = Some fi ∧ s = fi_imports fi ∧ s ≠ ∅.
Proof.
  intros Hnd (sc & ds & Hsc & _ & -> & -> & _)%analyze_file_structure_inv.
  destruct (scan_files_app rt files empty_scan sc Hsc Hnd)
    as (infos & HF & H1 & H2).
  { intros k _. simpl. split; apply not_elem_of_nil. }
  simpl in H1, H2. rewrite H1, H2.
  assert (infos.*1 = files.*1) as Hkeys.
  { clear -HF. induction HF as [|f i fs infos [Hk _] _ IH]; csimpl; [done|].
    by rewrite Hk, IH. }
  assert (NoDup infos.*1) as Hnd' by (by rewrite Hkeys).
  rewrite list_elem_of_omap. unfold recorded_import, truthy_set. split.
  - intros ([X' fi] & Hin & Hrec). simpl in Hrec.
    case_bool_decide as Hempty; simpl in Hrec; [done|].
    injection Hrec as -> <-. exists fi.
    split; [by apply od_get_elem_NoDup | done].
  - intros (fi & Hget & -> & Hne). exists (X, fi).
    split; [by apply od_get_Some_elem|]. simpl.
    by rewrite bool_decide_false.
Qed.

(** An import that the mapping sends to another file gives an edge, and
    only such imports do. *)
Lemma import_edge files st A B :
  NoDup files.*1 →
  analyze_file_structure rt files = Return st →
  has_edge (st_dependencies st) A B ↔
  ∃ fiA name, od_get A (st_file_info st) = Some fiA ∧
    name ∈ fi_imports fiA ∧
    module_to_file files.*1 !! name = Some B ∧ B ≠ A.
Proof.
  intros Hnd Hst.
  pose proof (recorded_imports_spec files st) as Himp.
  destruct (analyze_file_structure_inv rt files st Hst)
    as (sc & ds & _ & _ & _ & Hi & -> & _).
  rewrite has_edge_build_dependency_graph, <- Hi. split.
  - intros (s & name & Hin & Hname & Hm & Hne).
    apply (Himp A s Hnd Hst) in Hin as (fi & Hget & -> & _).
    by exists fi, name.
  - intros (fi & name & Hget & Hname & Hm & Hne).
    exists (fi_imports fi), name. split; [|done].
    apply (Himp A _ Hnd Hst). exists fi. split; [done|]. split; [done|].
    set_solver.
Qed.

End graph_claims.

(** C2: for every input mapping of paths to contents, the dependency graph
    the analyzer produces has no self-edge, and the target of each of its
    edges [A → B] is a key of the input mapping and differs from [A]. *)
Theorem dependency_graph_targets (rt : Runtime)
    (files : list (string * string)) (st : structure) :
  analyze_file_structure rt files = Return st →
  (∀ A, ¬ has_edge (st_dependencies st) A A) ∧
  (∀ A B, has_edge (st_dependencies st) A B → B ∈ files.*1 ∧ B ≠ A).
Proof.
  intros (sc & ds & _ & _ & _ & _ & -> & _)%analyze_file_structure_inv.
  assert (∀ A B,
    has_edge (build_dependency_graph rt (sc_imports sc) files.*1) A B →
    B ∈ files.*1 ∧ B ≠ A) as Hedge.
  { intros A B (s & name & _ & _ & Hm & Hne)%has_edge_build_dependency_graph.
    split; [|done]. by eapply module_to_file_target. }
  split; [|done].
  intros A [_ Hne]%Hedge. done.
Qed.

Lemma dependency_graph_targets_witness :
  ∃ st, analyze_file_structure Example.runtime Example.files = Return st ∧
    (∀ A, ¬ has_edge (st_dependencies st) A A) ∧
    (∀ A B, has_edge (st_dependencies st) A B →
            B ∈ Example.files.*1 ∧ B ≠ A).
Proof.
  eexists. split; [vm_compute; reflexivity|].
  apply (dependency_graph_targets Example.runtime Example.files).
  vm_compute. reflexivity.
Defined.

(** C8: in a two-file input where an import extracted from [A] is mapped to
    [B] by the candidate-name mapping, and no import extracted from [B] is
    mapped to [A], the graph has the edge [A → B] and not the edge
    [B → A]. *)
Theorem two_file_import_edge (rt : Runtime) (A B cA cB : string)
    (files : list (string * string)) (st : structure) (fiA fiB : file_info) :
  A ≠ B →
  files = [(A, cA); (B, cB)] ∨ files = [(B, cB); (A, cA)] →
  analyze_file_structure rt files = Return st →
  od_get A (st_file_info st) = Some fiA →
  od_get B (st_file_info st) = Some fiB →
  (∃ name, name ∈ fi_imports fiA ∧
           module_to_file files.*1 !! name = Some B) →
  (∀ name, name ∈ fi_imports fiB →
           module_to_file files.*1 !! name ≠ Some A) →
  has_edge (st_dependencies st) A B ∧ ¬ has_edge (st_dependencies st) B A.
Proof.
  intros Hne Hfiles Hst HA HB (name & Hname & Hm) Hnone.
  assert (NoDup files.*1) as Hnd.
  { destruct Hfiles as [-> | ->]; csimpl;
      (apply NoDup_cons; split;
       [ by intros ?%list_elem_of_singleton | apply NoDup_singleton ]). }
  split.
  - apply (import_edge rt files st A B Hnd Hst).
    exists fiA, name. split; [done|]. split; [done|]. split; [done|].
    by intros ->.
  - intros (fi & name' & Hget & Hin & Hm' & _)%(import_edge rt files st B A Hnd Hst).
    rewrite HB in Hget. injection Hget as <-.
    by apply (Hnone name').
Qed.

Lemma two_file_import_edge_witness :
  ∃ st,
    analyze_file_structure Example.runtime Example.files = Return st ∧
    has_edge (st_dependencies st) "main.py" "utils/helper.py" ∧
    ¬ has_edge (st_dependencies st) "utils/helper.py" "main.py".
Proof.
  eexists. split; [vm_compute; reflexivity|].
  eapply (two_file_import_edge Example.runtime "main.py" "utils/helper.py"
            Example.main_py Example.helper_py Example.files).
  - done.
  - left. reflexivity.
  - vm_compute. reflexivity.
  - vm_compute. reflexivity.
  - vm_compute. reflexivity.
  - exists "utils.helper". split; [|vm_compute; reflexivity].
    refine (bool_decide_eq_true_1 _ _). vm_compute. reflexivity.
  - intros name Hin. exfalso.
    exact (not_elem_of_empty (C:=gset string) name Hin).
Defined.

(** The mapping sends a candidate name of [B] to [B] whenever it is not also
    a candidate name of the other file, whichever file comes first. *)
Lemma two_file_candidate (A B name : string) (all_files : list string) :
  all_files = [A; B] ∨ all_files = [B; A] →
  name = module_name B ∨ name = file_stem B →
  name ≠ module_name A → name ≠ file_stem A →
  module_to_file all_files !! name = Some B.
Proof.
  intros Hfiles Hname HnA1 HnA2.
  unfold module_to_file. destruct Hfiles as [-> | ->]; simpl; unfold register_file.
  - destruct (decide (file_stem B = name)) as [<-|Hs].
    + by rewrite lookup_insert_eq.
    + rewrite lookup_insert_ne by done.
      destruct Hname as [-> | ->]; [|done]. by rewrite lookup_insert_eq.
  - rewrite !(lookup_insert_ne _ (file_stem A)) by done.
    rewrite !(lookup_insert_ne _ (module_name A)) by done.
    destruct (decide (file_stem B = name)) as [<-|Hs].
    + by rewrite lookup_insert_eq.
    + rewrite lookup_insert_ne by done.
      destruct Hname as [-> | ->]; [|done]. by rewrite lookup_insert_eq.
Qed.

(** ** Claims about the totality of the analyzer *)

Lemma scan_files_total (rt : Runtime) (files : list (string * string)) (acc : scan) :
  (∀ fp c, (fp, c) ∈ files → ∃ fi, analyze_single_file rt fp c = Return fi) →
  ∃ sc, scan_files rt acc files = Return sc.
Proof.
  revert acc. induction files as [|[fp c] files IH]; intros acc Hall; simpl.
  - by exists acc.
  - destruct (Hall fp c) as [fi Hfi]; [left|].
    unfold scan_file. rewrite Hfi. simpl. apply IH.
    intros fp' c' Hin. apply Hall. by right.
Qed.

(** C9: on the empty mapping the analyzer does not return structural facts:
    the maximum over the empty sequence of path depths raises.  It returns
    only on a non-empty input, and on a non-empty input it returns as soon
    as the extraction of every file does. *)
Theorem analyze_empty_raises (rt : Runtime) :
  analyze_file_structure rt [] =
    Raise (ValueError "max() arg is an empty sequence") ∧
  analyze_directory_structure [] =
    Raise (ValueError "max() arg is an empty sequence") ∧
  (∀ files, (∃ st, analyze_file_structure rt files = Return st) → files ≠ []) ∧
  (∀ files, files ≠ [] →
     (∀ fp c, (fp, c) ∈ files → ∃ fi, analyze_single_file rt fp c = Return fi) →
     ∃ st, analyze_file_structure rt files = Return st).
Proof.
  split; [reflexivity|]. split; [reflexivity|]. split.
  - intros files [st Hst] ->. discriminate Hst.
  - intros files Hne Hall.
    destruct (scan_files_total rt files empty_scan Hall) as [sc Hsc].
    unfold analyze_file_structure. rewrite Hsc. simpl.
    destruct files as [|[fp c] files]; [done|]. csimpl. eauto.
Qed.

(** ** Claims about the entry points *)

Lemma entry_step_is_entry (acc : list string) (item : string * file_info) :
  entry_step acc item = if is_entry item then acc ++ [item.1] else acc.
Proof.
  destruct item as [fp fi]. unfold entry_step, is_entry. simpl.
  destruct (fi_has_main fi); simpl; [done|].
  destruct (bool_decide (_ ∈ entry_names)); simpl; [done|].
  by destruct (bool_decide (_ ∈ setup_names) && _).
Qed.

Lemma identify_entry_points_filter (infos : list (string * file_info)) :
  identify_entry_points infos = (filter (λ item, is_entry item = true) infos).*1.
Proof.
  unfold identify_entry_points.
  assert (∀ acc, foldl entry_step acc infos =
                 acc ++ (filter (λ item, is_entry item = true) infos).*1) as Hgen.
  { induction infos as [|item infos IH]; intros acc; simpl.
    - by rewrite app_nil_r.
    - rewrite IH, filter_cons, entry_step_is_entry.
      destruct (is_entry item) eqn:E.
      + rewrite decide_True by done. csimpl. by rewrite <- app_assoc.
      + rewrite decide_False by done. done. }
  apply Hgen.
Qed.

Lemma identify_entry_points_NoDup (infos : list (string * file_info)) :
  NoDup infos.*1 → NoDup (identify_entry_points infos).
Proof.
  intros Hnd. rewrite identify_entry_points_filter.
  apply (sublist_NoDup _ infos.*1);
    first [exact Hnd | apply fmap_sublist, sublist_filter].
Qed.

(** C10: the entry-point list the analyzer produces holds each path at most
    once, however many of the qualifying conditions a file meets. *)
Theorem entry_points_listed_once (rt : Runtime)
    (files : list (string * string)) (st : structure) :
  analyze_file_structure rt files = Return st →
  NoDup (st_entry_points st).
Proof.
  intros (sc & ds & Hsc & _ & _ & _ & _ & -> & _)%analyze_file_structure_inv.
  apply identify_entry_points_NoDup.
  apply (scan_files_file_info_NoDup rt files empty_scan sc Hsc). constructor.
Qed.

Lemma entry_points_listed_once_witness :
  ∃ st, analyze_file_structure Example.runtime Example.files = Return st ∧
    st_entry_points st = ["main.py"] ∧ NoDup (st_entry_points st).
Proof.
  eexists. split; [vm_compute; reflexivity|]. split; [vm_compute; reflexivity|].
  apply (entry_points_listed_once Example.runtime Example.files).
  vm_compute. reflexivity.
Defined.

(** ** The stable sort *)

Lemma insert_desc_perm x l : insert_desc x l ≡ₚ x :: l.
Proof.
  induction l as [|y l IH]; simpl; [done|].
  destruct (x.2 <? y.2)%nat; [|done].
  rewrite IH. apply Permutation_swap.
Qed.

Lemma sorted_desc_perm l : sorted_desc l ≡ₚ l.
Proof.
  induction l as [|x l IH]; simpl; [done|].
  by rewrite insert_desc_perm, IH.
Qed.

Lemma insert_desc_sorted x l :
  StronglySorted count_ge l → StronglySorted count_ge (insert_desc x l).
Proof.
  induction l as [|y l IH]; simpl.
  - intros _. repeat constructor.
  - intros [Hy Hl]%StronglySorted_cons.
    destruct (x.2 <? y.2)%nat eqn:E.
    + apply Nat.ltb_lt in E. apply StronglySorted_cons. split; [|auto].
      rewrite insert_desc_perm. constructor; [|done].
      unfold count_ge. lia.
    + apply Nat.ltb_ge in E. apply StronglySorted_cons. split.
      * constructor; [done|].
        eapply Forall_impl; [exact Hy|]. unfold count_ge. intros z ?. lia.
      * by apply StronglySorted_cons.
Qed.

Lemma sorted_desc_sorted l : StronglySorted count_ge (sorted_desc l).
Proof.
  induction l as [|x l IH]; simpl; [constructor|].
  by apply insert_desc_sorted.
Qed.

Lemma filter_insert_desc c x l :
  filter (has_count c) (insert_desc x l) = filter (has_count c) (x :: l).
Proof.
  induction l as [|y l IH]; simpl; [done|].
  destruct (x.2 <? y.2)%nat eqn:E; [|done].
  apply Nat.ltb_lt in E.
  rewrite (filter_cons _ y), IH, !(filter_cons _ x), (filter_cons _ y).
  unfold has_count. repeat case_decide; try done. lia.
Qed.

(** Stability: the entries with a given count keep their relative order. *)
Lemma sorted_desc_stable c l :
  filter (has_count c) (sorted_desc l) = filter (has_count c) l.
Proof.
  induction l as [|x l IH]; simpl; [done|].
  by rewrite filter_insert_desc, !filter_cons, IH.
Qed.

Lemma StronglySorted_take {A} (R : A → A → Prop) n l :
  StronglySorted R l → StronglySorted R (take n l).
Proof.
  intros H. rewrite <- (take_drop n l) in H.
  by apply StronglySorted_app_1_l in H.
Qed.

(** The result of a stable sort is determined: a list that is sorted and
    keeps, for every count, the entries of [l] with that count in their
    order, is [sorted_desc l]. *)
Lemma stable_sort_unique (r1 r2 : list (string * nat)) :
  StronglySorted count_ge r1 → StronglySorted count_ge r2 →
  (∀ c, filter (has_count c) r1 = filter (has_count c) r2) →
  r1 = r2.
Proof.
  revert r2. induction r1 as [|a r1 IH]; intros r2 H1 H2 Hf.
  - destruct r2 as [|b r2]; [done|].
    specialize (Hf b.2). rewrite filter_nil, filter_cons in Hf.
    unfold has_count in Hf at 1. by rewrite decide_True in Hf.
  - destruct r2 as [|b r2].
    { specialize (Hf a.2). rewrite filter_nil, filter_cons in Hf.
      unfold has_count in Hf at 1. by rewrite decide_True in Hf. }
    apply StronglySorted_cons in H1 as [Ha H1].
    apply StronglySorted_cons in H2 as [Hb H2].
    assert (b.2 ≤ a.2)%nat as Hba.
    { pose proof (Hf b.2) as Hfb.
      assert (b ∈ filter (has_count b.2) (a :: r1)) as Hin.
      { rewrite Hfb. apply list_elem_of_filter. split; [done | left]. }
      apply list_elem_of_filter in Hin as [_ [->|Hin]%elem_of_cons]; [done|].
      rewrite Forall_forall in Ha. by apply Ha. }
    assert (a.2 ≤ b.2)%nat as Hab.
    { pose proof (Hf a.2) as Hfa.
      assert (a ∈ filter (has_count a.2) (b :: r2)) as Hin.
      { rewrite <- Hfa. apply list_elem_of_filter. split; [done | left]. }
      apply list_elem_of_filter in Hin as [_ [->|Hin]%elem_of_cons]; [done|].
      rewrite Forall_forall in Hb. by apply Hb. }
    assert (a = b) as ->.
    { pose proof (Hf a.2) as Hfa. rewrite !filter_cons in Hfa.
      rewrite (decide_True (P:=has_count a.2 a)) in Hfa by done.
      rewrite (decide_True (P:=has_count a.2 b)) in Hfa
        by (unfold has_count; lia).
      congruence. }
    f_equal. apply IH; [done | done |].
    intros c. specialize (Hf c). rewrite !filter_cons in Hf.
    case_decide; congruence.
Qed.

Lemma sorted_desc_unique (l r : list (string * nat)) :
  StronglySorted count_ge r →
  (∀ c, filter (has_count c) r = filter (has_count c) l) →
  r = sorted_desc l.
Proof.
  intros Hs Hf. apply stable_sort_unique; [done | apply sorted_desc_sorted |].
  intros c. by rewrite sorted_desc_stable.
Qed.

(** ** Claims about the core modules *)

Section core_module_facts.
Context (rt : Runtime).

Lemma od_get_bumps f l acc :
  NoDup l →
  od_get f (foldl bump acc l) =
  if bool_decide (f ∈ l) then Some (S (default 0%nat (od_get f acc)))
  else od_get f acc.
Proof.
  revert acc. induction l as [|x l IH]; intros acc; cbn [foldl].
  - intros _. rewrite bool_decide_false; [done | apply not_elem_of_nil].
  - intros [Hx Hl]%NoDup_cons. rewrite (IH _ Hl). unfold bump.
    rewrite od_get_upd.
    destruct (decide (f = x)) as [->|Hne].
    + rewrite (bool_decide_false (x ∈ l)) by done.
      rewrite bool_decide_true; [done | left].
    + destruct (bool_decide (f ∈ l)) eqn:E.
      * apply bool_decide_eq_true in E.
        rewrite bool_decide_true; [done | by right].
      * apply bool_decide_eq_false in E.
        rewrite bool_decide_false; [done|].
        by intros [?|?]%elem_of_cons.
Qed.

Lemma in_degree_cons entry dependencies f :
  in_degree (entry :: dependencies) f =
  ((if bool_decide (f ∈ entry.2) then 1 else 0) + in_degree dependencies f)%nat.
Proof.
  unfold in_degree. rewrite filter_cons.
  case_decide as H.
  - by rewrite bool_decide_true.
  - by rewrite bool_decide_false.
Qed.

Lemma od_get_count_entries f dependencies acc :
  od_get f (foldl (count_entry rt) acc dependencies) =
  if decide (in_degree dependencies f = 0%nat) then od_get f acc
  else Some (in_degree dependencies f + default 0%nat (od_get f acc))%nat.
Proof.
  revert acc. induction dependencies as [|entry deps IH]; intros acc; simpl.
  - done.
  - rewrite IH, in_degree_cons. unfold count_entry.
    rewrite (od_get_bumps f _ acc (iter_set_NoDup rt _)).
    rewrite (bool_decide_ext _ _ (elem_of_iter_set rt entry.2 f)).
    destruct (bool_decide (f ∈ entry.2)); simpl;
      repeat case_decide; try lia; try done.
    all: f_equal; lia.
Qed.

Lemma count_dependents_NoDup dependencies :
  NoDup (count_dependents rt dependencies).*1.
Proof.
  unfold count_dependents.
  assert (∀ acc : list (string * nat), NoDup acc.*1 →
    NoDup (foldl (count_entry rt) acc dependencies).*1) as Hgen.
  { induction dependencies as [|e deps IH]; intros acc Hacc; cbn [foldl];
      [exact Hacc|].
    apply IH. unfold count_entry. generalize (iter_set rt e.2) as l.
    intros l. revert acc Hacc.
    induction l as [|x l IHl]; intros acc Hacc; cbn [foldl]; [exact Hacc|].
    apply IHl. by apply od_upd_NoDup. }
  apply Hgen. constructor.
Qed.

(** Each file is counted once for every file that holds an edge into it. *)
Lemma count_dependents_in_degree dependencies f c :
  (f, c) ∈ count_dependents rt dependencies → c = in_degree dependencies f.
Proof.
  intros Hin.
  apply (od_get_elem_NoDup _ _ _ (count_dependents_NoDup dependencies)) in Hin.
  unfold count_dependents in Hin. rewrite od_get_count_entries in Hin.
  simpl in Hin. case_decide; [done|]. injection Hin as <-. lia.
Qed.

Lemma keys_bumps l acc :
  (foldl bump acc l).*1 = foldl note_first acc.*1 l.
Proof.
  revert acc. induction l as [|x l IH]; intros acc; cbn [foldl]; [done|].
  rewrite IH. unfold bump, note_first. by rewrite od_keys_upd.
Qed.

(** The dictionary of counts lists the files in the order of first sight. *)
Lemma count_dependents_keys dependencies :
  (count_dependents rt dependencies).*1 = first_seen (seen rt dependencies).
Proof.
  unfold count_dependents, first_seen, seen.
  change (@nil string) with ((@nil (string * nat)).*1) at 1.
  generalize (@nil (string * nat)) as acc.
  induction dependencies as [|e deps IH]; intros acc; csimpl; [done|].
  rewrite foldl_app, IH. f_equal. unfold count_entry.
  apply keys_bumps.
Qed.

Lemma pairs_of_keys (g : string → nat) (d : list (string * nat)) :
  (∀ f c, (f, c) ∈ d → c = g f) → d = (λ f, (f, g f)) <$> d.*1.
Proof.
  induction d as [|[f c] d IH]; intros H; csimpl; [done|].
  rewrite (H f c) by left. f_equal. apply IH.
  intros f' c' Hin. apply H. by right.
Qed.

Lemma count_dependents_first_seen dependencies :
  count_dependents rt dependencies =
  (λ f, (f, in_degree dependencies f)) <$> first_seen (seen rt dependencies).
Proof.
  rewrite <- count_dependents_keys. apply pairs_of_keys.
  apply count_dependents_in_degree.
Qed.

Lemma filter_ext_elem {A} (P Q : A → Prop)
    `{∀ x, Decision (P x)} `{∀ x, Decision (Q x)} (l : list A) :
  (∀ x, x ∈ l → (P x ↔ Q x)) → filter P l = filter Q l.
Proof.
  induction l as [|x l IH]; intros Hext; [done|].
  rewrite !filter_cons, IH by (intros y Hy; apply Hext; by right).
  destruct (Hext x) as [H1 H2]; [left|].
  repeat case_decide; try done; tauto.
Qed.

(** With distinct keys, the in-degree of [f] is the number of distinct files
    that hold an edge into it. *)
Lemma in_degree_dependent_files dependencies f :
  NoDup dependencies.*1 →
  in_degree dependencies f = length (dependent_files dependencies f) ∧
  NoDup (dependent_files dependencies f).
Proof.
  intros Hnd. split.
  - unfold dependent_files.
    induction dependencies as [|[k s] deps IH]; [done|].
    csimpl in Hnd. apply NoDup_cons in Hnd as [Hk Hnd].
    rewrite in_degree_cons, (IH Hnd). csimpl. rewrite filter_cons.
    assert (has_edgeb ((k, s) :: deps) k f = bool_decide (f ∈ s)) as ->.
    { unfold has_edgeb. simpl. by rewrite decide_True. }
    rewrite (filter_ext_elem (λ A, has_edgeb ((k, s) :: deps) A f = true)
               (λ A, has_edgeb deps A f = true)).
    + simpl. by destruct (bool_decide (f ∈ s)).
    + intros A HA. unfold has_edgeb. simpl. rewrite decide_False; [done|].
      by intros ->.
  - unfold dependent_files.
    apply (sublist_NoDup _ dependencies.*1);
      first [exact Hnd | apply sublist_filter].
Qed.

Lemma identify_core_modules_spec dependencies :
  let ranking := identify_core_modules rt dependencies in
  (length ranking ≤ 10)%nat ∧
  StronglySorted count_ge ranking ∧
  (∀ f c, (f, c) ∈ ranking → c = in_degree dependencies f) ∧
  (∀ c, filter (has_count c) ranking `prefix_of`
        filter (has_count c)
          ((λ f, (f, in_degree dependencies f)) <$>
             first_seen (seen rt dependencies))).
Proof.
  unfold identify_core_modules. simpl. split; [|split; [|split]].
  - rewrite length_take. lia.
  - apply StronglySorted_take, sorted_desc_sorted.
  - intros f c Hin. apply count_dependents_in_degree.
    rewrite <- (sorted_desc_perm (count_dependents rt dependencies)).
    by apply (subseteq_take 10).
  - intros c. rewrite <- count_dependents_first_seen.
    rewrite <- (sorted_desc_stable c (count_dependents rt dependencies)).
    set (s := sorted_desc (count_dependents rt dependencies)).
    rewrite <- (take_drop 10 s) at 2. rewrite filter_app.
    by apply prefix_app_r.
Qed.

(** The ranking is what a cut at 10 leaves of the stable descending sort of
    all the counts. *)
Lemma identify_core_modules_cut dependencies :
  ∃ rest,
    identify_core_modules rt dependencies ++ rest ≡ₚ
      (λ f, (f, in_degree dependencies f)) <$>
        first_seen (seen rt dependencies) ∧
    StronglySorted count_ge (identify_core_modules rt dependencies ++ rest) ∧
    (∀ c, filter (has_count c) (identify_core_modules rt dependencies ++ rest) =
          filter (has_count c)
            ((λ f, (f, in_degree dependencies f)) <$>
               first_seen (seen rt dependencies))) ∧
    length (identify_core_modules rt dependencies) =
      Nat.min 10 (length (first_seen (seen rt dependencies))).
Proof.
  unfold identify_core_modules. rewrite <- count_dependents_first_seen.
  exists (drop 10 (sorted_desc (count_dependents rt dependencies))).
  rewrite take_drop. split; [apply sorted_desc_perm|].
  split; [apply sorted_desc_sorted|]. split; [intros c; apply sorted_desc_stable|].
  rewrite length_take, sorted_desc_perm, <- count_dependents_keys.
  by rewrite length_fmap.
Qed.

End core_module_facts.

(** C3: for every input file set, the core-module ranking of the analyzer
    has at most 10 entries, is sorted by non-increasing count, the count of an
    entry is the number of files (pairwise distinct) that hold an edge into
    it, and for every count the entries with that count come in the order in
    which the files were first seen.  The sort comes before the cut: the
    ranking is the start of a list that holds every depended-upon file with
    its count, is sorted by non-increasing count and keeps the order of first
    sight among equal counts; it has 10 entries as soon as 10 files are
    depended upon, and a file left out has no more dependents than any
    ranked file. *)
Theorem core_modules_ranking (rt : Runtime)
    (files : list (string * string)) (st : structure) :
  analyze_file_structure rt files = Return st →
  (length (st_core_modules st) ≤ 10)%nat ∧
  StronglySorted count_ge (st_core_modules st) ∧
  NoDup (st_dependencies st).*1 ∧
  (∀ f c, (f, c) ∈ st_core_modules st →
          c = in_degree (st_dependencies st) f ∧
          c = length (dependent_files (st_dependencies st) f) ∧
          NoDup (dependent_files (st_dependencies st) f)) ∧
  (∀ c, filter (has_count c) (st_core_modules st) `prefix_of`
        filter (has_count c)
          ((λ f, (f, in_degree (st_dependencies st) f)) <$>
             first_seen (seen rt (st_dependencies st)))) ∧
  length (st_core_modules st) =
    Nat.min 10 (length (first_seen (seen rt (st_dependencies st)))) ∧
  (∃ rest,
     st_core_modules st ++ rest ≡ₚ
       (λ f, (f, in_degree (st_dependencies st) f)) <$>
         first_seen (seen rt (st_dependencies st)) ∧
     StronglySorted count_ge (st_core_modules st ++ rest) ∧
     ∀ c, filter (has_count c) (st_core_modules st ++ rest) =
          filter (has_count c)
            ((λ f, (f, in_degree (st_dependencies st) f)) <$>
               first_seen (seen rt (st_dependencies st)))) ∧
  (∀ f c f', (f, c) ∈ st_core_modules st →
             f' ∈ first_seen (seen rt (st_dependencies st)) →
             f' ∉ (st_core_modules st).*1 →
             (in_degree (st_dependencies st) f' ≤ c)%nat).
Proof.
  intros (sc & ds & _ & _ & _ & _ & -> & _ & ->)%analyze_file_structure_inv.
  set (deps := build_dependency_graph rt (sc_imports sc) files.*1).
  pose proof (identify_core_modules_spec rt deps) as (H1 & H2 & H3 & H4).
  pose proof (identify_core_modules_cut rt deps)
    as (rest & Hperm & Hsorted & Hstable & Hlen).
  assert (NoDup deps.*1) as Hnd by apply build_dependency_graph_NoDup.
  split; [done|]. split; [done|]. split; [done|]. split; [|split; [done|]].
  { intros f c Hin. apply H3 in Hin as ->.
    destruct (in_degree_dependent_files _ f Hnd) as [Hdeg Hdistinct].
    by rewrite <- Hdeg. }
  split; [done|]. split; [by exists rest|].
  intros f c f' Hin Hseen Hout.
  assert ((f', in_degree deps f') ∈ identify_core_modules rt deps ++ rest)
    as [Hranked | Hrest]%elem_of_app.
  { rewrite Hperm. apply list_elem_of_fmap. by exists f'. }
  - destruct Hout. apply list_elem_of_fmap. by exists (f', in_degree deps f').
  - exact (StronglySorted_app_1_elem_of _ _ _ _ _ Hsorted Hin Hrest).
Qed.

Lemma core_modules_ranking_witness :
  ∃ st, analyze_file_structure Ranked.runtime Ranked.files = Return st ∧
    length (first_seen (seen Ranked.runtime (st_dependencies st))) = 11%nat ∧
    st_core_modules st =
      [("t11.py", 2%nat); ("t01.py", 1%nat); ("t02.py", 1%nat);
       ("t03.py", 1%nat); ("t04.py", 1%nat); ("t05.py", 1%nat);
       ("t06.py", 1%nat); ("t07.py", 1%nat); ("t08.py", 1%nat);
       ("t09.py", 1%nat)] ∧
    (length (st_core_modules st) ≤ 10)%nat ∧
    StronglySorted count_ge (st_core_modules st) ∧
    NoDup (st_dependencies st).*1 ∧
    (∀ f c, (f, c) ∈ st_core_modules st →
            c = in_degree (st_dependencies st) f ∧
            c = length (dependent_files (st_dependencies st) f) ∧
            NoDup (dependent_files (st_dependencies st) f)) ∧
    (∀ c, filter (has_count c) (st_core_modules st) `prefix_of`
          filter (has_count c)
            ((λ f, (f, in_degree (st_dependencies st) f)) <$>
               first_seen (seen Ranked.runtime (st_dependencies st)))) ∧
    length (st_core_modules st) =
      Nat.min 10
        (length (first_seen (seen Ranked.runtime (st_dependencies st)))) ∧
    (∃ rest,
       st_core_modules st ++ rest ≡ₚ
         (λ f, (f, in_degree (st_dependencies st) f)) <$>
           first_seen (seen Ranked.runtime (st_dependencies st)) ∧
       StronglySorted count_ge (st_core_modules st ++ rest) ∧
       ∀ c, filter (has_count c) (st_core_modules st ++ rest) =
            filter (has_count c)
              ((λ f, (f, in_degree (st_dependencies st) f)) <$>
                 first_seen (seen Ranked.runtime (st_dependencies st)))) ∧
    (∀ f c f', (f, c) ∈ st_core_modules st →
               f' ∈ first_seen (seen Ranked.runtime (st_dependencies st)) →
               f' ∉ (st_core_modules st).*1 →
               (in_degree (st_dependencies st) f' ≤ c)%nat).
Proof.
  eexists. split; [vm_compute; reflexivity|]. split; [vm_compute; reflexivity|].
  split; [vm_compute; reflexivity|].
  apply (core_modules_ranking Ranked.runtime Ranked.files).
  vm_compute. reflexivity.
Defined.

(** ** Claims about the chapter order *)

Lemma valid_index_range (n : nat) (idx : yaml) (z : Z) :
  valid_index n idx = Some z → (0 ≤ z < Z.of_nat n)%Z.
Proof.
  unfold valid_index. destruct (as_int idx) as [z'|]; [|done].
  case_bool_decide; [|done]. by intros [= <-].
Qed.

Lemma py_range_range (n : nat) (z : Z) :
  z ∈ py_range n ↔ (0 ≤ z < Z.of_nat n)%Z.
Proof.
  unfold py_range. rewrite list_elem_of_fmap. setoid_rewrite elem_of_seq. split.
  - intros (k & -> & Hk). lia.
  - intros Hz. exists (Z.to_nat z). lia.
Qed.


(** What [OrderChapters] stores: the in-range integers of the reply, or the
    identity order when there is none. *)
Lemma OrderChapters_order_value (n : nat) (entries : list (string * yaml))
    (chapter_order : list yaml) :
  od_get "chapter_order" entries = Some (YList chapter_order) →
  OrderChapters_order n (YDict entries) =
    Return (match omap (valid_index n) chapter_order with
            | [] => py_range n
            | kept => kept
            end).
Proof.
  intros H. unfold OrderChapters_order. rewrite H.
  by destruct (omap (valid_index n) chapter_order).
Qed.

Lemma OrderChapters_order_bounds (n : nat) (entries : list (string * yaml))
    (chapter_order : list yaml) :
  od_get "chapter_order" entries = Some (YList chapter_order) →
  ∃ order, OrderChapters_order n (YDict entries) = Return order ∧
    Forall (λ z, 0 ≤ z < Z.of_nat n)%Z order.
Proof.
  intros H. eexists. split; [by apply OrderChapters_order_value|].
  destruct (omap (valid_index n) chapter_order) as [|z kept] eqn:E.
  - apply Forall_forall. intros z. by rewrite py_range_range.
  - rewrite <- E. apply Forall_forall. intros z' Hin.
    apply list_elem_of_omap in Hin as (idx & _ & Hidx).
    by eapply valid_index_range.
Qed.




(** ** Claims about out-of-range indices *)

Lemma in_range_numeric (n : nat) (idx : yaml) :
  numeric idx → in_range n idx = Return (in_rangeb n idx).
Proof.
  unfold in_rangeb. destruct idx as [|b|z|f|s|items|entries]; simpl; try done.
  by destruct f.
Qed.

Lemma core_steps_numeric (n : nat) (items acc : list yaml) :
  Forall numeric (omap item_index items) →
  foldl (core_step n) (Return acc) items =
  Return (acc ++ filter (λ idx, in_rangeb n idx = true) (omap item_index items)).
Proof.
  revert acc. induction items as [|item items IH]; intros acc Hnum; cbn [foldl].
  - csimpl. by rewrite app_nil_r.
  - csimpl in Hnum. destruct (item_index item) as [idx|] eqn:E; csimpl in Hnum.
    + apply Forall_cons in Hnum as [Hidx Hnum].
      assert (core_step n (Return acc) item =
              Return (if in_rangeb n idx then acc ++ [idx] else acc)) as ->.
      { destruct item; simpl in E; try done. simpl. rewrite E.
        by rewrite in_range_numeric. }
      assert (omap item_index (item :: items) = idx :: omap item_index items)
        as -> by (csimpl; by rewrite E).
      rewrite filter_cons. destruct (in_rangeb n idx) eqn:Eb.
      * rewrite IH by done. rewrite decide_True by done.
        by rewrite <- app_assoc.
      * rewrite IH by done. by rewrite decide_False by done.
    + assert (core_step n (Return acc) item = Return acc) as ->.
      { destruct item; simpl in E; try done. simpl. by rewrite E. }
      assert (omap item_index (item :: items) = omap item_index items)
        as -> by (csimpl; by rewrite E).
      by apply IH.
Qed.







(** ** Claims about the cache flag *)

Section cache_flag.
Context (rt : Runtime) (ad : Adapter).

Lemma ask_calls {A} (prompt : result string) (flag : bool)
    (rest : string → result A) :
  Forall (λ c, lc_use_cache c = flag) (ask ad prompt flag rest).1.
Proof. unfold ask. destruct prompt; simpl; repeat constructor. Qed.

(** The two stages that pass the flag bypass the cache on every attempt
    after the first. *)
Lemma gated_stages_bypass_cache files_dict structure_prompt n_files prompt
    (use_cache : bool) (cur_retry : nat) :
  (1 ≤ cur_retry)%nat →
  Forall (λ c, lc_use_cache c = false)
    (AnalyzeStructure_exec rt ad files_dict structure_prompt use_cache cur_retry).1 ∧
  Forall (λ c, lc_use_cache c = false)
    (IdentifyCore_exec ad n_files prompt use_cache cur_retry).1.
Proof.
  intros Hretry.
  assert (use_cache && (cur_retry =? 0)%nat = false) as Hflag.
  { destruct cur_retry; [lia|]. simpl. apply andb_false_r. }
  unfold AnalyzeStructure_exec, IdentifyCore_exec. rewrite Hflag. split.
  - destruct (analyze_file_structure rt files_dict); simpl;
      [constructor | apply ask_calls].
  - apply ask_calls.
Qed.

(** The other stages call the adapter without the flag, on every attempt. *)
Lemma ungated_stages_use_default n prompt (cur_retry : nat) :
  Forall (λ c, lc_use_cache c = default_use_cache ad)
    (IdentifyAbstractions_exec ad prompt cur_retry).1 ∧
  Forall (λ c, lc_use_cache c = default_use_cache ad)
    (AnalyzeRelationships_exec ad prompt cur_retry).1 ∧
  Forall (λ c, lc_use_cache c = default_use_cache ad)
    (OrderChapters_exec ad n prompt cur_retry).1 ∧
  Forall (λ c, lc_use_cache c = default_use_cache ad)
    (WriteProjectOverview_exec ad prompt cur_retry).1 ∧
  Forall (λ c, lc_use_cache c = default_use_cache ad)
    (WriteChapters_exec ad prompt cur_retry).1.
Proof. repeat split; apply ask_calls. Qed.

Lemma attempts_calls {A} (exec : nat → attempt A) (P : llm_call → Prop)
    (cur_retry extra : nat) :
  (∀ k, Forall P (exec k).1) → Forall P (attempts exec cur_retry extra).1.
Proof.
  intros Hexec. revert cur_retry.
  induction extra as [|extra IH]; intros cur_retry; simpl.
  - specialize (Hexec cur_retry). destruct (exec cur_retry) as [calls [e|a]]; done.
  - specialize (Hexec cur_retry). destruct (exec cur_retry) as [calls [e|a]];
      [|done].
    specialize (IH (S cur_retry)).
    destruct (attempts exec (S cur_retry) extra) as [calls' r']. simpl in *.
    by apply Forall_app.
Qed.

End cache_flag.

(** C6, at the chapter ordering: the call is made without the cache flag, so
    with an adapter whose flag defaults to [True] the stage asks for a cached
    reply on every attempt, the retries included. *)
Theorem order_chapters_retry_uses_cache (ad : Adapter) (n : nat)
    (prompt : string) (cur_retry extra : nat) :
  default_use_cache ad = true →
  (OrderChapters_exec ad n (Return prompt) cur_retry).1 =
    [{| lc_prompt := prompt; lc_use_cache := true |}] ∧
  Forall (λ c, lc_use_cache c = true)
    (attempts (OrderChapters_exec ad n (Return prompt)) 0 extra).1.
Proof.
  intros H. split.
  - unfold OrderChapters_exec, ask. simpl. by rewrite H.
  - apply attempts_calls. intros k. rewrite <- H.
    apply (ungated_stages_use_default ad n (Return prompt) k).
Qed.

Lemma order_chapters_retry_uses_cache_witness :
  (OrderChapters_exec Example.adapter 3 (Return "Order these") 1).1 =
    [{| lc_prompt := "Order these"; lc_use_cache := true |}] ∧
  Forall (λ c, lc_use_cache c = true)
    (attempts (OrderChapters_exec Example.adapter 3 (Return "Order these")) 0 4).1.
Proof.
  apply (order_chapters_retry_uses_cache Example.adapter 3 "Order these" 1 4).
  reflexivity.
Defined.

(** With a budget of five attempts and a reply that never parses, the
    chapter ordering asks five times, each time allowing the cache. *)
Lemma order_chapters_retries_all_cached :
  attempts (OrderChapters_exec Example.mute_adapter 3 (Return "Order these")) 0 4 =
    (replicate 5 {| lc_prompt := "Order these"; lc_use_cache := true |},
     Raise IndexError).
Proof. reflexivity. Qed.

(** ** Claims about the fetch stage *)

Section fetch_facts.
Context (pv : Provider).

Lemma attempts_always_raise {A} (exec : nat → attempt A) (e : py_exception)
    (cur_retry extra : nat) :
  (∀ k, (exec k).2 = Raise e) → (attempts exec cur_retry extra).2 = Raise e.
Proof.
  intros Hexec. revert cur_retry.
  induction extra as [|extra IH]; intros cur_retry; simpl.
  - specialize (Hexec cur_retry). unfold Raise, Return in *.
    destruct (exec cur_retry) as [calls [e'|a]]; simpl in *; congruence.
  - specialize (Hexec cur_retry). unfold Raise, Return in *.
    destruct (exec cur_retry) as [calls [e'|a]]; simpl in *; [|congruence].
    specialize (IH (S cur_retry)).
    by destruct (attempts exec (S cur_retry) extra) as [calls' r'].
Qed.

(** The only write of [prep] is the project name it derives. *)
Lemma FetchRepo_prep_shared shared shared' r :
  FetchRepo_prep pv shared = (shared', r) →
  shared' = shared ∨
  (truthy (shared_get shared "project_name") = false ∧
   ∃ name, shared' = <["project_name" := VStr name]> shared).
Proof.
  unfold FetchRepo_prep.
  destruct (truthy (shared_get shared "project_name")) eqn:E.
  - intros [= <- _]. by left.
  - destruct (derive_project_name _ _) as [e|name].
    + intros [= <- _]. by left.
    + intros [= <- _]. right. split; [done|]. by exists name.
Qed.

Lemma FetchRepo_exec_empty prep_res crawled :
  (if truthy (fr_repo_url prep_res) then crawl_github_files pv prep_res
   else crawl_local_files pv prep_res) = Return crawled →
  default [] crawled = [] →
  FetchRepo_exec pv prep_res = Raise (ValueError "Failed to fetch files").
Proof.
  intros Hcrawl Hempty. unfold FetchRepo_exec. rewrite Hcrawl. simpl.
  by rewrite Hempty.
Qed.

End fetch_facts.

(** C7, as the code has it: when the Source Provider returns zero files the
    fetch stage raises the explicit failure, the run fails at the fetch stage
    on every attempt of its budget, no later stage is invoked, and the
    [files] entry is not written.  The shared context is the one [prep]
    left: unchanged, or with the project name [prep] derived. *)
Theorem empty_fetch_fails_run (pv : Provider) (extra : nat)
    (shared shared' : gmap string value) (prep_res : fetch_request)
    (crawled : option (list (string * string))) (rest : list stage) :
  FetchRepo_prep pv shared = (shared', Return prep_res) →
  (if truthy (fr_repo_url prep_res) then crawl_github_files pv prep_res
   else crawl_local_files pv prep_res) = Return crawled →
  default [] crawled = [] →
  FetchRepo_exec pv prep_res = Raise (ValueError "Failed to fetch files") ∧
  rr_failure (run_flow (FetchRepo_stage pv extra :: rest) shared) =
    Some ("FetchRepo", ValueError "Failed to fetch files") ∧
  rr_invoked (run_flow (FetchRepo_stage pv extra :: rest) shared) = ["FetchRepo"] ∧
  rr_shared (run_flow (FetchRepo_stage pv extra :: rest) shared) = shared' ∧
  shared' !! "files" = shared !! "files" ∧
  (shared' = shared ∨
   (truthy (shared_get shared "project_name") = false ∧
    ∃ name, shared' = <["project_name" := VStr name]> shared)).
Proof.
  intros Hprep Hcrawl Hempty.
  pose proof (FetchRepo_exec_empty pv prep_res crawled Hcrawl Hempty) as Hexec.
  pose proof (FetchRepo_prep_shared pv shared shared' _ Hprep) as Hshared.
  assert (FetchRepo_run pv extra shared =
          (shared', Raise (ValueError "Failed to fetch files"))) as Hrun.
  { unfold FetchRepo_run. rewrite Hprep.
    pose proof (attempts_always_raise
      (λ _ : nat, ([], FetchRepo_exec pv prep_res))
      (ValueError "Failed to fetch files") 0 extra (λ _, Hexec)) as Hall.
    simpl in Hall. unfold Return. by rewrite Hall. }
  split; [done|]. simpl. rewrite Hrun. simpl.
  split; [done|]. split; [done|]. split; [done|]. split; [|done].
  destruct Hshared as [-> | (_ & name & ->)]; [done|].
  by rewrite lookup_insert_ne.
Qed.

Lemma empty_fetch_fails_run_witness :
  FetchRepo_exec Example.empty_provider
    {| fr_repo_url := VStr "https://github.com/owner/project.git";
       fr_local_dir := VNone; fr_token := VNone;
       fr_include_patterns := VStrs ["*.py"];
       fr_exclude_patterns := VStrs [];
       fr_max_file_size := VInt 100000;
       fr_use_relative_paths := true |}
    = Raise (ValueError "Failed to fetch files") ∧
  rr_failure (run_flow [FetchRepo_stage Example.empty_provider 0] Example.shared) =
    Some ("FetchRepo", ValueError "Failed to fetch files") ∧
  rr_invoked (run_flow [FetchRepo_stage Example.empty_provider 0] Example.shared)
    = ["FetchRepo"] ∧
  rr_shared (run_flow [FetchRepo_stage Example.empty_provider 0] Example.shared)
    = <["project_name" := VStr "project"]> Example.shared ∧
  (<["project_name" := VStr "project"]> Example.shared) !! "files"
    = Example.shared !! "files" ∧
  (<["project_name" := VStr "project"]> Example.shared = Example.shared ∨
   (truthy (shared_get Example.shared "project_name") = false ∧
    ∃ name, <["project_name" := VStr "project"]> Example.shared
            = <["project_name" := VStr name]> Example.shared)).
Proof.
  apply (empty_fetch_fails_run Example.empty_provider 0 Example.shared
           (<["project_name" := VStr "project"]> Example.shared) _
           (Some []) []).
  - vm_compute. reflexivity.
  - reflexivity.
  - reflexivity.
Defined.

(** A failed fetch leaves a value in the shared context: the project name
    that [prep] derived before the provider was asked. *)
Lemma empty_fetch_commits_project_name :
  rr_failure (run_flow [FetchRepo_stage Example.empty_provider 0] Example.shared) =
    Some ("FetchRepo", ValueError "Failed to fetch files") ∧
  Example.shared !! "project_name" = None ∧
  rr_shared (run_flow [FetchRepo_stage Example.empty_provider 0] Example.shared)
    !! "project_name" = Some (VStr "project") ∧
  rr_shared (run_flow [FetchRepo_stage Example.empty_provider 0] Example.shared)
    ≠ Example.shared.
Proof.
  split; [vm_compute; reflexivity|]. split; [vm_compute; reflexivity|].
  assert (rr_shared (run_flow [FetchRepo_stage Example.empty_provider 0]
                       Example.shared) !! "project_name"
          = Some (VStr "project")) as H by (vm_compute; reflexivity).
  split; [exact H|].
  intros Heq. rewrite Heq in H. vm_compute in H. discriminate H.
Qed.

(** ** Claims about the per-file extraction *)

Section extraction_facts.
Context (rt : Runtime).

(** A syntax error is absorbed: the pattern-matching path gives the
    result. *)
Lemma syntax_error_falls_back content fi :
  ast_walk_parse rt content = Raise SyntaxError →
  analyze_python_file rt content fi =
    Return (analyze_python_regex rt content fi).
Proof. unfold analyze_python_file. by intros ->. Qed.

(** The extraction returns whenever the parser returns or raises
    [SyntaxError]; files that are not Python never reach the parser. *)
Lemma analyze_single_file_returns file_path content :
  detect_language file_path ≠ "python" ∨
  ast_walk_parse rt content = Raise SyntaxError ∨
  (∃ nodes, ast_walk_parse rt content = Return nodes) →
  ∃ fi, analyze_single_file rt file_path content = Return fi.
Proof.
  intros H. unfold analyze_single_file. simpl.
  destruct (decide (detect_language file_path = "python")) as [Hpy|Hpy].
  - destruct H as [H|[H|[nodes H]]]; [done| |];
      unfold analyze_python_file; rewrite H; simpl; eauto.
  - repeat (case_bool_decide; simpl; [eauto|]). eauto.
Qed.

End extraction_facts.

(** C5, where the code departs from it: an exception of the parser other
    than [SyntaxError] is not absorbed by [analyze_python_file]; the
    extraction of a Python file raises it. *)
Theorem parser_failure_propagates (rt : Runtime) (file_path content : string)
    (e : py_exception) :
  detect_language file_path = "python" →
  ast_walk_parse rt content = Raise e →
  e ≠ SyntaxError →
  analyze_single_file rt file_path content = Raise e ∧
  ∀ files, analyze_file_structure rt ((file_path, content) :: files) = Raise e.
Proof.
  intros Hpy Hparse Hne.
  assert (analyze_single_file rt file_path content = Raise e) as Hraise.
  { unfold analyze_single_file. simpl. rewrite decide_True by done.
    unfold analyze_python_file. rewrite Hparse.
    by destruct e. }
  split; [done|]. intros files.
  unfold analyze_file_structure. simpl. unfold scan_file. by rewrite Hraise.
Qed.

Lemma parser_failure_propagates_witness :
  analyze_single_file Example.runtime "tool.py" Example.nul =
    Raise (ValueError "source code string cannot contain null bytes") ∧
  ∀ files,
    analyze_file_structure Example.runtime (("tool.py", Example.nul) :: files) =
      Raise (ValueError "source code string cannot contain null bytes").
Proof.
  apply (parser_failure_propagates Example.runtime "tool.py" Example.nul).
  - reflexivity.
  - reflexivity.
  - discriminate.
Defined.

(** * Further properties of the code *)

(** ** Characters of the candidate names *)

Lemma has_char_app (c : ascii) (a b : string) :
  has_char c (a +:+ b) = has_char c a || has_char c b.
Proof.
  induction a as [|x a IH]; simpl; [done|].
  by rewrite IH, orb_assoc.
Qed.

Lemma contains_char (c : ascii) (s : string) :
  PyStr.contains (String c EmptyString) s = has_char c s.
Proof.
  induction s as [|a s IH]; simpl; [done|].
  rewrite IH. destruct (ascii_dec c a) as [->|Hne].
  - rewrite bool_decide_true by done. by destruct s.
  - rewrite bool_decide_false by congruence. done.
Qed.

Lemma replace_go_chars (c : ascii) (old new : string) (skip : nat) (s : string) :
  has_char c (PyStr.replace_go old new skip s) = true →
  has_char c new = true ∨ has_char c s = true.
Proof.
  revert skip. induction s as [|a s IH]; intros skip; [by right|].
  cbn [PyStr.replace_go has_char].
  destruct skip as [|k].
  - destruct (String.prefix old (String a s)).
    + rewrite has_char_app. intros [H|H]%orb_true_iff; [by left|].
      apply IH in H as [?|H]; [by left|]. right. by rewrite H, orb_true_r.
    + cbn [has_char]. intros [H|H]%orb_true_iff.
      * right. by rewrite H.
      * apply IH in H as [?|H]; [by left|]. right. by rewrite H, orb_true_r.
  - intros H. apply IH in H as [?|H]; [by left|].
    right. by rewrite H, orb_true_r.
Qed.

Lemma prefix_empty (s : string) : String.prefix EmptyString s = true.
Proof. by destruct s. Qed.

Lemma replace_char_gone (c d : ascii) (skip : nat) (s : string) :
  c ≠ d →
  has_char c
    (PyStr.replace_go (String c EmptyString) (String d EmptyString) skip s)
  = false.
Proof.
  intros Hne. revert skip. induction s as [|a s IH]; intros skip; [done|].
  cbn [PyStr.replace_go]. destruct skip as [|k]; [|apply IH].
  cbn [String.prefix]. destruct (ascii_dec c a) as [->|Hca].
  - rewrite prefix_empty, has_char_app. cbn [has_char String.length Nat.sub].
    rewrite bool_decide_false by congruence. apply IH.
  - cbn [has_char]. rewrite bool_decide_false by congruence. apply IH.
Qed.

Lemma module_name_no_sep (file_path : string) :
  has_char "/" (module_name file_path) = false.
Proof.
  apply not_true_is_false. unfold module_name, PyStr.replace.
  intros [H|H]%replace_go_chars; [done|].
  apply replace_go_chars in H as [H|H]; [done|].
  by rewrite (replace_char_gone "/" "." 0 file_path) in H.
Qed.

Lemma append_cons (c : ascii) (a b : string) :
  String c a +:+ b = String c (a +:+ b).
Proof. reflexivity. Qed.

Lemma append_empty_r (s : string) : s +:+ EmptyString = s.
Proof. induction s as [|c s IH]; [done|]. by rewrite append_cons, IH. Qed.

Lemma append_assoc (a b c : string) : (a +:+ b) +:+ c = a +:+ (b +:+ c).
Proof. induction a as [|x a IH]; [done|]. by rewrite !append_cons, IH. Qed.

Lemma cut_last_sep_app (p : string) :
  (PosixPath.cut_last_sep p).1 +:+ (PosixPath.cut_last_sep p).2 = p.
Proof.
  induction p as [|c p IH]; [done|].
  cbn [PosixPath.cut_last_sep].
  destruct (PosixPath.cut_last_sep p) as [h t].
  destruct (PyStr.contains "/" (String c p)); cbn [fst snd] in *; [|done].
  by rewrite append_cons, IH.
Qed.

Lemma cut_last_sep_tail (p : string) :
  has_char "/" (PosixPath.cut_last_sep p).2 = false.
Proof.
  induction p as [|c p IH]; [done|].
  cbn [PosixPath.cut_last_sep].
  destruct (PosixPath.cut_last_sep p) as [h t].
  destruct (PyStr.contains "/" (String c p)) eqn:E; cbn [fst snd] in *; [done|].
  by rewrite <- (contains_char "/" (String c p)).
Qed.

Lemma cut_last_dot_app (name r e : string) :
  PosixPath.cut_last_dot name = Some (r, e) → r +:+ e = name.
Proof.
  revert r e. induction name as [|c name IH]; intros r e; [done|].
  cbn [PosixPath.cut_last_dot].
  destruct (PosixPath.cut_last_dot name) as [[r' e']|].
  - intros [= <- <-]. by rewrite append_cons, (IH r' e').
  - case_decide; [|done]. by intros [= <- <-].
Qed.

(** [os.path.splitext] cuts the path in two: root and extension give the
    path back. *)
Lemma splitext_app (p : string) :
  (PosixPath.splitext p).1 +:+ (PosixPath.splitext p).2 = p.
Proof.
  unfold PosixPath.splitext.
  pose proof (cut_last_sep_app p) as Hp.
  destruct (PosixPath.cut_last_sep p) as [head name]. cbn [fst snd] in Hp.
  destruct (PosixPath.cut_last_dot name) as [[r e]|] eqn:E.
  - destruct (PyStr.all_char PosixPath.extsep r); cbn [fst snd].
    + apply append_empty_r.
    + apply cut_last_dot_app in E. by rewrite append_assoc, E.
  - apply append_empty_r.
Qed.

Lemma file_stem_no_sep (file_path : string) :
  has_char "/" (file_stem file_path) = false.
Proof.
  unfold file_stem, PosixPath.basename.
  pose proof (cut_last_sep_tail file_path) as Ht.
  rewrite <- (splitext_app (PosixPath.cut_last_sep file_path).2) in Ht.
  rewrite has_char_app in Ht. by apply orb_false_iff in Ht as [? _].
Qed.

(** ** The candidate-name mapping *)

Lemma register_file_lookup_full (m : gmap string string)
    (file_path name : string) :
  register_file m file_path !! name =
  if decide (is_candidate name file_path) then Some file_path else m !! name.
Proof.
  unfold register_file, is_candidate. case_decide as H.
  - destruct (decide (file_stem file_path = name)) as [<-|?].
    + by rewrite lookup_insert_eq.
    + rewrite lookup_insert_ne by done. destruct H as [-> | ->]; [|done].
      by rewrite lookup_insert_eq.
  - rewrite !lookup_insert_ne; [done | |]; intros <-; tauto.
Qed.

(** X3: a name is mapped to the last file, in the order of the input, that
    has it as its path-derived module name or as its basename without
    extension; a name no file has is not mapped. *)
Theorem module_to_file_last_candidate (all_files : list string) (name : string) :
  module_to_file all_files !! name = last (filter (is_candidate name) all_files).
Proof.
  unfold module_to_file.
  induction all_files as [|f fs IH] using rev_ind; [done|].
  rewrite foldl_app, filter_app. simpl.
  rewrite register_file_lookup_full, IH, filter_cons, filter_nil.
  case_decide.
  - by rewrite last_snoc.
  - by rewrite app_nil_r.
Qed.


Lemma module_to_file_candidate (all_files : list string) (name target : string) :
  module_to_file all_files !! name = Some target →
  is_candidate name target ∧ target ∈ all_files.
Proof.
  unfold module_to_file.
  induction all_files as [|f fs IH] using rev_ind.
  { simpl. by rewrite lookup_empty. }
  rewrite foldl_app. simpl. rewrite register_file_lookup_full.
  case_decide as Hc.
  - intros [= <-]. split; [done|]. apply elem_of_app. right. left.
  - intros [? ?]%IH. split; [done|]. apply elem_of_app. by left.
Qed.

Lemma candidate_no_sep (name file_path : string) :
  is_candidate name file_path → has_char "/" name = false.
Proof.
  intros [-> | ->]; [apply module_name_no_sep | apply file_stem_no_sep].
Qed.

(** X4: an import that holds a slash is never mapped to a file, so it never
    gives an edge: a file all of whose imports hold a slash has no outgoing
    edge. *)
Theorem slash_import_never_resolves (rt : Runtime)
    (imports : list (string * gset string)) (all_files : list string) :
  (∀ imported, has_char "/" imported = true →
     module_to_file all_files !! imported = None) ∧
  (∀ A, (∀ s imported, (A, s) ∈ imports → imported ∈ s →
                       has_char "/" imported = true) →
        ∀ B, ¬ has_edge (build_dependency_graph rt imports all_files) A B).
Proof.
  assert (∀ imported, has_char "/" imported = true →
            module_to_file all_files !! imported = None) as Hnone.
  { intros imported Hslash.
    destruct (module_to_file all_files !! imported) as [target|] eqn:E; [|done].
    apply module_to_file_candidate in E as [Hc _].
    apply candidate_no_sep in Hc. congruence. }
  split; [done|].
  intros A Hall B (s & imported & Hin & Hs & Hm & _)%has_edge_build_dependency_graph.
  rewrite (Hnone imported) in Hm; [done|]. by eapply Hall.
Qed.

(** X1: the edges of the graph, exactly.  [A → B] is an edge if and only if
    some import recorded for [A] is mapped to [B] by the candidate-name
    mapping and [B] is not [A]; an import that is mapped to no file, or to
    the importing file itself, is dropped. *)
Theorem dependency_edges_exact (rt : Runtime)
    (imports : list (string * gset string)) (all_files : list string)
    (A B : string) :
  has_edge (build_dependency_graph rt imports all_files) A B ↔
  ∃ s imported, (A, s) ∈ imports ∧ imported ∈ s ∧
    module_to_file all_files !! imported = Some B ∧ B ≠ A.
Proof. apply has_edge_build_dependency_graph. Qed.

Lemma elem_of_od_upd {V} (dflt : V) (f : V → V) (k k' : string) (v' : V)
    (d : list (string * V)) :
  (k', v') ∈ od_upd dflt f k d →
  (k', v') ∈ d ∨ (k' = k ∧ ∃ v0, v' = f v0).
Proof.
  induction d as [|[k0 v0] d IH]; simpl.
  - intros [= -> ->]%list_elem_of_singleton. right. eauto.
  - case_decide as Hk.
    + intros [[= -> ->]|Hin]%elem_of_cons.
      * right. eauto.
      * left. by right.
    + intros [[= -> ->]|Hin]%elem_of_cons.
      * left. left.
      * apply IH in Hin as [?|?]; [left; by right | by right].
Qed.

Lemma dependency_graph_entries (rt : Runtime)
    (imports : list (string * gset string)) (all_files : list string)
    (A : string) (s : gset string) :
  (A, s) ∈ build_dependency_graph rt imports all_files →
  s ≠ ∅ ∧ A ∈ imports.*1.
Proof.
  revert A s.
  unfold build_dependency_graph. generalize (module_to_file all_files) as m2f.
    intros m2f.
    assert (∀ (seen_keys : list string) (dependencies : list (string * gset string)),
      (∀ A s, (A, s) ∈ dependencies → s ≠ ∅ ∧ A ∈ seen_keys) →
      ∀ A s, (A, s) ∈ foldl (add_file_imports rt m2f) dependencies imports →
             s ≠ ∅ ∧ A ∈ seen_keys ++ imports.*1) as Hgen.
    { induction imports as [|[fp s0] imports IH];
        intros seen_keys deps Hdeps A s; cbn [foldl].
      - rewrite app_nil_r. apply Hdeps.
      - intros Hin. csimpl.
        replace (seen_keys ++ fp :: imports.*1)
          with ((seen_keys ++ [fp]) ++ imports.*1)
          by (by rewrite <- app_assoc).
        eapply IH; [|exact Hin]. clear Hin A s.
        assert (∀ A s, (A, s) ∈ deps → s ≠ ∅ ∧ A ∈ seen_keys ++ [fp]) as Hdeps'.
        { intros A s [? ?]%Hdeps. split; [done|]. apply elem_of_app. by left. }
        clear Hdeps. unfold add_file_imports. simpl.
        generalize (iter_set rt s0) as l. intros l. revert deps Hdeps'.
        induction l as [|x l IHl]; intros deps Hdeps A s; cbn [foldl].
        + apply Hdeps.
        + apply IHl. clear A s. intros A s. unfold add_import.
          destruct (m2f !! x) as [target|]; [|apply Hdeps].
          case_decide; [|apply Hdeps].
          intros [Hin|(-> & v0 & ->)]%elem_of_od_upd.
          * by apply Hdeps.
          * split; [set_solver|]. apply elem_of_app. right. left. }
    intros A s Hin. apply (Hgen [] []) in Hin; [done|].
    intros ? ? []%elem_of_nil.
Qed.

(** X2: a file is a key of the graph only if it has at least one edge: no
    key holds an empty set, every key is a key of the recorded imports, and
    no key is repeated. *)
Theorem dependency_graph_keys (rt : Runtime)
    (imports : list (string * gset string)) (all_files : list string) :
  NoDup (build_dependency_graph rt imports all_files).*1 ∧
  ∀ A s, (A, s) ∈ build_dependency_graph rt imports all_files →
    s ≠ ∅ ∧ A ∈ imports.*1 ∧
    ∃ B, has_edge (build_dependency_graph rt imports all_files) A B.
Proof.
  pose proof (build_dependency_graph_NoDup rt imports all_files) as Hnd.
  split; [done|].
  pose proof (dependency_graph_entries rt imports all_files) as Hinv.
  intros A s Hin. destruct (Hinv A s Hin) as [Hne HA]. split; [done|].
  split; [done|].
  apply set_choose_L in Hne as [B HB]. exists B. exists s.
  split; [by apply od_get_elem_NoDup | done].
Qed.

(** ** What each analysis does to the record of a file *)

Section record_facts.
Context (rt : Runtime).

Lemma visit_nodes_record (fi : file_info) (nodes : list ast_node) :
  let r := foldl visit_node fi nodes in
  fi_size r = fi_size fi ∧ fi_lines r = fi_lines fi ∧
  fi_exports r = fi_exports fi ∧ fi_is_config r = fi_is_config fi ∧
  fi_language r = fi_language fi ∧
  fi_imports r = fi_imports fi ∪ list_to_set (nodes ≫= node_imports) ∧
  fi_functions r = fi_functions fi ++ (nodes ≫= node_function) ∧
  fi_classes r = fi_classes fi ++ (nodes ≫= node_class) ∧
  fi_has_main r =
    fi_has_main fi || bool_decide ("main" ∈ nodes ≫= node_function).
Proof.
  revert fi. induction nodes as [|node nodes IH]; intros fi; cbn [foldl].
  - csimpl. rewrite !app_nil_r, orb_false_r.
    repeat split; try done. set_solver.
  - destruct (IH (visit_node fi node))
      as (H1 & H2 & H3 & H4 & H5 & H6 & H7 & H8 & H9).
    cbn zeta. rewrite H1, H2, H3, H4, H5, H6, H7, H8, H9. clear.
    destruct node as [names|[m|]|name|name|]; csimpl;
      try case_decide; csimpl; subst; repeat split;
      try done; try set_solver; try (by rewrite <- app_assoc).
    + rewrite (bool_decide_true ("main" ∈ _ :: _)) by left.
      by rewrite !orb_true_r.
    + f_equal. apply bool_decide_ext. rewrite elem_of_cons. naive_solver.
Qed.

Lemma with_imports_foldl (fi : file_info) (patterns : list string)
    (found : string → list string) :
  let r := foldl (λ fi pattern, with_imports (found pattern) fi) fi patterns in
  fi_size r = fi_size fi ∧ fi_lines r = fi_lines fi ∧
  fi_exports r = fi_exports fi ∧ fi_is_config r = fi_is_config fi ∧
  fi_language r = fi_language fi ∧ fi_functions r = fi_functions fi ∧
  fi_classes r = fi_classes fi ∧ fi_has_main r = fi_has_main fi.
Proof.
  revert fi. induction patterns as [|x patterns IH]; intros fi; cbn [foldl];
    [done|].
  destruct (IH (with_imports (found x) fi)) as (?&?&?&?&?&?&?&?).
  cbn zeta. by repeat split.
Qed.

(** The fields that describe the file itself are the same whichever
    analysis ran. *)
Lemma analyze_single_file_metadata (file_path content : string) (fi : file_info) :
  analyze_single_file rt file_path content = Return fi →
  fi_size fi = String.length content ∧
  fi_lines fi = count_lines rt content ∧
  fi_language fi = detect_language file_path ∧
  fi_is_config fi = is_config_file file_path content.
Proof.
  unfold analyze_single_file. cbn [fi_language].
  set (fi0 := {| fi_size := String.length content |}).
  assert (∀ fi1 : file_info,
    fi_size fi1 = fi_size fi0 ∧ fi_lines fi1 = fi_lines fi0 ∧
    fi_language fi1 = fi_language fi0 →
    Return (with_is_config (is_config_file file_path content) fi1) = Return fi →
    fi_size fi = String.length content ∧ fi_lines fi = count_lines rt content ∧
    fi_language fi = detect_language file_path ∧
    fi_is_config fi = is_config_file file_path content) as Hend.
  { intros fi1 (H1 & H2 & H3) [= <-]. simpl. by rewrite H1, H2, H3. }
  case_decide.
  { unfold analyze_python_file.
    destruct (ast_walk_parse rt content) as [e|nodes]; simpl.
    - destruct e; simpl; try done. apply Hend.
      unfold analyze_python_regex.
      match goal with |- context [foldl ?f fi0 ?l] =>
        pose proof (with_imports_foldl fi0 l
          (λ pattern, re_findall rt pattern true content))
          as (?&?&?&?&?&?&?&?) end.
      cbn zeta in *. by destruct (_ || _).
    - apply Hend.
      pose proof (visit_nodes_record fi0 nodes) as (?&?&?&?&?&_).
      cbn zeta in *. done. }
  case_bool_decide.
  { simpl. apply Hend. unfold analyze_js_ts_file.
    match goal with |- context [foldl ?f fi0 ?l] =>
      pose proof (with_imports_foldl fi0 l
        (λ pattern, re_findall rt pattern false content))
        as (?&?&?&?&?&?&?&?) end.
    cbn zeta in *. by destruct (re_search _ _ _). }
  case_bool_decide.
  { simpl. apply Hend. unfold analyze_go_file. by destruct (PyStr.contains _ _). }
  case_bool_decide.
  { simpl. apply Hend. done. }
  case_bool_decide.
  { simpl. apply Hend. unfold analyze_c_cpp_file.
    by destruct (PyStr.contains _ _). }
  simpl. by apply Hend.
Qed.

End record_facts.

Section shape_facts.
Context (rt : Runtime).

Lemma analyze_python_regex_keeps (content : string) (fi : file_info) :
  fi_exports (analyze_python_regex rt content fi) = fi_exports fi.
Proof.
  unfold analyze_python_regex.
  match goal with |- context [foldl ?f fi ?l] =>
    pose proof (with_imports_foldl fi l
      (λ pattern, re_findall rt pattern true content))
      as (_&_&He&_) end.
  cbn zeta in He.
  destruct (_ || _); cbn [fi_exports with_has_main with_classes with_functions];
    exact He.
Qed.

Lemma analyze_js_ts_file_keeps (content : string) (fi : file_info) :
  fi_has_main (analyze_js_ts_file rt content fi) = fi_has_main fi ∧
  (fi_exports fi = ∅ →
   fi_exports (analyze_js_ts_file rt content fi) ≠ ∅ →
   fi_exports (analyze_js_ts_file rt content fi) =
     {[ if PyStr.contains "export default" content then "default"
        else "named" ]} ∧
   re_search rt "export\s+(default\s+)?" content = true).
Proof.
  unfold analyze_js_ts_file.
  match goal with |- context [foldl ?f fi ?l] =>
    pose proof (with_imports_foldl fi l
      (λ pattern, re_findall rt pattern false content))
      as (_&_&He&_&_&_&_&Hm) end.
  cbn zeta in He, Hm.
  destruct (re_search _ _ _); cbn [fi_exports fi_has_main with_exports];
    (split; [exact Hm|]); rewrite He; intros ->; [|done].
  intros _. split; [set_solver | done].
Qed.

(** What the analysis of a file can set, by language. *)
Lemma analyze_single_file_shape (file_path content : string) (fi : file_info) :
  analyze_single_file rt file_path content = Return fi →
  (fi_exports fi ≠ ∅ →
     detect_language file_path ∈ ["javascript"; "typescript"] ∧
     fi_exports fi =
       {[ if PyStr.contains "export default" content then "default"
          else "named" ]} ∧
     re_search rt "export\s+(default\s+)?" content = true) ∧
  (fi_has_main fi = true →
     detect_language file_path ∈ ["python"; "go"; "c"; "cpp"]) ∧
  (detect_language file_path ∉ analysed_languages →
     fi_imports fi = ∅ ∧ fi_functions fi = [] ∧ fi_classes fi = []).
Proof.
  unfold analyze_single_file. cbn [fi_language].
  set (fi0 := {| fi_size := String.length content |}).
  assert (fi_exports fi0 = ∅ ∧ fi_has_main fi0 = false) as [He0 Hm0] by done.
  case_decide as Hpy.
  { intros Hret.
    assert (fi_exports fi = ∅) as He.
    { revert Hret. unfold analyze_python_file.
      destruct (ast_walk_parse rt content) as [e|nodes].
      - destruct e; try done. intros [= <-].
        cbn [fi_exports with_is_config]. by rewrite analyze_python_regex_keeps.
      - intros [= <-]. cbn [fi_exports with_is_config].
        by pose proof (visit_nodes_record fi0 nodes) as (_&_&->&_). }
    rewrite Hpy, He. split; [done|]. split; [intros _; set_solver|].
    intros Hn. exfalso. apply Hn. unfold analysed_languages. set_solver. }
  case_bool_decide as Hjs.
  { intros [= <-]. cbn [fi_exports fi_has_main with_is_config].
    destruct (analyze_js_ts_file_keeps content fi0) as [Hm He].
    rewrite Hm, Hm0. split; [|split; [done|]].
    - intros Hne. split; [done|]. by apply He.
    - intros Hn. exfalso. apply Hn. unfold analysed_languages. set_solver. }
  case_bool_decide as Hgo.
  { intros [= <-]. unfold analyze_go_file. split; [|split].
    - by destruct (PyStr.contains _ _).
    - intros _. set_solver.
    - intros Hn. exfalso. apply Hn. unfold analysed_languages. set_solver. }
  case_bool_decide as Hjava.
  { intros [= <-]. split; [done|]. split; [done|].
    intros Hn. exfalso. apply Hn. unfold analysed_languages. set_solver. }
  case_bool_decide as Hc.
  { intros [= <-]. unfold analyze_c_cpp_file. split; [|split].
    - by destruct (PyStr.contains _ _).
    - intros _. set_solver.
    - intros Hn. exfalso. apply Hn. unfold analysed_languages. set_solver. }
  intros [= <-]. done.
Qed.

Lemma elem_of_od_set {V} (k k' : string) (v v' : V) (d : list (string * V)) :
  (k', v') ∈ od_set k v d → (k', v') = (k, v) ∨ (k', v') ∈ d.
Proof.
  induction d as [|[k0 v0] d IH]; simpl.
  - intros ->%list_elem_of_singleton. by left.
  - case_decide as Hk.
    + subst k0. intros [[= -> ->]|Hin]%elem_of_cons; [by left|]. right. by right.
    + intros [[= -> ->]|Hin]%elem_of_cons; [right; left|].
      apply IH in Hin as [?|?]; [by left | right; by right].
Qed.

Lemma sum_counter_bump (k : string) (d : list (string * nat)) :
  sum_list (od_upd 0%nat S k d).*2 = S (sum_list d.*2).
Proof.
  induction d as [|[k0 v0] d IH]; csimpl; [done|].
  case_decide; csimpl; [done|]. rewrite IH. lia.
Qed.

(** Where the entries of the scan come from. *)
Lemma scan_files_entries (files : list (string * string)) (acc sc : scan) :
  scan_files rt acc files = inr sc →
  (∀ A fi, (A, fi) ∈ sc_file_info sc →
     (A, fi) ∈ sc_file_info acc ∨
     ∃ c, (A, c) ∈ files ∧ analyze_single_file rt A c = Return fi) ∧
  (∀ A s, (A, s) ∈ sc_imports sc →
     (A, s) ∈ sc_imports acc ∨
     ∃ c fi, (A, c) ∈ files ∧ analyze_single_file rt A c = Return fi ∧
             s = fi_imports fi ∧ s ≠ ∅) ∧
  (∀ A s, (A, s) ∈ sc_exports sc →
     (A, s) ∈ sc_exports acc ∨
     ∃ c fi, (A, c) ∈ files ∧ analyze_single_file rt A c = Return fi ∧
             s = fi_exports fi ∧ s ≠ ∅) ∧
  sum_list (sc_file_types sc).*2 =
    (sum_list (sc_file_types acc).*2 + length files)%nat.
Proof.
  revert acc. induction files as [|[fp c] files IH]; intros acc; simpl.
  - intros [= <-]. repeat split; try (intros; by left). lia.
  - unfold scan_file at 1.
    destruct (analyze_single_file rt fp c) as [e|fi0] eqn:Hfi; simpl; [done|].
    intros Hsc. destruct (IH _ Hsc) as (H1 & H2 & H3 & H4). clear IH Hsc.
    simpl in *. split; [|split; [|split]].
    + intros A fi [Hin|(c' & ? & ?)]%H1.
      * apply elem_of_od_set in Hin as [[= -> ->]|?]; [|by left].
        right. exists c. split; [left | done].
      * right. exists c'. split; [by right | done].
    + intros A s [Hin|(c' & fi & ? & ?)]%H2.
      * unfold truthy_set in Hin. case_bool_decide as He; simpl in Hin;
          [by left|].
        apply elem_of_od_set in Hin as [[= -> ->]|?]; [|by left].
        right. exists c, fi0. split; [left | done].
      * right. exists c', fi. split; [by right | done].
    + intros A s [Hin|(c' & fi & ? & ?)]%H3.
      * unfold truthy_set in Hin. case_bool_decide as He; simpl in Hin;
          [by left|].
        apply elem_of_od_set in Hin as [[= -> ->]|?]; [|by left].
        right. exists c, fi0. split; [left | done].
      * right. exists c', fi. split; [by right | done].
    + rewrite H4, sum_counter_bump. lia.
Qed.

Lemma analyze_file_structure_fields (files : list (string * string))
    (st : structure) :
  analyze_file_structure rt files = Return st →
  ∃ sc, scan_files rt empty_scan files = inr sc ∧
    st_file_info st = sc_file_info sc ∧ st_imports st = sc_imports sc ∧
    st_exports st = sc_exports sc ∧ st_file_types st = sc_file_types sc ∧
    st_dependencies st = build_dependency_graph rt (sc_imports sc) files.*1 ∧
    st_entry_points st = identify_entry_points (sc_file_info sc) ∧
    analyze_directory_structure files.*1 = Return (st_directory_structure st) ∧
    st_patterns st = detect_patterns rt (st_directory_structure st).
Proof.
  unfold analyze_file_structure.
  destruct (scan_files rt empty_scan files) as [e|sc]; simpl; [done|].
  destruct (analyze_directory_structure files.*1) as [e|ds]; simpl; [done|].
  intros [= <-]. exists sc. done.
Qed.

End shape_facts.

(** ** Further properties of the analyzer's result *)

(** X5: a file whose language has no analysis (Rust, Ruby, PHP, Swift,
    Kotlin, unknown extensions) gets no imports, functions or classes, and
    has no outgoing edge in the dependency graph. *)
Theorem unanalysed_language_has_no_edges (rt : Runtime)
    (files : list (string * string)) (st : structure) (A : string) :
  analyze_file_structure rt files = Return st →
  detect_language A ∉ analysed_languages →
  (∀ B, ¬ has_edge (st_dependencies st) A B) ∧
  (∀ fi, od_get A (st_file_info st) = Some fi →
         fi_imports fi = ∅ ∧ fi_functions fi = [] ∧ fi_classes fi = []).
Proof.
  intros Hst Hlang.
  destruct (analyze_file_structure_fields rt files st Hst)
    as (sc & Hsc & Hinfo & _ & _ & _ & Hdeps & _).
  destruct (scan_files_entries rt files empty_scan sc Hsc) as (H1 & H2 & _).
  split.
  - intros B. rewrite Hdeps.
    intros (s & name & Hin & Hname & _)%has_edge_build_dependency_graph.
    apply H2 in Hin as [[]%elem_of_nil|(c & fi & _ & Hfi & -> & _)].
    apply analyze_single_file_shape in Hfi as (_ & _ & Hshape).
    destruct (Hshape Hlang) as [Himp _]. set_solver.
  - intros fi Hget. rewrite Hinfo in Hget. apply od_get_Some_elem in Hget.
    apply H1 in Hget as [[]%elem_of_nil|(c & _ & Hfi)].
    apply analyze_single_file_shape in Hfi as (_ & _ & Hshape). by apply Hshape.
Qed.

Lemma unanalysed_language_has_no_edges_witness :
  ∃ st, analyze_file_structure Sample.runtime Sample.files = Return st ∧
    (∀ B, ¬ has_edge (st_dependencies st) "src/lib.rs" B) ∧
    (∀ fi, od_get "src/lib.rs" (st_file_info st) = Some fi →
           fi_imports fi = ∅ ∧ fi_functions fi = [] ∧ fi_classes fi = []).
Proof.
  eexists. split; [vm_compute; reflexivity|].
  apply (unanalysed_language_has_no_edges Sample.runtime Sample.files).
  - vm_compute. reflexivity.
  - refine (bool_decide_eq_false_1 _ _). vm_compute. reflexivity.
Defined.

(** X6: only JavaScript and TypeScript files are recorded as having exports.
    For a recorded file the export pattern was found in its content, and
    what is recorded is the single word [default] exactly when the content
    holds [export default], and the single word [named] otherwise. *)
Theorem exports_only_for_js_ts (rt : Runtime)
    (files : list (string * string)) (st : structure)
    (A content : string) (s : gset string) :
  NoDup files.*1 →
  (A, content) ∈ files →
  analyze_file_structure rt files = Return st →
  od_get A (st_exports st) = Some s →
  detect_language A ∈ ["javascript"; "typescript"] ∧
  re_search rt "export\s+(default\s+)?" content = true ∧
  (PyStr.contains "export default" content = true → s = {["default"]}) ∧
  (PyStr.contains "export default" content = false → s = {["named"]}).
Proof.
  intros Hnd Hfile Hst Hget.
  destruct (analyze_file_structure_fields rt files st Hst)
    as (sc & Hsc & _ & _ & Hexp & _).
  destruct (scan_files_entries rt files empty_scan sc Hsc) as (_ & _ & H3 & _).
  rewrite Hexp in Hget. apply od_get_Some_elem in Hget.
  apply H3 in Hget as [[]%elem_of_nil|(c & fi & Hin & Hfi & -> & Hne)].
  assert (c = content) as ->.
  { apply (od_get_elem_NoDup _ _ _ Hnd) in Hin, Hfile. congruence. }
  apply analyze_single_file_shape in Hfi as (Hshape & _).
  destruct (Hshape Hne) as (Hlang & -> & Hsearch).
  split; [done|]. split; [done|]. split; intros ->; done.
Qed.

Lemma exports_only_for_js_ts_witness :
  ∃ st, analyze_file_structure Sample.runtime Web.files = Return st ∧
    od_get "web/app.js" (st_exports st) = Some {["default"]} ∧
    od_get "web/lib.ts" (st_exports st) = Some {["named"]} ∧
    od_get "web/plain.js" (st_exports st) = None ∧
    detect_language "web/lib.ts" ∈ ["javascript"; "typescript"] ∧
    re_search Sample.runtime "export\s+(default\s+)?" Web.lib_ts = true ∧
    (PyStr.contains "export default" Web.lib_ts = true →
     ({["named"]} : gset string) = {["default"]}) ∧
    (PyStr.contains "export default" Web.lib_ts = false →
     ({["named"]} : gset string) = {["named"]}).
Proof.
  eexists. split; [vm_compute; reflexivity|].
  split; [vm_compute; reflexivity|]. split; [vm_compute; reflexivity|].
  split; [vm_compute; reflexivity|].
  eapply (exports_only_for_js_ts Sample.runtime Web.files _ "web/lib.ts"
            Web.lib_ts).
  - refine (bool_decide_eq_true_1 _ _). vm_compute. reflexivity.
  - refine (bool_decide_eq_true_1 _ _). vm_compute. reflexivity.
  - vm_compute. reflexivity.
  - vm_compute. reflexivity.
Defined.

(** X7: the counter of file types counts every file once: its counts add up
    to the number of input files. *)
Theorem file_types_count_every_file (rt : Runtime)
    (files : list (string * string)) (st : structure) :
  analyze_file_structure rt files = Return st →
  sum_list (st_file_types st).*2 = length files.
Proof.
  intros Hst.
  destruct (analyze_file_structure_fields rt files st Hst)
    as (sc & Hsc & _ & _ & _ & -> & _).
  by destruct (scan_files_entries rt files empty_scan sc Hsc) as (_ & _ & _ & ->).
Qed.

Lemma file_types_count_every_file_witness :
  ∃ st, analyze_file_structure Sample.runtime Sample.files = Return st ∧
    st_file_types st = [(".py", 2); (".rs", 1); (".js", 1); (".java", 1)]%nat ∧
    sum_list (st_file_types st).*2 = length Sample.files.
Proof.
  eexists. split; [vm_compute; reflexivity|]. split; [vm_compute; reflexivity|].
  apply (file_types_count_every_file Sample.runtime Sample.files).
  vm_compute. reflexivity.
Defined.

(** X8: with pairwise distinct paths, the entry points are listed in the
    order of the input, and a path is listed exactly when its record meets
    one of the three tests. *)
Theorem entry_points_in_input_order (rt : Runtime)
    (files : list (string * string)) (st : structure) :
  NoDup files.*1 →
  analyze_file_structure rt files = Return st →
  st_entry_points st `sublist_of` files.*1 ∧
  ∀ A, A ∈ st_entry_points st ↔
       ∃ fi, od_get A (st_file_info st) = Some fi ∧ is_entry (A, fi) = true.
Proof.
  intros Hnd Hst.
  destruct (analyze_file_structure_fields rt files st Hst)
    as (sc & Hsc & -> & _ & _ & _ & _ & -> & _).
  destruct (scan_files_app rt files empty_scan sc Hsc Hnd)
    as (infos & HF & Hinfo & _).
  { intros k _. simpl. split; apply not_elem_of_nil. }
  simpl in Hinfo. rewrite Hinfo.
  assert (infos.*1 = files.*1) as Hkeys.
  { clear -HF. induction HF as [|f i fs infos [Hk _] _ IH]; csimpl; [done|].
    by rewrite Hk, IH. }
  rewrite identify_entry_points_filter, <- Hkeys. split.
  - apply fmap_sublist, sublist_filter.
  - intros A. rewrite list_elem_of_fmap. split.
    + intros ([A' fi] & -> & [Hentry Hin]%list_elem_of_filter).
      exists fi. split; [|done]. apply od_get_elem_NoDup; [|done].
      by rewrite Hkeys.
    + intros (fi & Hget & Hentry). exists (A, fi). split; [done|].
      apply list_elem_of_filter. split; [done|]. by apply od_get_Some_elem.
Qed.

Lemma entry_points_in_input_order_witness :
  ∃ st, analyze_file_structure Sample.runtime Sample.files = Return st ∧
    st_entry_points st = ["main.py"; "src/main.java"] ∧
    st_entry_points st `sublist_of` Sample.files.*1 ∧
    ∀ A, A ∈ st_entry_points st ↔
         ∃ fi, od_get A (st_file_info st) = Some fi ∧ is_entry (A, fi) = true.
Proof.
  eexists. split; [vm_compute; reflexivity|]. split; [vm_compute; reflexivity|].
  apply (entry_points_in_input_order Sample.runtime Sample.files).
  - refine (bool_decide_eq_true_1 _ _). vm_compute. reflexivity.
  - vm_compute. reflexivity.
Defined.

(** X9: only the analyses of Python, Go, C and C++ can mark a file as having
    a main routine.  A listed entry point of any other language is listed for
    its name: a canonical entry name, or a setup name with a content of more
    than 100 characters. *)
Theorem entry_point_by_name_only (rt : Runtime)
    (files : list (string * string)) (st : structure) (A : string) :
  analyze_file_structure rt files = Return st →
  A ∈ st_entry_points st →
  detect_language A ∉ ["python"; "go"; "c"; "cpp"] →
  ∃ content, (A, content) ∈ files ∧
    (PyStr.lower (PosixPath.basename A) ∈ entry_names ∨
     (PyStr.lower (PosixPath.basename A) ∈ setup_names ∧
      (100 < String.length content)%nat)).
Proof.
  intros Hst Hin Hlang.
  destruct (analyze_file_structure_fields rt files st Hst)
    as (sc & Hsc & _ & _ & _ & _ & _ & Hentry & _).
  destruct (scan_files_entries rt files empty_scan sc Hsc) as (H1 & _).
  rewrite Hentry, identify_entry_points_filter in Hin.
  apply list_elem_of_fmap in Hin
    as ([A' fi] & -> & [Hentry' Hinfo]%list_elem_of_filter).
  apply H1 in Hinfo as [[]%elem_of_nil|(c & Hc & Hfi)].
  exists c. split; [done|].
  pose proof (analyze_single_file_shape rt _ _ _ Hfi) as (_ & Hmain & _).
  pose proof (analyze_single_file_metadata rt _ _ _ Hfi) as (Hsize & _).
  unfold is_entry in Hentry'. simpl in *.
  destruct (fi_has_main fi); [by destruct Hlang; apply Hmain|].
  simpl in Hentry'. apply orb_true_iff in Hentry' as [H|H].
  - left. by apply bool_decide_eq_true in H.
  - right. apply andb_true_iff in H as [H1' H2'].
    apply bool_decide_eq_true in H1'. apply Nat.ltb_lt in H2'.
    split; [done|]. by rewrite <- Hsize.
Qed.

Lemma entry_point_by_name_only_witness :
  ∃ content, ("src/main.java", content) ∈ Sample.files ∧
    (PyStr.lower (PosixPath.basename "src/main.java") ∈ entry_names ∨
     (PyStr.lower (PosixPath.basename "src/main.java") ∈ setup_names ∧
      (100 < String.length content)%nat)).
Proof.
  eapply (entry_point_by_name_only Sample.runtime Sample.files).
  - vm_compute. reflexivity.
  - refine (bool_decide_eq_true_1 _ _). vm_compute. reflexivity.
  - refine (bool_decide_eq_false_1 _ _). vm_compute. reflexivity.
Defined.

(** ** Further properties of the core-module ranking *)

Section ranking_facts.
Context (rt : Runtime).

Lemma in_degree_pos_edge (dependencies : list (string * gset string)) (f : string) :
  NoDup dependencies.*1 →
  in_degree dependencies f ≠ 0%nat ↔ ∃ A, has_edge dependencies A f.
Proof.
  intros Hnd. unfold in_degree, has_edge. split.
  - intros Hlen. destruct (filter _ dependencies) as [|[A s] l] eqn:E; [done|].
    assert ((A, s) ∈ filter (λ entry, f ∈ entry.2) dependencies) as Hin
      by (rewrite E; left).
    apply list_elem_of_filter in Hin as [Hf Hin]. exists A, s.
    split; [by apply od_get_elem_NoDup | done].
  - intros (A & s & Hget & Hf). apply od_get_Some_elem in Hget.
    assert ((A, s) ∈ filter (λ entry, f ∈ entry.2) dependencies) as Hin
      by (by apply list_elem_of_filter).
    destruct (filter _ dependencies); [by apply elem_of_nil in Hin | done].
Qed.

Lemma count_dependents_lookup (dependencies : list (string * gset string))
    (f : string) (c : nat) :
  (f, c) ∈ count_dependents rt dependencies ↔
  c = in_degree dependencies f ∧ c ≠ 0%nat.
Proof.
  split.
  - intros Hin. split; [by apply (count_dependents_in_degree rt)|].
    apply (od_get_elem_NoDup _ _ _ (count_dependents_NoDup rt dependencies)) in Hin.
    unfold count_dependents in Hin. rewrite od_get_count_entries in Hin.
    simpl in Hin. case_decide; [done|]. injection Hin as <-. lia.
  - intros [-> Hne]. apply od_get_Some_elem.
    unfold count_dependents. rewrite od_get_count_entries. simpl.
    rewrite decide_False by done. f_equal. lia.
Qed.

End ranking_facts.

(** X10: every file of the ranking is depended upon: its count is at least
    1, some other file of the input holds an edge into it, and it is itself a
    file of the input.  No file is ranked twice. *)
Theorem core_modules_are_targets (rt : Runtime)
    (files : list (string * string)) (st : structure) :
  analyze_file_structure rt files = Return st →
  NoDup (st_core_modules st).*1 ∧
  ∀ f c, (f, c) ∈ st_core_modules st →
    (1 ≤ c)%nat ∧ f ∈ files.*1 ∧
    ∃ A, A ≠ f ∧ has_edge (st_dependencies st) A f.
Proof.
  intros (sc & ds & _ & _ & _ & _ & -> & _ & ->)%analyze_file_structure_inv.
  set (deps := build_dependency_graph rt (sc_imports sc) files.*1).
  pose proof (build_dependency_graph_NoDup rt (sc_imports sc) files.*1) as Hnd.
  fold deps in Hnd. unfold identify_core_modules. split.
  - apply (sublist_NoDup _ (sorted_desc (count_dependents rt deps)).*1);
      first [apply fmap_sublist, sublist_take | idtac].
    rewrite (sorted_desc_perm (count_dependents rt deps)).
    apply count_dependents_NoDup.
  - intros f c Hin. apply (subseteq_take 10) in Hin.
    rewrite (sorted_desc_perm (count_dependents rt deps)) in Hin.
    apply count_dependents_lookup in Hin as [-> Hne].
    split; [lia|].
    apply (in_degree_pos_edge deps f Hnd) in Hne as [A HA].
    pose proof HA as (s & name & _ & _ & Hm & Hne')%has_edge_build_dependency_graph.
    split; [by eapply module_to_file_target|]. exists A. split; [done|]. done.
Qed.

Lemma core_modules_are_targets_witness :
  ∃ st, analyze_file_structure Sample.runtime Sample.files = Return st ∧
    NoDup (st_core_modules st).*1 ∧
    ∀ f c, (f, c) ∈ st_core_modules st →
      (1 ≤ c)%nat ∧ f ∈ Sample.files.*1 ∧
      ∃ A, A ≠ f ∧ has_edge (st_dependencies st) A f.
Proof.
  eexists. split; [vm_compute; reflexivity|].
  apply (core_modules_are_targets Sample.runtime Sample.files).
  vm_compute. reflexivity.
Defined.

(** X11: the ranking drops files only by its cut at 10: it has as many
    entries as there are depended-upon files, up to 10, and when there are at
    most 10 of them every file with a dependent is ranked. *)
Theorem core_modules_complete_when_few (rt : Runtime)
    (files : list (string * string)) (st : structure) :
  analyze_file_structure rt files = Return st →
  length (st_core_modules st) =
    Nat.min 10 (length (first_seen (seen rt (st_dependencies st)))) ∧
  ((length (first_seen (seen rt (st_dependencies st))) ≤ 10)%nat →
   ∀ f, (∃ A, has_edge (st_dependencies st) A f) ↔
        f ∈ (st_core_modules st).*1).
Proof.
  intros (sc & ds & _ & _ & _ & _ & -> & _ & ->)%analyze_file_structure_inv.
  set (deps := build_dependency_graph rt (sc_imports sc) files.*1).
  pose proof (build_dependency_graph_NoDup rt (sc_imports sc) files.*1) as Hnd.
  fold deps in Hnd. unfold identify_core_modules.
  assert (length (sorted_desc (count_dependents rt deps)) =
          length (first_seen (seen rt deps))) as Hlen.
  { rewrite (sorted_desc_perm (count_dependents rt deps)).
    by rewrite <- count_dependents_keys, length_fmap. }
  split.
  - by rewrite length_take, Hlen.
  - intros Hfew f. rewrite take_ge by lia.
    rewrite (sorted_desc_perm (count_dependents rt deps)).
    rewrite <- (in_degree_pos_edge deps f Hnd), list_elem_of_fmap. split.
    + intros Hne. exists (f, in_degree deps f). split; [done|].
      by apply count_dependents_lookup.
    + by intros ([f' c] & -> & [-> Hne]%count_dependents_lookup).
Qed.

Lemma core_modules_complete_when_few_witness :
  ∃ st, analyze_file_structure Sample.runtime Sample.files = Return st ∧
    length (st_core_modules st) =
      Nat.min 10 (length (first_seen (seen Sample.runtime (st_dependencies st)))) ∧
    ((length (first_seen (seen Sample.runtime (st_dependencies st))) ≤ 10)%nat →
     ∀ f, (∃ A, has_edge (st_dependencies st) A f) ↔
          f ∈ (st_core_modules st).*1).
Proof.
  eexists. split; [vm_compute; reflexivity|].
  apply (core_modules_complete_when_few Sample.runtime Sample.files).
  vm_compute. reflexivity.
Defined.

(** ** Properties of the directory shape *)

Lemma split_length_pos (c : ascii) (s : string) :
  (1 ≤ length (PyStr.split c s))%nat.
Proof.
  induction s as [|a s IH]; simpl; [lia|].
  case_decide; simpl; [lia|]. destruct (PyStr.split c s); simpl in *; lia.
Qed.

Lemma foldl_max_bound (x : nat) (l : list nat) :
  (x ≤ foldl Nat.max x l)%nat ∧
  (∀ y, y ∈ l → (y ≤ foldl Nat.max x l)%nat) ∧
  (foldl Nat.max x l = x ∨ foldl Nat.max x l ∈ l).
Proof.
  revert x. induction l as [|a l IH]; intros x; simpl.
  - split; [lia|]. split; [by intros ? ?%elem_of_nil | by left].
  - destruct (IH (Nat.max x a)) as (H1 & H2 & H3). split; [lia|]. split.
    + intros y [->|Hy]%elem_of_cons; [lia | by apply H2].
    + destruct H3 as [->|H3]; [|right; by right].
      destruct (Nat.max_spec x a) as [[_ ->]|[_ ->]]; [right; left | by left].
Qed.

(** X12: for a non-empty list of paths the recorded depth is the largest
    number of slash-separated components of a path: no path has more, some
    path has exactly that many, and it is at least 1 (a file at the top
    level counts one component). *)
Theorem directory_depth_is_max (file_paths : list string)
    (ds : directory_structure) :
  analyze_directory_structure file_paths = Return ds →
  (1 ≤ ds_depth ds)%nat ∧
  (∀ path, path ∈ file_paths →
     (length (PyStr.split "/" path) ≤ ds_depth ds)%nat) ∧
  (∃ path, path ∈ file_paths ∧ length (PyStr.split "/" path) = ds_depth ds).
Proof.
  unfold analyze_directory_structure.
  destruct file_paths as [|p0 paths]; [done|]. csimpl. intros [= <-]. simpl.
  destruct (foldl_max_bound (length (PyStr.split "/" p0))
              ((λ path, length (PyStr.split "/" path)) <$> paths))
    as (H1 & H2 & H3).
  split; [pose proof (split_length_pos "/" p0); lia|]. split.
  - intros path [->|Hin]%elem_of_cons; [done|].
    apply H2. apply list_elem_of_fmap. by exists path.
  - destruct H3 as [->|(path & Heq & Hin)%list_elem_of_fmap].
    + exists p0. split; [left | done].
    + exists path. split; [by right | done].
Qed.

Lemma directory_depth_is_max_witness :
  ∃ ds, analyze_directory_structure Sample.files.*1 = Return ds ∧
    ds_depth ds = 2%nat ∧
    (1 ≤ ds_depth ds)%nat ∧
    (∀ path, path ∈ Sample.files.*1 →
       (length (PyStr.split "/" path) ≤ ds_depth ds)%nat) ∧
    (∃ path, path ∈ Sample.files.*1 ∧
       length (PyStr.split "/" path) = ds_depth ds).
Proof.
  eexists. split; [vm_compute; reflexivity|]. split; [reflexivity|].
  apply (directory_depth_is_max Sample.files.*1). vm_compute. reflexivity.
Defined.

Lemma group_by_directory_lookup (file_paths : list string) (d : string) :
  od_get d (group_by_directory file_paths) =
  if decide (d = EmptyString) then None
  else match filter (λ path, PosixPath.dirname path = d) file_paths with
       | [] => None
       | inside => Some (PosixPath.basename <$> inside)
       end.
Proof.
  unfold group_by_directory. revert d.
  induction file_paths as [|p paths IH] using rev_ind; intros d.
  { simpl. by case_decide. }
  rewrite foldl_app, filter_app. cbn [foldl]. rewrite filter_cons, filter_nil.
  destruct (decide (PosixPath.dirname p = EmptyString)) as [He|He].
  - rewrite IH. case_decide as Hd; [done|].
    rewrite decide_False by congruence. by rewrite app_nil_r.
  - rewrite od_get_upd, !IH.
    destruct (decide (d = PosixPath.dirname p)) as [->|Hne].
    + rewrite !decide_False by done. rewrite decide_True by done.
      destruct (filter _ paths) as [|q inside]; csimpl; [done|].
      by rewrite fmap_app.
    + rewrite (decide_False (P:=PosixPath.dirname p = d)) by done.
      by rewrite app_nil_r.
Qed.

Lemma group_by_directory_NoDup (file_paths : list string) :
  NoDup (group_by_directory file_paths).*1.
Proof.
  unfold group_by_directory.
  induction file_paths as [|p paths IH] using rev_ind; [constructor|].
  rewrite foldl_app. cbn [foldl]. case_decide; [done|]. by apply od_upd_NoDup.
Qed.

(** X13: the directories of the shape are the non-empty parent directories
    of the paths, each once, with the basenames of its files in the order of
    the input; a file at the top level is in no group.  The common
    directories are those with more than 3 files. *)
Theorem directories_group_files (file_paths : list string)
    (ds : directory_structure) :
  analyze_directory_structure file_paths = Return ds →
  NoDup (ds_directories ds).*1 ∧
  (∀ d names, (d, names) ∈ ds_directories ds ↔
     d ≠ EmptyString ∧ names ≠ [] ∧
     names = PosixPath.basename <$>
               filter (λ path, PosixPath.dirname path = d) file_paths) ∧
  (∀ d, d ∈ ds_common_dirs ds ↔
     d ≠ EmptyString ∧
     (3 < length (filter (λ path, PosixPath.dirname path = d) file_paths))%nat).
Proof.
  unfold analyze_directory_structure.
  destruct (py_max _) as [e|depth]; [done|]. intros [= <-]. simpl.
  pose proof (group_by_directory_NoDup file_paths) as Hnd.
  assert (∀ d names, (d, names) ∈ group_by_directory file_paths ↔
     d ≠ EmptyString ∧ names ≠ [] ∧
     names = PosixPath.basename <$>
               filter (λ path, PosixPath.dirname path = d) file_paths) as Hin.
  { intros d names. split.
    - intros H. apply (od_get_elem_NoDup _ _ _ Hnd) in H.
      rewrite group_by_directory_lookup in H. case_decide; [done|].
      destruct (filter _ file_paths) as [|q inside]; [done|].
      injection H as <-. done.
    - intros (Hd & Hne & ->). apply od_get_Some_elem.
      rewrite group_by_directory_lookup, decide_False by done.
      destruct (filter _ file_paths) as [|q inside]; done. }
  split; [done|]. split; [done|].
  intros d. rewrite list_elem_of_fmap. split.
  - intros ([d' names] & -> & [Hlen Hdn]%list_elem_of_filter).
    apply Hin in Hdn as (Hd & _ & ->). simpl in *. split; [done|].
    by rewrite length_fmap in Hlen.
  - intros [Hd Hlen].
    exists (d, PosixPath.basename <$>
                 filter (λ path, PosixPath.dirname path = d) file_paths).
    split; [done|]. apply list_elem_of_filter. simpl. split.
    + by rewrite length_fmap.
    + apply Hin. split; [done|]. split; [|done].
      destruct (filter _ file_paths); simpl in *; [lia | done].
Qed.

Lemma directories_group_files_witness :
  ∃ ds, analyze_directory_structure Sample.files.*1 = Return ds ∧
    ds_directories ds =
      [("utils", ["helper.py"]); ("src", ["lib.rs"; "main.java"]);
       ("web", ["app.js"])] ∧
    NoDup (ds_directories ds).*1 ∧
    (∀ d names, (d, names) ∈ ds_directories ds ↔
       d ≠ EmptyString ∧ names ≠ [] ∧
       names = PosixPath.basename <$>
                 filter (λ path, PosixPath.dirname path = d) Sample.files.*1) ∧
    (∀ d, d ∈ ds_common_dirs ds ↔
       d ≠ EmptyString ∧
       (3 < length (filter (λ path, PosixPath.dirname path = d)
                      Sample.files.*1))%nat).
Proof.
  eexists. split; [vm_compute; reflexivity|]. split; [vm_compute; reflexivity|].
  apply (directories_group_files Sample.files.*1). vm_compute. reflexivity.
Defined.

(** ** Properties of the configuration test and of the parser path *)

Lemma contains_first_char (a : ascii) (sub s : string) :
  PyStr.contains (String a sub) s = true → has_char a s = true.
Proof.
  induction s as [|c s IH]; simpl; [done|].
  destruct (ascii_dec a c) as [->|Hne].
  - intros _. by rewrite bool_decide_true.
  - simpl. intros H. rewrite (IH H). apply orb_true_r.
Qed.

Lemma lower_char_not_upper (c : ascii) :
  PyStr.lower_char c ≠ "M"%char ∧ PyStr.lower_char c ≠ "D"%char.
Proof.
  destruct c as [[] [] [] [] [] [] [] []]; vm_compute; split; discriminate.
Qed.

Lemma lower_has_no_upper (s : string) :
  has_char "M" (PyStr.lower s) = false ∧ has_char "D" (PyStr.lower s) = false.
Proof.
  induction s as [|c s [IH1 IH2]]; [done|]. cbn [PyStr.lower has_char].
  destruct (lower_char_not_upper c) as [HM HD].
  by rewrite IH1, IH2, !bool_decide_false.
Qed.

(** X14: the two capitalised indicators never match, because the path is
    lowercased before the test: a file is taken for a configuration file
    exactly when its lowercased path holds one of the other eleven
    indicators, whatever its content. *)
Theorem capitalised_indicators_never_match (file_path content : string) :
  PyStr.contains "Makefile" (PyStr.lower file_path) = false ∧
  PyStr.contains "Dockerfile" (PyStr.lower file_path) = false ∧
  is_config_file file_path content =
    existsb (λ indicator, PyStr.contains indicator (PyStr.lower file_path))
      ["config"; "settings"; "setup"; ".json"; ".yaml"; ".yml"; ".toml";
       ".ini"; ".cfg"; ".env"; ".properties"].
Proof.
  destruct (lower_has_no_upper file_path) as [HM HD].
  assert (PyStr.contains "Makefile" (PyStr.lower file_path) = false) as H1.
  { apply not_true_is_false. intros H%contains_first_char. congruence. }
  assert (PyStr.contains "Dockerfile" (PyStr.lower file_path) = false) as H2.
  { apply not_true_is_false. intros H%contains_first_char. congruence. }
  split; [done|]. split; [done|].
  unfold is_config_file, config_indicators. cbn [existsb].
  by rewrite H1, H2.
Qed.

(** X15: on the parser path, the record of a Python file holds exactly the
    names of the plain imports and the non-empty modules of the from-imports
    (an import relative to the package alone records nothing), the names of
    the function and class definitions in the order of the walk, and the
    main mark exactly when a function definition, at any depth, is named
    [main]. *)
Theorem python_parser_path (rt : Runtime) (file_path content : string)
    (nodes : list ast_node) :
  detect_language file_path = "python" →
  ast_walk_parse rt content = Return nodes →
  ∃ fi, analyze_single_file rt file_path content = Return fi ∧
    fi_imports fi = list_to_set (nodes ≫= node_imports) ∧
    fi_functions fi = nodes ≫= node_function ∧
    fi_classes fi = nodes ≫= node_class ∧
    fi_has_main fi = bool_decide ("main" ∈ nodes ≫= node_function) ∧
    fi_exports fi = ∅.
Proof.
  intros Hpy Hparse. unfold analyze_single_file. cbn [fi_language].
  rewrite decide_True by done. unfold analyze_python_file. rewrite Hparse.
  eexists. split; [reflexivity|].
  cbn [with_is_config fi_imports fi_functions fi_classes fi_has_main fi_exports].
  match goal with |- context [foldl visit_node ?fi0 nodes] =>
    pose proof (visit_nodes_record fi0 nodes)
      as (_ & _ & H3 & _ & _ & H6 & H7 & H8 & H9) end.
  cbn zeta in *. rewrite H3, H6, H7, H8, H9. simpl.
  repeat split; try done. set_solver.
Qed.

Lemma python_parser_path_witness :
  ∃ fi, analyze_single_file Example.runtime "main.py" Example.main_py = Return fi ∧
    fi_imports fi =
      list_to_set
        ([OtherNode; Import ["os"]; Import ["sys"];
          ImportFrom (Some "utils.helper"); FunctionDef "main";
          OtherNode; OtherNode; OtherNode] ≫= node_imports) ∧
    fi_functions fi =
      [OtherNode; Import ["os"]; Import ["sys"];
       ImportFrom (Some "utils.helper"); FunctionDef "main";
       OtherNode; OtherNode; OtherNode] ≫= node_function ∧
    fi_classes fi =
      [OtherNode; Import ["os"]; Import ["sys"];
       ImportFrom (Some "utils.helper"); FunctionDef "main";
       OtherNode; OtherNode; OtherNode] ≫= node_class ∧
    fi_has_main fi =
      bool_decide ("main" ∈
        [OtherNode; Import ["os"]; Import ["sys"];
         ImportFrom (Some "utils.helper"); FunctionDef "main";
         OtherNode; OtherNode; OtherNode] ≫= node_function) ∧
    fi_exports fi = ∅.
Proof.
  apply (python_parser_path Example.runtime "main.py" Example.main_py).
  - reflexivity.
  - reflexivity.
Defined.

(** ** Properties of the validation of the replies *)

(** X16: the validation of the relationship analysis, from the parsed value
    on.  A mapping passes exactly when it has the three required keys, and is
    returned unchanged; otherwise the error names the first missing key in
    the order summary, architecture overview, component relationships.  A
    parsed value that is a plain string is tested by substring: it passes
    exactly when the three key names occur in it, and otherwise the error
    names the first that does not.  A parsed value that is [None] (the
    document of a fenced block with nothing in it), a boolean or a number
    raises [TypeError] rather than the missing-key error. *)
Theorem relationships_validation (entries : list (string * yaml)) (s : string)
    (b : bool) (z : Z) (f : pyfloat) :
  AnalyzeRelationships_check (YDict entries) =
    (if decide (od_get "summary" entries = None)
     then Raise (ValueError "Missing required key: summary")
     else if decide (od_get "architecture_overview" entries = None)
     then Raise (ValueError "Missing required key: architecture_overview")
     else if decide (od_get "component_relationships" entries = None)
     then Raise (ValueError "Missing required key: component_relationships")
     else Return (YDict entries)) ∧
  AnalyzeRelationships_check (YStr s) =
    (if negb (PyStr.contains "summary" s)
     then Raise (ValueError "Missing required key: summary")
     else if negb (PyStr.contains "architecture_overview" s)
     then Raise (ValueError "Missing required key: architecture_overview")
     else if negb (PyStr.contains "component_relationships" s)
     then Raise (ValueError "Missing required key: component_relationships")
     else Return (YStr s)) ∧
  AnalyzeRelationships_check YNull = Raise TypeError ∧
  AnalyzeRelationships_check (YBool b) = Raise TypeError ∧
  AnalyzeRelationships_check (YInt z) = Raise TypeError ∧
  AnalyzeRelationships_check (YFloat f) = Raise TypeError.
Proof.
  split; [|split; [|repeat split]].
  - unfold AnalyzeRelationships_check. cbn [foldl bind py_contains Return].
    destruct (od_get "summary" entries) as [v1|]; [|done].
    rewrite bool_decide_true by eauto. rewrite decide_False by done.
    cbn [bind Return].
    destruct (od_get "architecture_overview" entries) as [v2|]; [|done].
    rewrite bool_decide_true by eauto. rewrite decide_False by done.
    cbn [bind Return].
    destruct (od_get "component_relationships" entries) as [v3|]; [|done].
    rewrite bool_decide_true by eauto. by rewrite decide_False by done.
  - unfold AnalyzeRelationships_check. cbn [foldl bind py_contains Return].
    destruct (PyStr.contains "summary" s); [|done]. cbn [bind negb].
    destruct (PyStr.contains "architecture_overview" s); [|done].
    cbn [bind negb].
    by destruct (PyStr.contains "component_relationships" s).
Qed.

(** ** How the stages compose *)

Lemma OrderChapters_order_inv (n : nat) (parsed : yaml) (order : list Z) :
  OrderChapters_order n parsed = Return order →
  Forall (λ z, 0 ≤ z < Z.of_nat n)%Z order ∧
  (order = py_range n ∨ order ≠ []).
Proof.
  unfold OrderChapters_order. destruct parsed as [| | | | | |entries]; try done.
  destruct (od_get "chapter_order" entries) as [[| | | | |l|]|] eqn:E; try done.
  intros Hret.
  destruct (OrderChapters_order_bounds n entries l E) as (order' & Heq & Hall).
  unfold OrderChapters_order in Heq. rewrite E in Heq.
  rewrite Hret in Heq. injection Heq as <-. split; [done|].
  injection Hret as <-. destruct (omap (valid_index n) l); [by left | by right].
Qed.

Lemma list_item_in_range {A} (l : list A) (z : Z) :
  (- Z.of_nat (length l) ≤ z < Z.of_nat (length l))%Z →
  ∃ a, list_item l z = Return a ∧
       l !! Z.to_nat (if (z <? 0)%Z then z + Z.of_nat (length l) else z)%Z
         = Some a.
Proof.
  intros Hz. unfold list_item.
  set (pos := (if (z <? 0)%Z then z + Z.of_nat (length l) else z)%Z).
  assert (0 ≤ pos < Z.of_nat (length l))%Z as Hpos.
  { unfold pos. destruct (Z.ltb_spec z 0); lia. }
  rewrite bool_decide_true by done.
  destruct (l !! Z.to_nat pos) as [a|] eqn:E; [by exists a|].
  apply lookup_ge_None in E. lia.
Qed.

Lemma IdentifyAbstractions_check_inv (parsed : yaml) (abstractions : list yaml) :
  IdentifyAbstractions_check parsed = Return abstractions → abstractions ≠ [].
Proof.
  unfold IdentifyAbstractions_check.
  destruct parsed as [| | | | | |entries]; try done.
  destruct (od_get "abstractions" entries) as [[| | | | |[|a l]|]|]; try done.
  by intros [= <-].
Qed.

(** X17: the abstractions that pass the validation are never an empty list,
    so the chapter order stored for them is never empty, and each of its
    entries is a position of the list of abstractions: looking an
    abstraction up by a stored index does not fail. *)
Theorem chapter_order_indexes_abstractions (parsed reply : yaml)
    (abstractions : list yaml) (order : list Z) :
  IdentifyAbstractions_check parsed = Return abstractions →
  OrderChapters_order (length abstractions) reply = Return order →
  abstractions ≠ [] ∧ order ≠ [] ∧
  Forall (λ z, ∃ a, list_item abstractions z = Return a ∧
                    abstractions !! Z.to_nat z = Some a) order.
Proof.
  intros Habs%IdentifyAbstractions_check_inv [Hall Hne]%OrderChapters_order_inv.
  split; [done|]. split.
  - destruct Hne as [->|?]; [|done].
    destruct abstractions; [done|]. done.
  - eapply Forall_impl; [exact Hall|]. intros z Hz. simpl in Hz.
    destruct (list_item_in_range abstractions z) as (a & Ha & Hl); [lia|].
    exists a. split; [done|].
    destruct (Z.ltb_spec z 0); [lia | done].
Qed.

Lemma chapter_order_indexes_abstractions_witness :
  [YDict [("name", YStr "Engine")]; YDict [("name", YStr "Parser")]] ≠ [] ∧
  [1; 0]%Z ≠ [] ∧
  Forall (λ z, ∃ a,
    list_item [YDict [("name", YStr "Engine")]; YDict [("name", YStr "Parser")]] z
      = Return a ∧
    [YDict [("name", YStr "Engine")]; YDict [("name", YStr "Parser")]]
      !! Z.to_nat z = Some a) [1; 0]%Z.
Proof.
  apply (chapter_order_indexes_abstractions
           (YDict [("abstractions",
                    YList [YDict [("name", YStr "Engine")];
                           YDict [("name", YStr "Parser")]])])
           (YDict [("chapter_order", YList [YInt 1; YInt 5; YInt 0])])).
  - reflexivity.
  - reflexivity.
Defined.

(** X18: a fractional index inside the range passes the range test of the
    core-file selection and is stored; the next stage then fails on it with
    [TypeError] when it builds its context, because a float is no list
    index. *)
Theorem fractional_index_breaks_context (files : list (string * string))
    (q : Q) :
  Qle_bool 0 q = true →
  Qle_bool (inject_Z (Z.of_nat (length files))) q = false →
  IdentifyCore_select (length files)
    (YDict [("core_files", YList [YDict [("index", YFloat (FFinite q))]])]) =
    Return [YFloat (FFinite q)] ∧
  IdentifyAbstractions_context files [YFloat (FFinite q)] = Raise TypeError.
Proof.
  intros H0 Hn. split.
  - unfold IdentifyCore_select. simpl. by rewrite H0, Hn.
  - unfold IdentifyAbstractions_context. simpl. by rewrite Hn.
Qed.

Lemma fractional_index_breaks_context_witness :
  IdentifyCore_select (length Example.files)
    (YDict [("core_files", YList [YDict [("index", YFloat (FFinite (3 # 2)))]])]) =
    Return [YFloat (FFinite (3 # 2))] ∧
  IdentifyAbstractions_context Example.files [YFloat (FFinite (3 # 2))] =
    Raise TypeError.
Proof.
  apply (fractional_index_breaks_context Example.files (3 # 2)); reflexivity.
Defined.

Lemma core_steps_inv (n : nat) (items : list yaml) (acc : result (list yaml))
    (selected : list yaml) :
  foldl (core_step n) acc items = Return selected →
  ∃ acc0, acc = Return acc0 ∧
    (Forall (λ v, in_range n v = Return true) acc0 →
     Forall (λ v, in_range n v = Return true) selected).
Proof.
  revert selected. induction items as [|item items IH] using rev_ind;
    intros selected.
  - simpl. intros ->. eauto.
  - rewrite foldl_app. cbn [foldl]. unfold core_step at 1.
    destruct (foldl (core_step n) acc items) as [e|acc1] eqn:E; [done|].
    destruct (IH acc1 eq_refl) as (acc0 & -> & Hacc). cbn [bind].
    intros Hret. exists acc0. split; [done|]. intros H0%Hacc.
    destruct item as [| | | | | |entries];
      try (injection Hret as <-; exact H0).
    destruct (od_get "index" entries) as [idx|];
      [|injection Hret as <-; exact H0].
    destruct (in_range n idx) as [e|[]] eqn:Er; simpl in Hret; [done| |].
    + injection Hret as <-. apply Forall_app. split; [done|].
      by constructor.
    + by injection Hret as <-.
Qed.

Lemma IdentifyCore_select_inv (n : nat) (core_selection : yaml)
    (selected : list yaml) :
  IdentifyCore_select n core_selection = Return selected →
  Forall (λ v, in_range n v = Return true) selected.
Proof.
  unfold IdentifyCore_select.
  destruct core_selection as [| | | | | |entries]; try done.
  destruct (od_get "core_files" entries) as [core_files|]; [|done].
  destruct (py_iter core_files) as [e|items]; [done|]. cbn [bind].
  intros (acc0 & [= <-] & H)%core_steps_inv. by apply H.
Qed.

Lemma core_content_steps (files : list (string * string)) (idxs : list yaml)
    (acc : list string) :
  Forall (λ v, in_range (length files) v = Return true) idxs →
  Forall (λ v, is_Some (as_int v)) idxs →
  foldl (core_content_step files) (Return acc) idxs =
    Return (acc ++ (core_block <$> omap (file_at files) idxs)) ∧
  length (omap (file_at files) idxs) = length idxs.
Proof.
  revert acc. induction idxs as [|idx idxs IH]; intros acc Hr Hi; cbn [foldl].
  - csimpl. by rewrite app_nil_r.
  - apply Forall_cons in Hr as [Hr Hrs]. apply Forall_cons in Hi as [[z Hz] His].
    assert (0 ≤ z < Z.of_nat (length files))%Z as Hzr.
    { destruct idx; simpl in Hz, Hr; try done; injection Hz as <-;
        injection Hr as Hr; by apply bool_decide_eq_true in Hr. }
    assert (lt_len (length files) idx = Return true) as Hlt.
    { destruct idx; simpl in Hz; try done; injection Hz as <-; simpl;
        by rewrite bool_decide_true by lia. }
    destruct (list_item_in_range files z) as (file & Hfile & Hl); [lia|].
    destruct (Z.ltb_spec z 0); [lia|].
    assert (file_at files idx = Some file) as Hat.
    { unfold file_at. rewrite Hz. by rewrite bool_decide_true by lia. }
    assert (core_content_step files (Return acc) idx =
            Return (acc ++ [core_block file])) as ->.
    { unfold core_content_step. cbn [bind Return]. rewrite Hlt. cbn [bind].
      unfold py_list_item. rewrite Hz. unfold Return in Hfile.
      by rewrite Hfile. }
    destruct (IH (acc ++ [core_block file]) Hrs His) as [-> Hlen].
    csimpl. rewrite Hat. csimpl. split; [|by rewrite Hlen].
    by rewrite <- app_assoc.
Qed.

(** X19: every integer index the core-file selection stores is a position
    of the file list, so the context of the next stage is built without
    error: it joins, in the order of the selection and with repetitions, one
    block per stored index, made of the path and the content of that
    file. *)
Theorem core_context_of_selection (files : list (string * string))
    (core_selection : yaml) (selected : list yaml) :
  IdentifyCore_select (length files) core_selection = Return selected →
  Forall (λ v, is_Some (as_int v)) selected →
  IdentifyAbstractions_context files selected =
    Return (py_join (newline +:+ newline +:+ "---" +:+ newline +:+ newline)
              (core_block <$> omap (file_at files) selected)) ∧
  length (omap (file_at files) selected) = length selected.
Proof.
  intros Hsel%IdentifyCore_select_inv Hint.
  destruct (core_content_steps files selected [] Hsel Hint) as [Hfold Hlen].
  split; [|done]. unfold IdentifyAbstractions_context. by rewrite Hfold.
Qed.

Lemma core_context_of_selection_witness :
  IdentifyAbstractions_context Example.files [YInt 1; YInt 0; YInt 1] =
    Return (py_join (newline +:+ newline +:+ "---" +:+ newline +:+ newline)
              (core_block <$>
                 omap (file_at Example.files) [YInt 1; YInt 0; YInt 1])) ∧
  length (omap (file_at Example.files) [YInt 1; YInt 0; YInt 1]) =
    length [YInt 1; YInt 0; YInt 1].
Proof.
  apply (core_context_of_selection Example.files
           (YDict [("core_files",
                    YList [YDict [("index", YInt 1)]; YDict [("index", YInt 7)];
                           YDict [("index", YInt 0)]; YDict [("index", YInt 1)]])])).
  - reflexivity.
  - repeat constructor; eauto.
Defined.

(** X20: the number of core files asked for in the prompt is not enforced
    on the reply: a reply that names the same valid index any number of times
    is stored whole, repetitions included, also when it is longer than the
    requested maximum. *)
Theorem selection_is_not_capped (n_files : nat) :
  (0 < n_files)%nat →
  (∀ k, IdentifyCore_select n_files
          (YDict [("core_files", YList (replicate k (YDict [("index", YInt 0)])))])
        = Return (replicate k (YInt 0))) ∧
  ∃ selected,
    IdentifyCore_select n_files
      (YDict [("core_files",
               YList (replicate (S (max_core_files n_files))
                        (YDict [("index", YInt 0)])))])
    = Return selected ∧
    (max_core_files n_files < length selected)%nat.
Proof.
  intros Hn.
  assert (∀ k, IdentifyCore_select n_files
      (YDict [("core_files", YList (replicate k (YDict [("index", YInt 0)])))])
    = Return (replicate k (YInt 0))) as Hall.
  { intros k.
    assert (omap item_index (replicate k (YDict [("index", YInt 0)])) =
            replicate k (YInt 0)) as Hidx.
    { induction k as [|k IH]; [done|]. csimpl. by rewrite IH. }
    assert (od_get "core_files"
              [("core_files", YList (replicate k (YDict [("index", YInt 0)])))]
            = Some (YList (replicate k (YDict [("index", YInt 0)])))) as Hget
      by reflexivity.
    unfold IdentifyCore_select. rewrite Hget. cbn [py_iter bind Return].
    rewrite core_steps_numeric.
    - rewrite Hidx. cbn [app]. f_equal. clear -Hn.
      induction k as [|k IH]; [done|]. cbn [replicate].
      rewrite filter_cons, IH. rewrite decide_True; [done|].
      unfold in_rangeb. simpl. apply bool_decide_eq_true. lia.
    - rewrite Hidx. clear. induction k as [|k IH]; [constructor|].
      by constructor. }
  split; [done|]. eexists. split; [apply Hall|].
  rewrite length_replicate. lia.
Qed.

Lemma selection_is_not_capped_witness :
  (∀ k, IdentifyCore_select 4
          (YDict [("core_files", YList (replicate k (YDict [("index", YInt 0)])))])
        = Return (replicate k (YInt 0))) ∧
  ∃ selected,
    IdentifyCore_select 4
      (YDict [("core_files",
               YList (replicate (S (max_core_files 4))
                        (YDict [("index", YInt 0)])))])
    = Return selected ∧
    (max_core_files 4 < length selected)%nat.
Proof. apply (selection_is_not_capped 4). lia. Defined.

(** X21: when the project name has to be derived from the repository URL
    and the include patterns are missing from the shared context, [prep]
    raises [KeyError] for them after it has already stored the derived name:
    the write survives the failure. *)
Theorem prep_raises_after_naming (pv : Provider)
    (shared : gmap string value) (url : string) :
  shared_get shared "repo_url" = VStr url →
  url ≠ EmptyString →
  truthy (shared_get shared "project_name") = false →
  shared !! "include_patterns" = None →
  FetchRepo_prep pv shared =
    (<["project_name" := VStr (name_of_url url)]> shared,
     Raise (KeyError "include_patterns")).
Proof.
  intros Hurl Hne Hname Hinc. unfold FetchRepo_prep.
  rewrite Hname, Hurl. unfold derive_project_name. cbn [truthy].
  rewrite bool_decide_false by done. cbn [negb bind Return].
  unfold shared_item at 1. rewrite lookup_insert_ne by done.
  by rewrite Hinc.
Qed.

Lemma prep_raises_after_naming_witness :
  FetchRepo_prep Example.empty_provider
    (<["repo_url" := VStr "https://github.com/owner/project.git"]> ∅) =
    (<["project_name" := VStr (name_of_url "https://github.com/owner/project.git")]>
       (<["repo_url" := VStr "https://github.com/owner/project.git"]> ∅),
     Raise (KeyError "include_patterns")).
Proof.
  apply (prep_raises_after_naming Example.empty_provider
           (<["repo_url" := VStr "https://github.com/owner/project.git"]> ∅)
           "https://github.com/owner/project.git").
  - reflexivity.
  - discriminate.
  - reflexivity.
  - reflexivity.
Defined.

(** ** Properties of the chapter contexts *)

Lemma file_contents_steps (files : list (string * string)) (l : list yaml)
    (acc : list string) :
  Forall (λ v, ∃ z, v = YInt z ∧ (- Z.of_nat (length files) ≤ z)%Z) l →
  ∃ blocks, foldl (file_contents_step files) (Return acc) l =
            Return (acc ++ blocks).
Proof.
  revert acc. induction l as [|v l IH]; intros acc Hall; cbn [foldl].
  - exists []. by rewrite app_nil_r.
  - apply Forall_cons in Hall as [(z & -> & Hz) Hall].
    unfold file_contents_step at 2. cbn [bind Return lt_len].
    case_bool_decide as Hlt; cbn [bind].
    + destruct (list_item_in_range files z) as (file & Hfile & _); [lia|].
      unfold py_list_item. cbn [as_int]. unfold Return in Hfile.
      rewrite Hfile. cbn [bind].
      destruct (IH (acc ++ [file_block file]) Hall) as [blocks Hb].
      exists (file_block file :: blocks). unfold Return in *. rewrite Hb.
      by rewrite <- app_assoc.
    + by apply IH.
Qed.

Lemma chapter_context_of_ok (abstractions : list yaml) (relationships : yaml)
    (files : list (string * string)) (z : Z) :
  (0 ≤ z < Z.of_nat (length abstractions))%Z →
  Forall (lists_files_of (length files)) abstractions →
  ∃ context,
    chapter_context_of abstractions relationships files z = Return context ∧
    cc_abstraction_index context = z ∧
    abstractions !! Z.to_nat z = Some (cc_abstraction context).
Proof.
  intros Hz Hall.
  destruct (list_item_in_range abstractions z) as (a & Ha & Hl); [lia|].
  destruct (Z.ltb_spec z 0); [lia|].
  rewrite Forall_forall in Hall.
  destruct (Hall a) as (entries & -> & Hfiles).
  { by eapply list_elem_of_lookup_2. }
  unfold chapter_context_of. unfold Return in Ha. rewrite Ha.
  cbn [bind abstraction_files Return].
  destruct (od_get "files" entries) as [[| | | | |l|]|]; try done.
  - cbn [default id py_iter bind Return].
    destruct (file_contents_steps files l [] Hfiles) as [blocks Hb].
    rewrite Hb. cbn [bind Return]. eexists. split; [done|]. done.
  - cbn [default id py_iter bind Return foldl]. eexists. split; [done|]. done.
Qed.

(** X22: composed with the chapter ordering, [WriteChapters.prep] prepares
    one context per entry of the stored order, in that order, each with the
    abstraction at the stored index, and does not fail, provided every
    abstraction is a mapping whose listed file indices are integers not below
    minus the number of files. *)
Theorem chapter_contexts_follow_order (abstractions : list yaml)
    (relationships reply : yaml) (files : list (string * string))
    (order : list Z) :
  OrderChapters_order (length abstractions) reply = Return order →
  Forall (lists_files_of (length files)) abstractions →
  ∃ contexts,
    WriteChapters_prep abstractions relationships files order = Return contexts ∧
    cc_abstraction_index <$> contexts = order ∧
    Forall (λ context,
      abstractions !! Z.to_nat (cc_abstraction_index context)
        = Some (cc_abstraction context)) contexts.
Proof.
  intros [Hrange _]%OrderChapters_order_inv Hall.
  unfold WriteChapters_prep.
  assert (∀ done_ : list chapter_context,
    ∃ more,
      foldl (λ acc order_idx,
        let* chapters_to_write := acc in
        let* context :=
          chapter_context_of abstractions relationships files order_idx in
        Return (chapters_to_write ++ [context])) (Return done_) order
      = Return (done_ ++ more) ∧
      cc_abstraction_index <$> more = order ∧
      Forall (λ context,
        abstractions !! Z.to_nat (cc_abstraction_index context)
          = Some (cc_abstraction context)) more) as Hgen.
  { induction Hrange as [|z order Hz _ IH]; intros done_; cbn [foldl].
    - exists []. by rewrite app_nil_r.
    - destruct (chapter_context_of_ok abstractions relationships files z Hz Hall)
        as (context & Hc & Hidx & Habs).
      cbn [bind Return]. unfold Return in Hc. rewrite Hc. cbn [bind].
      destruct (IH (done_ ++ [context])) as (more & Hm & Hi & Hf).
      exists (context :: more). unfold Return in *. rewrite Hm.
      split; [by rewrite <- app_assoc|]. split.
      + csimpl. by rewrite Hidx, Hi.
      + constructor; [by rewrite Hidx | done]. }
  destruct (Hgen []) as (more & Hm & Hi & Hf). by exists more.
Qed.

Lemma chapter_contexts_follow_order_witness :
  ∃ contexts,
    WriteChapters_prep
      [YDict [("name", YStr "Engine"); ("files", YList [YInt 0; YInt 9])];
       YDict [("name", YStr "Parser")]]
      YNull Example.files [1; 0]%Z = Return contexts ∧
    cc_abstraction_index <$> contexts = [1; 0]%Z ∧
    Forall (λ context,
      [YDict [("name", YStr "Engine"); ("files", YList [YInt 0; YInt 9])];
       YDict [("name", YStr "Parser")]]
        !! Z.to_nat (cc_abstraction_index context)
        = Some (cc_abstraction context)) contexts.
Proof.
  apply (chapter_contexts_follow_order
           [YDict [("name", YStr "Engine"); ("files", YList [YInt 0; YInt 9])];
            YDict [("name", YStr "Parser")]]
           YNull (YDict [("chapter_order", YList [YInt 1; YInt 0])])
           Example.files [1; 0]%Z).
  - reflexivity.
  - repeat constructor.
    + eexists. split; [reflexivity|]. simpl.
      repeat constructor; eexists; (split; [reflexivity | lia]).
    + eexists. split; [reflexivity|]. simpl. done.
Defined.

(** X23: the guard on a listed file index has no lower bound.  A negative
    index not below minus the number of files selects a file counted from
    the end; a smaller one makes the preparation of the chapter raise
    [IndexError]. *)
Theorem negative_file_index (abstractions : list yaml) (relationships : yaml)
    (files : list (string * string)) (order_idx : Z)
    (entries : list (string * yaml)) (z : Z) (rest : list yaml) :
  list_item abstractions order_idx = Return (YDict entries) →
  od_get "files" entries = Some (YList (YInt z :: rest)) →
  (z < 0)%Z →
  ((z < - Z.of_nat (length files))%Z →
   chapter_context_of abstractions relationships files order_idx =
     Raise IndexError) ∧
  ((- Z.of_nat (length files) ≤ z)%Z → rest = [] →
   ∃ context file,
     chapter_context_of abstractions relationships files order_idx =
       Return context ∧
     files !! Z.to_nat (z + Z.of_nat (length files)) = Some file ∧
     cc_file_contents context = [file_block file]).
Proof.
  intros Ha Hfiles Hneg. unfold chapter_context_of. unfold Return in Ha.
  rewrite Ha. cbn [bind abstraction_files Return]. rewrite Hfiles.
  cbn [default id py_iter bind Return foldl].
  assert (file_contents_step files (Return []) (YInt z) =
          let* file := list_item files z in Return [file_block file]) as ->.
  { unfold file_contents_step. cbn [bind Return lt_len].
    by rewrite bool_decide_true by lia. }
  split.
  - intros Hlow. unfold list_item.
    destruct (Z.ltb_spec z 0); [|lia].
    rewrite bool_decide_false by lia. cbn [bind Raise].
    assert (∀ l, foldl (file_contents_step files) (inl IndexError) l
                 = inl IndexError) as Hraise.
    { induction l as [|v l IH]; [done|]. cbn [foldl]. exact IH. }
    by rewrite Hraise.
  - intros Hlow ->.
    destruct (list_item_in_range files z) as (file & Hfile & Hl); [lia|].
    destruct (Z.ltb_spec z 0); [|lia].
    unfold Return in Hfile. rewrite Hfile. cbn [bind foldl].
    eexists. exists file. split; [done|]. split; [done|]. done.
Qed.

Lemma negative_file_index_witness :
  ((-1 < - Z.of_nat (length Example.files))%Z →
   chapter_context_of [YDict [("files", YList [YInt (-1)])]] YNull
     Example.files 0 = Raise IndexError) ∧
  ((- Z.of_nat (length Example.files) ≤ -1)%Z → @nil yaml = [] →
   ∃ context file,
     chapter_context_of [YDict [("files", YList [YInt (-1)])]] YNull
       Example.files 0 = Return context ∧
     Example.files !! Z.to_nat (-1 + Z.of_nat (length Example.files))
       = Some file ∧
     cc_file_contents context = [file_block file]).
Proof.
  apply (negative_file_index [YDict [("files", YList [YInt (-1)])]] YNull
           Example.files 0 [("files", YList [YInt (-1)])] (-1) []).
  - reflexivity.
  - reflexivity.
  - lia.
Defined.

(** ** Properties of the names of the written files *)

Lemma safe_char_allowed (c : ascii) : allowed_char (safe_char c).
Proof.
  unfold safe_char, allowed_char.
  destruct (is_alnum c) eqn:Ha; [by left|].
  case_bool_decide as Hd; [by right; left|].
  case_bool_decide as Hu; cbn [orb]; by right; right.
Qed.

Lemma safe_char_fixes_allowed (c : ascii) : allowed_char c → safe_char c = c.
Proof.
  unfold safe_char, allowed_char. intros [-> | [-> | ->]]; [done| |];
    by vm_compute.
Qed.

Lemma allowed_char_plain (c : ascii) :
  allowed_char c → c ≠ "/"%char ∧ c ≠ "."%char ∧ c ≠ "\"%char.
Proof.
  unfold allowed_char. intros [Ha | [-> | ->]]; [|done..].
  repeat split; intros ->; vm_compute in Ha; discriminate.
Qed.

Lemma allowed_char_below_128 (c : ascii) :
  allowed_char c → (nat_of_ascii c < 128)%nat → plain_name_char c.
Proof.
  unfold allowed_char, plain_name_char.
  intros [Ha | [-> | ->]] Hlt; [|vm_compute; lia..].
  unfold is_alnum in Ha. cbv zeta in Ha.
  repeat (rewrite ?orb_true_iff, ?andb_true_iff, ?Nat.leb_le, ?Nat.eqb_eq in Ha).
  lia.
Qed.

(** X24: the sanitised form of a name, which becomes a directory or a file
    name, has the length of the name.  Each of its characters is one for
    which [isalnum] holds, a dash or an underscore; those below U+0080 are
    letters, digits, dashes and underscores, so it has no path separator and
    no dot.  A name made of such characters only is left as it is, and
    sanitising twice is sanitising once. *)
Theorem sanitize_is_safe (s : string) :
  String.length (sanitize s) = String.length s ∧
  all_chars allowed_char (sanitize s) ∧
  all_chars (λ c, (nat_of_ascii c < 128)%nat → plain_name_char c)
    (sanitize s) ∧
  has_char "/" (sanitize s) = false ∧
  has_char "." (sanitize s) = false ∧
  (all_chars allowed_char s → sanitize s = s) ∧
  sanitize (sanitize s) = sanitize s.
Proof.
  induction s as [|c s (Hlen & Hall & Hplain & Hsep & Hdot & Hfix & Hidem)];
    [done|].
  cbn [sanitize String.length all_chars has_char].
  pose proof (safe_char_allowed c) as Hc.
  destruct (allowed_char_plain _ Hc) as (Hs & Hd & _).
  rewrite Hlen, Hsep, Hdot, Hidem, (safe_char_fixes_allowed _ Hc).
  rewrite !bool_decide_false by done.
  repeat split; try done.
  - by apply allowed_char_below_128.
  - intros [Hc' Hs']. by rewrite (safe_char_fixes_allowed _ Hc'), Hfix.
Qed.

Lemma pretty_N_char_digit (x : N) : is_digit (pretty_N_char x).
Proof.
  unfold pretty_N_char, is_digit. repeat case_match; vm_compute; lia.
Qed.

Lemma pretty_N_go_digits (x : N) (s : string) :
  all_chars is_digit s → all_chars is_digit (pretty_N_go x s).
Proof.
  revert s. induction (N.lt_wf_0 x) as [x _ IH]; intros s Hs.
  assert (x = 0 ∨ 0 < x)%N as [-> | Hx] by lia.
  - by rewrite pretty_N_go_0.
  - rewrite pretty_N_go_step by done. apply IH; [by apply N.div_lt|].
    split; [apply pretty_N_char_digit | done].
Qed.

Lemma pretty_N_go_head (x : N) (s : string) :
  (0 < x)%N → ∃ c t, pretty_N_go x s = String c t ∧ c ≠ "0"%char.
Proof.
  revert s. induction (N.lt_wf_0 x) as [x _ IH]; intros s Hx.
  rewrite pretty_N_go_step by done.
  assert (x < 10 ∨ 10 ≤ x)%N as [Hlt | Hge] by lia.
  - rewrite N.div_small, pretty_N_go_0, N.mod_small by done.
    eexists _, _. split; [done|].
    assert (x = 1 ∨ x = 2 ∨ x = 3 ∨ x = 4 ∨ x = 5 ∨ x = 6
            ∨ x = 7 ∨ x = 8 ∨ x = 9)%N by lia; naive_solver.
  - apply IH; [by apply N.div_lt | apply N.div_str_pos; lia].
Qed.

Lemma pretty_nat_digits (n : nat) : all_chars is_digit (pretty n).
Proof.
  unfold pretty, pretty_nat, pretty, pretty_N. case_decide.
  - split; [vm_compute; lia | done].
  - by apply pretty_N_go_digits.
Qed.

Lemma pretty_nat_head (n : nat) :
  (0 < n)%nat → ∃ c t, pretty n = String c t ∧ c ≠ "0"%char.
Proof.
  intros Hn. unfold pretty, pretty_nat, pretty, pretty_N.
  rewrite decide_False by lia. apply pretty_N_go_head. lia.
Qed.

Lemma format_02d_digits (n : nat) :
  all_chars is_digit (format_02d n) ∧
  ∃ c t, format_02d n = String c t.
Proof.
  unfold format_02d. destruct (Nat.ltb_spec n 10) as [Hlt | Hge].
  - rewrite append_cons. split; [|by eexists _, _].
    split; [vm_compute; lia | apply pretty_nat_digits].
  - split; [apply pretty_nat_digits|].
    destruct (pretty_nat_head n) as (c & t & -> & _); [lia|]. by eexists _, _.
Qed.

Lemma format_02d_inj (n m : nat) : format_02d n = format_02d m → n = m.
Proof.
  unfold format_02d.
  destruct (Nat.ltb_spec n 10) as [Hn | Hn],
           (Nat.ltb_spec m 10) as [Hm | Hm]; rewrite ?append_cons; intros Heq.
  - injection Heq as Heq. by apply (inj pretty).
  - destruct (pretty_nat_head m) as (c & t & Hp & Hc); [lia|].
    rewrite Hp in Heq. injection Heq as Hhead _. congruence.
  - destruct (pretty_nat_head n) as (c & t & Hp & Hc); [lia|].
    rewrite Hp in Heq. injection Heq as Hhead _. congruence.
  - by apply (inj pretty).
Qed.

Lemma digits_prefix_unique (a b x y : string) :
  all_chars is_digit a → all_chars is_digit b →
  a +:+ String "_" x = b +:+ String "_" y → a = b.
Proof.
  revert b. induction a as [|c a IH]; intros [|d b] Ha Hb;
    rewrite ?append_cons; intros Heq.
  - done.
  - injection Heq as <- _. destruct Hb as [Hd _]. vm_compute in Hd. lia.
  - injection Heq as -> _. destruct Ha as [Hc _]. vm_compute in Hc. lia.
  - injection Heq as -> Heq. f_equal.
    destruct Ha as [_ Ha], Hb as [_ Hb]. by eapply IH.
Qed.

Lemma chapter_filename_index (i j : nat) (name name' : string) :
  chapter_filename i name = chapter_filename j name' → i = j.
Proof.
  unfold chapter_filename. intros Heq.
  pose proof (digits_prefix_unique (format_02d (i + 1)) (format_02d (j + 1))
                (sanitize (PyStr.lower name) +:+ ".md")
                (sanitize (PyStr.lower name') +:+ ".md")
                (proj1 (format_02d_digits _)) (proj1 (format_02d_digits _))
                Heq) as Hnum.
  apply format_02d_inj in Hnum. lia.
Qed.

Lemma chapter_filename_head (i : nat) (name : string) :
  ∃ c t, chapter_filename i name = String c t ∧ is_digit c.
Proof.
  unfold chapter_filename.
  destruct (format_02d_digits (i + 1)) as (Hall & c & t & Heq).
  rewrite Heq in Hall |- *. rewrite append_cons. destruct Hall as [Hc _].
  by eexists _, _.
Qed.

Lemma list_item_nat {A} (l : list A) (i : nat) (a : A) :
  list_item l (Z.of_nat i) = Return a → l !! i = Some a.
Proof.
  unfold list_item. destruct (Z.ltb_spec (Z.of_nat i) 0); [lia|].
  case_bool_decide; [|done]. rewrite Nat2Z.id.
  destruct (l !! i); [|done]. by intros [= ->].
Qed.

Lemma chapter_file_inv (abstractions : list yaml) (chapters : list string)
    (i : nat) (order_idx : Z) (file : string * string) :
  chapter_file abstractions chapters i order_idx = Return file →
  (∃ name, file.1 = chapter_filename i name) ∧ chapters !! i = Some file.2.
Proof.
  unfold chapter_file.
  destruct (list_item abstractions order_idx) as [|abstraction]; [done|].
  cbn [bind]. destruct (dict_item abstraction "name") as [|[]]; try done.
  cbn [bind].
  destruct (list_item chapters (Z.of_nat i)) as [|chapter] eqn:Hch; [done|].
  cbn [bind].
  destruct (dict_item abstraction "primary_responsibility"); [done|].
  cbn [bind]. intros [= <-]. split; [by eexists|].
  by apply list_item_nat.
Qed.

Lemma chapter_files_from_inv (abstractions : list yaml)
    (chapters : list string) (order : list Z) :
  ∀ (i : nat) (files : list (string * string)),
    chapter_files_from abstractions chapters i order = Return files →
    length files = length order ∧
    ∀ k file, files !! k = Some file →
      (∃ name, file.1 = chapter_filename (i + k) name) ∧
      chapters !! (i + k)%nat = Some file.2.
Proof.
  induction order as [|order_idx order IH]; intros i files;
    cbn [chapter_files_from].
  - intros [= <-]. split; [done|]. by intros k file.
  - destruct (chapter_file abstractions chapters i order_idx) as [|file]
      eqn:Hfile; [done|].
    cbn [bind].
    destruct (chapter_files_from abstractions chapters (S i) order)
      as [|others] eqn:Hothers; [done|].
    cbn [bind]. intros [= <-].
    destruct (IH _ _ Hothers) as [Hlen Hlook].
    split; [by cbn [length]; rewrite Hlen|].
    intros [|k] file' Hk.
    + injection Hk as <-. rewrite Nat.add_0_r. by eapply chapter_file_inv.
    + rewrite <- Nat.add_succ_comm. by apply Hlook.
Qed.

(** X25: when the loop over the chapter order completes, it has prepared one
    file per entry of the order; the file names are pairwise different, also
    for abstractions with the same name, because each starts with its own
    chapter number; no name is that of the index or of the overview; the
    [k]-th file holds the [k]-th chapter. *)
Theorem chapter_filenames_distinct (abstractions : list yaml)
    (chapters : list string) (order : list Z)
    (files : list (string * string)) :
  chapter_files abstractions chapters order = Return files →
  length files = length order ∧
  NoDup files.*1 ∧
  (∀ k file, files !! k = Some file → chapters !! k = Some file.2) ∧
  Forall (λ file, file.1 ≠ "index.md" ∧ file.1 ≠ "project_overview.md") files.
Proof.
  intros Hfiles. unfold chapter_files in Hfiles.
  destruct (chapter_files_from_inv _ _ _ _ _ Hfiles) as [Hlen Hlook].
  split; [done|]. split; [|split].
  - apply NoDup_alt. intros k1 k2 filename.
    rewrite !list_lookup_fmap.
    destruct (files !! k1) as [f1|] eqn:H1; [|done].
    destruct (files !! k2) as [f2|] eqn:H2; [|done].
    cbn [fmap option_fmap option_map]. intros [= <-] [= Heq].
    destruct (Hlook _ _ H1) as [[n1 E1] _].
    destruct (Hlook _ _ H2) as [[n2 E2] _].
    rewrite E1, E2 in Heq. by apply chapter_filename_index in Heq.
  - intros k file Hk. by destruct (Hlook _ _ Hk) as [_ ?].
  - apply Forall_forall. intros file [k Hk]%list_elem_of_lookup_1.
    destruct (Hlook _ _ Hk) as [[name ->] _].
    destruct (chapter_filename_head (0 + k) name) as (c & t & -> & Hc).
    split; intros [= -> _]; vm_compute in Hc; lia.
Qed.

Lemma chapter_filenames_distinct_witness :
  length [("01_engine.md", "one"); ("02_engine.md", "two")] = length [0; 0]%Z ∧
  NoDup [("01_engine.md", "one"); ("02_engine.md", "two")].*1 ∧
  (∀ k file,
     [("01_engine.md", "one"); ("02_engine.md", "two")] !! k = Some file →
     ["one"; "two"] !! k = Some file.2) ∧
  Forall (λ file, file.1 ≠ "index.md" ∧ file.1 ≠ "project_overview.md")
    [("01_engine.md", "one"); ("02_engine.md", "two")].
Proof.
  apply (chapter_filenames_distinct
           [YDict [("name", YStr "Engine");
                   ("primary_responsibility", YStr "runs")]]
           ["one"; "two"] [0; 0]%Z).
  vm_compute. reflexivity.
Defined.
